(** * Biomechanical analysis framework: HumanIK and HumanID

    A shallow embedding of [src/IK/src/InverseKinematics.cpp] and
    [src/ID/src/InverseDynamics.cpp], and the properties of the two
    estimators that the specification states.

    The numerical libraries the two classes are built on (manif, iDynTree,
    the task-priority solver and the integrator of bipedal-locomotion-framework,
    the Berdy helper and its sparse MAP solver) are interfaces: each is a type
    class whose methods are the calls the source makes.  Everything the source
    itself does with the values that come back (which call follows which,
    what is stored where, which early return is taken) is written out.

    A dereference of a null pointer, an index outside a vector and a
    floating-point value that does not fit the integer it is cast to have no
    defined result in C++; functions that can reach one of them return an
    [option], and [None] is that case. *)

From Stdlib Require Import ZArith Lia SpecFloat.
From stdpp Require Import gmap strings list fin_maps.

Open Scope Z_scope.

(** ** IEEE 754 binary64, as [double] *)

Module Double.

Definition prec : Z := 53.
Definition emax : Z := 1024.

Definition double : Type := spec_float.

Definition zero : double := S754_zero false.
Definition of_Z (z : Z) : double := binary_normalize prec emax z 0 false.
Definition add : double -> double -> double := SFadd prec emax.
Definition sub : double -> double -> double := SFsub prec emax.
Definition mul : double -> double -> double := SFmul prec emax.
Definition div : double -> double -> double := SFdiv prec emax.
Definition opp : double -> double := SFopp.
Definition leb : double -> double -> bool := SFleb.

(** The integer part of a finite double, rounded toward zero: the value a
    C++ [static_cast] to an integer type starts from. *)
Definition truncZ (x : double) : option Z :=
  match x with
  | S754_zero _ => Some 0
  | S754_finite s m e =>
      Some (if 0 <=? e then cond_Zopp s (Zpos m * 2 ^ e)
            else Z.quot (cond_Zopp s (Zpos m)) (2 ^ (- e)))
  | S754_infinity _ | S754_nan => None
  end.

(** The largest integer not above a finite double ([std::floor], as an
    integer). *)
Definition floorZ (x : double) : option Z :=
  match x with
  | S754_zero _ => Some 0
  | S754_finite s m e =>
      Some (if 0 <=? e then cond_Zopp s (Zpos m) * 2 ^ e
            else Z.div (cond_Zopp s (Zpos m)) (2 ^ (- e)))
  | S754_infinity _ | S754_nan => None
  end.

End Double.

Import Double.

(** ** [std::chrono] conversions used by [setDt] and [getDt] *)

Module Chrono.

Definition int64_min : Z := - 2 ^ 63.
Definition int64_max : Z := 2 ^ 63 - 1.

Definition in_int64 (z : Z) : bool := (int64_min <=? z) && (z <=? int64_max).

(** [static_cast<std::int64_t>(x)]: truncation; undefined when the truncated
    value is not an [int64_t]. *)
Definition static_cast_int64 (x : double) : option Z :=
  z ← truncZ x; if in_int64 z then Some z else None.

Definition nano_den : Z := 1000000000.

(** [duration_cast<nanoseconds>(duration<double>(dt))]: the count is
    multiplied by the period ratio in [double] and cast to the 64-bit
    representation of [nanoseconds]. *)
Definition duration_cast_nanoseconds (dt : double) : option Z :=
  static_cast_int64 (mul dt (of_Z nano_den)).

(** [duration_cast<duration<double>>(ns).count()]: the count is converted
    to [double] and divided by the period ratio. *)
Definition duration_cast_seconds (ns : Z) : double :=
  div (of_Z ns) (of_Z nano_den).

End Chrono.

(** ** Fixed-size Eigen values *)

Abbreviation VectorXd := (list double).
Definition Vector3d : Type := (double * double * double)%type.
Definition Matrix3d : Type := (Vector3d * Vector3d * Vector3d)%type.

(** A 4x4 matrix, by the blocks the source reads and writes:
    [topLeftCorner<3,3>()], [topRightCorner<3,1>()] and the last row. *)
Record Matrix4d : Type := mkMatrix4d {
  topLeftCorner : Matrix3d;
  topRightCorner : Vector3d;
  bottomRow : double * double * double * double
}.

(** A 6x1 vector, by [topRows<3>()] and [bottomRows<3>()]. *)
Record Vector6d : Type := mkVector6d {
  topRows : Vector3d;
  bottomRows : Vector3d
}.

Definition Vector3d_Constant (c : double) : Vector3d := (c, c, c).

(** The conversion of a [std::size_t] to [int]. *)
Definition int_of_size_t (n : nat) : Z :=
  let z := Z.of_nat n mod 2 ^ 32 in
  if z <? 2 ^ 31 then z else z - 2 ^ 32.

(** [Eigen::Map<Matrix<double,3,3,RowMajor>>(v.data())]: reads nine doubles
    from the buffer of [v]. *)
Definition Map_RowMajor33 (v : list double) : option Matrix3d :=
  match v with
  | a :: b :: c :: d :: e :: f :: g :: h :: i :: _ =>
      Some ((a, b, c), (d, e, f), (g, h, i))
  | _ => None
  end.

(** ** The parameters handler

    A configuration is a tree of groups; a group holds typed parameters.
    [getParameter] fails when the name is missing or holds another type,
    [getGroup] gives a null handle when the group is missing. *)

Inductive ParamValue : Type :=
| PInt (z : Z)
| PDouble (d : double)
| PString (s : string)
| PVectorDouble (v : list double)
| PVectorString (v : list string).

#[warnings="-register-all"]
Inductive Handler : Type :=
| MkHandler (params : gmap string ParamValue) (groups : gmap string Handler).

Definition params (h : Handler) : gmap string ParamValue :=
  match h with MkHandler p _ => p end.

Definition groups (h : Handler) : gmap string Handler :=
  match h with MkHandler _ g => g end.

Definition getGroup (h : Handler) (name : string) : option Handler :=
  groups h !! name.

Definition getParameter_int (h : Handler) (name : string) : option Z :=
  match params h !! name with Some (PInt z) => Some z | _ => None end.

Definition getParameter_double (h : Handler) (name : string) : option double :=
  match params h !! name with Some (PDouble d) => Some d | _ => None end.

Definition getParameter_string (h : Handler) (name : string) : option string :=
  match params h !! name with Some (PString s) => Some s | _ => None end.

Definition getParameter_vector_double (h : Handler) (name : string)
  : option (list double) :=
  match params h !! name with Some (PVectorDouble v) => Some v | _ => None end.

Definition getParameter_vector_string (h : Handler) (name : string)
  : option (list string) :=
  match params h !! name with Some (PVectorString v) => Some v | _ => None end.

(** * Inverse kinematics: [HumanIK] *)

Module IK.

(** ** The libraries [HumanIK] calls *)

(** Each library is two classes: the types of its objects, which the state
    of [HumanIK] is made of, and its operations. *)

(** manif: rotations and their tangent vectors. *)
Class ManifTypes : Type := {
  SO3d : Type;
  SO3Tangentd : Type;
  SE3Tangentd : Type
}.

Class Manif `{ManifTypes} : Type := {
  SO3d_Identity : SO3d;
  SO3d_mul : SO3d -> SO3d -> SO3d;
  SO3d_inverse : SO3d -> SO3d;
  SO3d_rotation : SO3d -> Matrix3d;
  toManifRot : Matrix3d -> SO3d;
  SE3Tangentd_coeffs : SE3Tangentd -> Vector6d
}.

(** What [getRobotState] writes and [setRobotState] reads. *)
Record RobotState : Type := mkRobotState {
  world_T_base : Matrix4d;
  s : VectorXd;
  base_velocity : Vector6d;
  s_dot : VectorXd;
  world_gravity : Vector3d
}.

(** iDynTree: the articulated model. *)
Class KinDynTypes : Type := {
  KinDynComputations : Type
}.

Class KinDyn `{KinDynTypes} : Type := {
  isValid : KinDynComputations -> bool;
  getNrOfDegreesOfFreedom : KinDynComputations -> nat;
  getRobotState : KinDynComputations -> RobotState;
  setRobotState : KinDynComputations -> RobotState -> bool * KinDynComputations
}.

(** bipedal-locomotion-framework: the tasks, the task-priority solver, the
    floating-base kinematic system and its fixed-step integrator.  A method
    that changes its object gives the object back. *)
Class BLFTypes : Type := {
  SO3Task : Type;
  GravityTask : Type;
  MultiStateWeightProvider : Type;
  QPInverseKinematics : Type;
  VariablesHandler : Type;
  FloatingBaseSystemKinematics : Type;
  ForwardEuler : Type
}.

Class BLF `{ManifTypes} `{KinDynTypes} `{BLFTypes} : Type := {
  make_SO3Task : SO3Task;
  SO3Task_setKinDyn : SO3Task -> option KinDynComputations -> bool * SO3Task;
  SO3Task_initialize : SO3Task -> Handler -> bool * SO3Task;
  SO3Task_setSetPoint : SO3Task -> SO3d -> SO3Tangentd -> bool * SO3Task;

  make_GravityTask : GravityTask;
  GravityTask_setKinDyn : GravityTask -> option KinDynComputations -> bool * GravityTask;
  GravityTask_initialize : GravityTask -> Handler -> bool * GravityTask;

  make_MultiStateWeightProvider : MultiStateWeightProvider;
  MultiStateWeightProvider_initialize :
    MultiStateWeightProvider -> Handler -> bool * MultiStateWeightProvider;

  addVariable : VariablesHandler -> string -> nat -> bool * VariablesHandler;

  qpIK_initialize : QPInverseKinematics -> option Handler -> bool * QPInverseKinematics;
  qpIK_addTask_SO3 :
    QPInverseKinematics -> SO3Task -> string -> nat -> Vector3d -> bool * QPInverseKinematics;
  qpIK_addTask_Gravity :
    QPInverseKinematics -> GravityTask -> string -> nat -> MultiStateWeightProvider ->
    bool * QPInverseKinematics;
  qpIK_finalize : QPInverseKinematics -> VariablesHandler -> bool * QPInverseKinematics;
  (** [advance] reads the tasks the solver holds pointers to, and through
      them the model. *)
  qpIK_advance :
    QPInverseKinematics -> gmap Z SO3Task -> gmap Z GravityTask ->
    option KinDynComputations -> bool * QPInverseKinematics;
  qpIK_isOutputValid : QPInverseKinematics -> bool;
  qpIK_getOutput_jointVelocity : QPInverseKinematics -> VectorXd;
  qpIK_getOutput_baseVelocity : QPInverseKinematics -> SE3Tangentd;

  make_FloatingBaseSystemKinematics : FloatingBaseSystemKinematics;
  setState :
    FloatingBaseSystemKinematics -> Vector3d * SO3d * VectorXd ->
    bool * FloatingBaseSystemKinematics;
  setControlInput :
    FloatingBaseSystemKinematics -> Vector6d * VectorXd ->
    bool * FloatingBaseSystemKinematics;

  make_ForwardEuler : ForwardEuler;
  setDynamicalSystem : ForwardEuler -> bool * ForwardEuler;
  setIntegrationStep : ForwardEuler -> Z -> bool * ForwardEuler;
  (** The integrator holds a pointer to the system: [integrate] advances the
      state of the system, and [getSolution] is that state. *)
  integrate :
    ForwardEuler -> FloatingBaseSystemKinematics -> Z -> Z ->
    bool * ForwardEuler * FloatingBaseSystemKinematics;
  getSolution : FloatingBaseSystemKinematics -> Vector3d * SO3d * VectorXd
}.

Section HumanIK.

Context {manifT : ManifTypes} {kinDynT : KinDynTypes} {blfT : BLFTypes}
        {manifO : Manif} {kinDynO : KinDyn} {blfO : BLF}.

(** ** The state of a [HumanIK] object *)

Record OrientationTask : Type := mkOrientationTask {
  ot_task : SO3Task;
  ot_nodeNumber : Z;
  IMU_R_link : SO3d;
  calibrationMatrix : SO3d
}.

Record GravityTaskStruct : Type := mkGravityTaskStruct {
  gt_task : GravityTask;
  gt_nodeNumber : Z;
  gt_weightProvider : MultiStateWeightProvider
}.

(** [m_system]: the integrator and the system it integrates.  Both pointers
    are assigned together in [initialize] and are null before. *)
Record System : Type := mkSystem {
  integrator : ForwardEuler;
  dynamics : FloatingBaseSystemKinematics
}.

Record HumanIK : Type := mkHumanIK {
  m_dtIntegration : Z;
  m_system : option System;
  m_jointPositions : VectorXd;
  m_jointVelocities : VectorXd;
  m_basePose : Matrix4d;
  m_baseVelocity : Vector6d;
  m_gravity : Vector3d;
  m_nrDoFs : Z;
  m_OrientationTasks : gmap Z OrientationTask;
  m_GravityTasks : gmap Z GravityTaskStruct;
  m_qpIK : QPInverseKinematics;
  m_variableHandler : VariablesHandler;
  m_kinDyn : option KinDynComputations;
  calib_R_link : SO3d;
  I_R_link : SO3d
}.

Definition set_dtIntegration (st : HumanIK) (ns : Z) : HumanIK :=
  mkHumanIK ns (m_system st) (m_jointPositions st) (m_jointVelocities st)
    (m_basePose st) (m_baseVelocity st) (m_gravity st) (m_nrDoFs st)
    (m_OrientationTasks st) (m_GravityTasks st) (m_qpIK st)
    (m_variableHandler st) (m_kinDyn st) (calib_R_link st) (I_R_link st).

Definition set_system (st : HumanIK) (sys : option System) : HumanIK :=
  mkHumanIK (m_dtIntegration st) sys (m_jointPositions st) (m_jointVelocities st)
    (m_basePose st) (m_baseVelocity st) (m_gravity st) (m_nrDoFs st)
    (m_OrientationTasks st) (m_GravityTasks st) (m_qpIK st)
    (m_variableHandler st) (m_kinDyn st) (calib_R_link st) (I_R_link st).

Definition set_robotState (st : HumanIK) (rs : RobotState) : HumanIK :=
  mkHumanIK (m_dtIntegration st) (m_system st) (s rs) (s_dot rs)
    (world_T_base rs) (base_velocity rs) (world_gravity rs) (m_nrDoFs st)
    (m_OrientationTasks st) (m_GravityTasks st) (m_qpIK st)
    (m_variableHandler st) (m_kinDyn st) (calib_R_link st) (I_R_link st).

Definition set_velocities (st : HumanIK) (v : Vector6d) (qd : VectorXd) : HumanIK :=
  mkHumanIK (m_dtIntegration st) (m_system st) (m_jointPositions st) qd
    (m_basePose st) v (m_gravity st) (m_nrDoFs st)
    (m_OrientationTasks st) (m_GravityTasks st) (m_qpIK st)
    (m_variableHandler st) (m_kinDyn st) (calib_R_link st) (I_R_link st).

Definition set_configuration (st : HumanIK) (pose : Matrix4d) (q : VectorXd) : HumanIK :=
  mkHumanIK (m_dtIntegration st) (m_system st) q (m_jointVelocities st)
    pose (m_baseVelocity st) (m_gravity st) (m_nrDoFs st)
    (m_OrientationTasks st) (m_GravityTasks st) (m_qpIK st)
    (m_variableHandler st) (m_kinDyn st) (calib_R_link st) (I_R_link st).

Definition set_nrDoFs (st : HumanIK) (n : Z) : HumanIK :=
  mkHumanIK (m_dtIntegration st) (m_system st) (m_jointPositions st)
    (m_jointVelocities st) (m_basePose st) (m_baseVelocity st) (m_gravity st) n
    (m_OrientationTasks st) (m_GravityTasks st) (m_qpIK st)
    (m_variableHandler st) (m_kinDyn st) (calib_R_link st) (I_R_link st).

Definition set_OrientationTasks (st : HumanIK) (m : gmap Z OrientationTask) : HumanIK :=
  mkHumanIK (m_dtIntegration st) (m_system st) (m_jointPositions st)
    (m_jointVelocities st) (m_basePose st) (m_baseVelocity st) (m_gravity st)
    (m_nrDoFs st) m (m_GravityTasks st) (m_qpIK st)
    (m_variableHandler st) (m_kinDyn st) (calib_R_link st) (I_R_link st).

Definition set_GravityTasks (st : HumanIK) (m : gmap Z GravityTaskStruct) : HumanIK :=
  mkHumanIK (m_dtIntegration st) (m_system st) (m_jointPositions st)
    (m_jointVelocities st) (m_basePose st) (m_baseVelocity st) (m_gravity st)
    (m_nrDoFs st) (m_OrientationTasks st) m (m_qpIK st)
    (m_variableHandler st) (m_kinDyn st) (calib_R_link st) (I_R_link st).

Definition set_qpIK (st : HumanIK) (qp : QPInverseKinematics) : HumanIK :=
  mkHumanIK (m_dtIntegration st) (m_system st) (m_jointPositions st)
    (m_jointVelocities st) (m_basePose st) (m_baseVelocity st) (m_gravity st)
    (m_nrDoFs st) (m_OrientationTasks st) (m_GravityTasks st) qp
    (m_variableHandler st) (m_kinDyn st) (calib_R_link st) (I_R_link st).

Definition set_variableHandler (st : HumanIK) (vh : VariablesHandler) : HumanIK :=
  mkHumanIK (m_dtIntegration st) (m_system st) (m_jointPositions st)
    (m_jointVelocities st) (m_basePose st) (m_baseVelocity st) (m_gravity st)
    (m_nrDoFs st) (m_OrientationTasks st) (m_GravityTasks st) (m_qpIK st)
    vh (m_kinDyn st) (calib_R_link st) (I_R_link st).

Definition set_kinDyn (st : HumanIK) (k : option KinDynComputations) : HumanIK :=
  mkHumanIK (m_dtIntegration st) (m_system st) (m_jointPositions st)
    (m_jointVelocities st) (m_basePose st) (m_baseVelocity st) (m_gravity st)
    (m_nrDoFs st) (m_OrientationTasks st) (m_GravityTasks st) (m_qpIK st)
    (m_variableHandler st) k (calib_R_link st) (I_R_link st).

Definition set_I_R_link (st : HumanIK) (r : SO3d) : HumanIK :=
  mkHumanIK (m_dtIntegration st) (m_system st) (m_jointPositions st)
    (m_jointVelocities st) (m_basePose st) (m_baseVelocity st) (m_gravity st)
    (m_nrDoFs st) (m_OrientationTasks st) (m_GravityTasks st) (m_qpIK st)
    (m_variableHandler st) (m_kinDyn st) (calib_R_link st) r.

(** ** [HumanIK::initialize] *)

(** Modelled from the spec: the entry type of [m_OrientationTasks] is
    declared in [InverseKinematics.h], which is missing from the sources; by
    section 3 of the specification the calibration of a node is "initialized
    to identity", and so is the calibration of the entry that
    [m_OrientationTasks[nodeNumber]] inserts for a new node. *)
Definition new_OrientationTask : OrientationTask :=
  mkOrientationTask make_SO3Task 0 SO3d_Identity SO3d_Identity.

(** [m_OrientationTasks[nodeNumber]]: the entry of the node, inserted first
    when the node has none. *)
Definition OrientationTasks_at (st : HumanIK) (n : Z) : OrientationTask :=
  default new_OrientationTask (m_OrientationTasks st !! n).

Definition highPriority : nat := 0%nat.
Definition lowPriority : nat := 1%nat.

(** The weight of every orientation task: [Weight.setConstant(10.0)]. *)
Definition Weight : Vector3d := Vector3d_Constant (of_Z 10).

(** [HumanIK::initializeGravityTask] (lines 284-319). *)
Definition initializeGravityTask (st : HumanIK) (taskName : string)
    (taskHandler : Handler) : bool * HumanIK :=
  match getParameter_int taskHandler "node_number" with
  | None => (false, st)
  | Some nodeNumber =>
      let '(okw, wp) :=
        MultiStateWeightProvider_initialize make_MultiStateWeightProvider taskHandler in
      let entry := mkGravityTaskStruct make_GravityTask nodeNumber wp in
      let st1 := set_GravityTasks st (<[nodeNumber := entry]> (m_GravityTasks st)) in
      if negb okw then (false, st1)
      else
        let '(ok1, t1) := GravityTask_setKinDyn (gt_task entry) (m_kinDyn st1) in
        let '(ok2, t2) := if ok1 then GravityTask_initialize t1 taskHandler
                          else (false, t1) in
        let '(ok3, qp) := if ok2
                          then qpIK_addTask_Gravity (m_qpIK st1) t2 taskName 1%nat wp
                          else (false, m_qpIK st1) in
        (ok3,
         set_qpIK
           (set_GravityTasks st1
              (<[nodeNumber := mkGravityTaskStruct t2 nodeNumber wp]> (m_GravityTasks st1)))
           qp)
  end.

(** The branch of the loop of [initialize] for a task of type [SO3Task]
    (lines 87-130).  The result is [None] when the rotation matrix of the
    configuration has fewer than nine entries; otherwise the flag [ok] after
    the branch, with the state. *)
Definition initializeSO3Task (ok : bool) (st : HumanIK) (task : string)
    (taskHandler : Handler) (kinDyn : KinDynComputations)
    (nodeNumber : Z) : option (bool * HumanIK) :=
  let old := OrientationTasks_at st nodeNumber in
  R ← match getParameter_vector_double taskHandler "rotation_matrix" with
      | Some rotation_matrix => toManifRot <$> Map_RowMajor33 rotation_matrix
      | None => Some SO3d_Identity
      end;
  let '(ok1, t1) := if ok then SO3Task_setKinDyn make_SO3Task (Some kinDyn)
                    else (false, make_SO3Task) in
  let '(ok2, t2) := if ok1 then SO3Task_initialize t1 taskHandler else (false, t1) in
  let '(ok3, qp) := if ok2 then qpIK_addTask_SO3 (m_qpIK st) t2 task lowPriority Weight
                    else (false, m_qpIK st) in
  let entry := mkOrientationTask t2 nodeNumber R (calibrationMatrix old) in
  Some (ok3,
        set_qpIK
          (set_OrientationTasks st (<[nodeNumber := entry]> (m_OrientationTasks st)))
          qp).

(** The loop over the configured tasks (lines 69-145).  The first component
    of the result says whether the loop ran to its end; when it did not,
    [initialize] has returned false from inside it. *)
Fixpoint initializeTasks (ptr : Handler) (kinDyn : KinDynComputations)
    (tasks : list string) (ok : bool) (st : HumanIK)
  : option (bool * bool * HumanIK) :=
  match tasks with
  | [] => Some (true, ok, st)
  | task :: rest =>
      match getGroup ptr task with
      | None => Some (false, ok, st)
      | Some taskHandler =>
          match getParameter_string taskHandler "type" with
          | None => Some (false, ok, st)
          | Some taskType =>
              if String.eqb taskType "SO3Task" then
                match getParameter_int taskHandler "node_number" with
                | None => Some (false, ok, st)
                | Some nodeNumber =>
                    '(ok', st') ← initializeSO3Task ok st task taskHandler kinDyn nodeNumber;
                    if negb ok' then Some (false, ok', st')
                    else initializeTasks ptr kinDyn rest ok' st'
                end
              else if String.eqb taskType "GravityTask" then
                let '(okg, st') := initializeGravityTask st task taskHandler in
                if negb okg then Some (false, ok, st')
                else initializeTasks ptr kinDyn rest ok st'
              else Some (false, ok, st)
          end
      end
  end.

(** [HumanIK::initialize] (lines 11-150). *)
Definition initialize (st : HumanIK) (handler : option Handler)
    (kinDyn : option KinDynComputations) : option (bool * HumanIK) :=
  match kinDyn with
  | None => Some (false, st)
  | Some k =>
      if negb (isValid k) then Some (false, st)
      else
        let st1 := set_robotState (set_kinDyn st (Some k)) (getRobotState k) in
        let '(_, dyn) :=
          setState make_FloatingBaseSystemKinematics
            (topRightCorner (m_basePose st1),
             toManifRot (topLeftCorner (m_basePose st1)),
             m_jointPositions st1) in
        let '(_, integ) := setDynamicalSystem make_ForwardEuler in
        let st2 :=
          set_nrDoFs (set_system st1 (Some (mkSystem integ dyn)))
                     (int_of_size_t (getNrOfDegreesOfFreedom k)) in
        match handler with
        | None => Some (false, st2)
        | Some ptr =>
            match getParameter_vector_string ptr "tasks" with
            | None => Some (false, st2)
            | Some tasks =>
                let '(ok, qp) := qpIK_initialize (m_qpIK st2) (getGroup ptr "IK") in
                let st3 := set_qpIK st2 qp in
                group ← getGroup ptr "IK";
                let variable :=
                  default "" (getParameter_string group "robot_velocity_variable_name") in
                let '(_, vh) :=
                  addVariable (m_variableHandler st3) variable
                              (getNrOfDegreesOfFreedom k + 6)%nat in
                let st4 := set_variableHandler st3 vh in
                '(finished, ok', st5) ← initializeTasks ptr k tasks ok st4;
                if negb finished then Some (false, st5)
                else
                  let '(_, qp') := qpIK_finalize (m_qpIK st5) (m_variableHandler st5) in
                  Some (ok', set_qpIK st5 qp')
            end
        end
  end.

(** ** The time step *)

(** [HumanIK::setDt] (lines 152-158). *)
Definition setDt (st : HumanIK) (dt : double) : option (bool * HumanIK) :=
  ns ← Chrono.duration_cast_nanoseconds dt;
  let st1 := set_dtIntegration st ns in
  sys ← m_system st1;
  let '(ok, integ) := setIntegrationStep (integrator sys) (m_dtIntegration st1) in
  Some (ok, set_system st1 (Some (mkSystem integ (dynamics sys)))).

(** [HumanIK::getDt] (lines 160-163). *)
Definition getDt (st : HumanIK) : double :=
  Chrono.duration_cast_seconds (m_dtIntegration st).

(** [HumanIK::getDoFsNumber] (lines 165-168). *)
Definition getDoFsNumber (st : HumanIK) : Z := m_nrDoFs st.

(** ** Set points and calibration *)

(** [HumanIK::setNodeSetPoint] (lines 170-184). *)
Definition setNodeSetPoint (st : HumanIK) (node : Z) (I_R_IMU : SO3d)
    (I_omega_IMU : SO3Tangentd) : bool * HumanIK :=
  match m_OrientationTasks st !! node with
  | None => (false, st)
  | Some ot =>
      let R := SO3d_mul (SO3d_mul (calibrationMatrix ot) I_R_IMU) (IMU_R_link ot) in
      let '(ok, t) := SO3Task_setSetPoint (ot_task ot) R I_omega_IMU in
      (ok,
       set_OrientationTasks (set_I_R_link st R)
         (<[node := mkOrientationTask t (ot_nodeNumber ot) (IMU_R_link ot)
                                      (calibrationMatrix ot)]>
            (m_OrientationTasks st)))
  end.

(** [HumanIK::TPoseCalibrationNode] (lines 186-197). *)
Definition TPoseCalibrationNode (st : HumanIK) (node : Z) (I_R_IMU : SO3d)
  : bool * HumanIK :=
  match m_OrientationTasks st !! node with
  | None => (false, st)
  | Some ot =>
      let C := SO3d_mul (calib_R_link st)
                        (SO3d_inverse (SO3d_mul I_R_IMU (IMU_R_link ot))) in
      (true,
       set_OrientationTasks st
         (<[node := mkOrientationTask (ot_task ot) (ot_nodeNumber ot) (IMU_R_link ot) C]>
            (m_OrientationTasks st)))
  end.

(** ** One control cycle *)

(** [HumanIK::advance] (lines 199-228). *)
Definition advance (st : HumanIK) : option (bool * HumanIK) :=
  let '(ok1, qp) :=
    qpIK_advance (m_qpIK st) (ot_task <$> m_OrientationTasks st)
                 (gt_task <$> m_GravityTasks st) (m_kinDyn st) in
  let st1 := set_qpIK st qp in
  if negb (ok1 && qpIK_isOutputValid qp) then Some (false, st1)
  else
    let st2 :=
      set_velocities st1
        (SE3Tangentd_coeffs (qpIK_getOutput_baseVelocity qp))
        (qpIK_getOutput_jointVelocity qp) in
    sys ← m_system st2;
    let '(ok2, dyn) :=
      setControlInput (dynamics sys) (m_baseVelocity st2, m_jointVelocities st2) in
    let '(ok3, integ, dyn') :=
      if ok2 then integrate (integrator sys) dyn 0 (m_dtIntegration st2)
      else (false, integrator sys, dyn) in
    let st3 := set_system st2 (Some (mkSystem integ dyn')) in
    if negb ok3 then Some (false, st3)
    else
      let '(basePosition, baseRotation, jointPosition) := getSolution dyn' in
      let st4 :=
        set_configuration st3
          (mkMatrix4d (SO3d_rotation baseRotation) basePosition
                      (bottomRow (m_basePose st3)))
          jointPosition in
      k ← m_kinDyn st4;
      let '(_, k') :=
        setRobotState k
          (mkRobotState (m_basePose st4) jointPosition (m_baseVelocity st4)
                        (m_jointVelocities st4) (m_gravity st4)) in
      Some (true, set_kinDyn st4 (Some k')).

(** ** Accessors

    An accessor is a [const] method: it takes the state and the buffer of
    the caller and gives the flag it returns and the buffer afterwards. *)

(** [HumanIK::getJointPositions] (lines 230-241). *)
Definition getJointPositions (st : HumanIK) (jointPositions : VectorXd)
  : bool * VectorXd :=
  if negb (length jointPositions =? length (m_jointPositions st))%nat
  then (false, jointPositions)
  else (true, m_jointPositions st).

(** [HumanIK::getJointVelocities] (lines 243-254). *)
Definition getJointVelocities (st : HumanIK) (jointVelocities : VectorXd)
  : bool * VectorXd :=
  if negb (length jointVelocities =? length (m_jointVelocities st))%nat
  then (false, jointVelocities)
  else (true, m_jointVelocities st).

(** [HumanIK::getBasePosition] (lines 256-261). *)
Definition getBasePosition (st : HumanIK) (basePosition : Vector3d)
  : bool * Vector3d :=
  (true, topRightCorner (m_basePose st)).

(** [HumanIK::getBaseLinearVelocity] (lines 263-268). *)
Definition getBaseLinearVelocity (st : HumanIK) (baseVelocity : Vector3d)
  : bool * Vector3d :=
  (true, topRows (m_baseVelocity st)).

(** [HumanIK::getBaseOrientation] (lines 270-275). *)
Definition getBaseOrientation (st : HumanIK) (baseOrientation : Matrix3d)
  : bool * Matrix3d :=
  (true, topLeftCorner (m_basePose st)).

(** [HumanIK::getBaseAngularVelocity] (lines 277-282). *)
Definition getBaseAngularVelocity (st : HumanIK) (baseAngularVelocity : Vector3d)
  : bool * Vector3d :=
  (true, bottomRows (m_baseVelocity st)).

(** ** Sequences of calls on an initialized object *)

Inductive Call : Type :=
| CallSetDt (dt : double)
| CallSetNodeSetPoint (node : Z) (I_R_IMU : SO3d) (I_omega_IMU : SO3Tangentd)
| CallTPoseCalibrationNode (node : Z) (I_R_IMU : SO3d)
| CallAdvance.

Definition call (st : HumanIK) (c : Call) : option (bool * HumanIK) :=
  match c with
  | CallSetDt dt => setDt st dt
  | CallSetNodeSetPoint node R w => Some (setNodeSetPoint st node R w)
  | CallTPoseCalibrationNode node R => Some (TPoseCalibrationNode st node R)
  | CallAdvance => advance st
  end.

(** The state after the calls of [cs], in order, whatever each returns. *)
Fixpoint calls (st : HumanIK) (cs : list Call) : option HumanIK :=
  match cs with
  | [] => Some st
  | c :: cs' => '(_, st') ← call st c; calls st' cs'
  end.

Definition calibrates (node : Z) (c : Call) : bool :=
  match c with
  | CallTPoseCalibrationNode n _ => Z.eqb n node
  | _ => false
  end.

(** ** What the collaborators guarantee

    The sizes the libraries keep: the model reports as many joint positions
    and velocities as it has degrees of freedom and keeps their number when
    its state is set; the solver, whose variable [initialize] sizes from the
    model, outputs one velocity per degree of freedom; the state of the
    integrated system keeps the number of joints it was given. *)
Class Sizes : Prop := {
  getRobotState_s : forall k, length (s (getRobotState k)) = getNrOfDegreesOfFreedom k;
  getRobotState_s_dot :
    forall k, length (s_dot (getRobotState k)) = getNrOfDegreesOfFreedom k;
  setRobotState_dofs :
    forall k rs,
      getNrOfDegreesOfFreedom (snd (setRobotState k rs)) = getNrOfDegreesOfFreedom k;
  qpIK_output_size :
    forall qp so3 gr k qp',
      qpIK_advance qp so3 gr (Some k) = (true, qp') ->
      qpIK_isOutputValid qp' = true ->
      length (qpIK_getOutput_jointVelocity qp') = getNrOfDegreesOfFreedom k;
  setState_size :
    forall d x, length (getSolution (snd (setState d x))).2 = length x.2;
  setControlInput_size :
    forall d u,
      length (getSolution (snd (setControlInput d u))).2 = length (getSolution d).2;
  integrate_size :
    forall i d t0 t1,
      length (getSolution (integrate i d t0 t1).2).2 = length (getSolution d).2
}.

(** ** The cycle as the specification words it

    Section 4.1 of the specification has [advance] integrate "using the
    previous cycle's generalized velocity": the velocity the object holds
    when the call starts.  This is that cycle, for comparison with [advance]. *)
Definition advance_with_previous_velocity (st : HumanIK) : option (bool * HumanIK) :=
  let '(ok1, qp) :=
    qpIK_advance (m_qpIK st) (ot_task <$> m_OrientationTasks st)
                 (gt_task <$> m_GravityTasks st) (m_kinDyn st) in
  let st1 := set_qpIK st qp in
  if negb (ok1 && qpIK_isOutputValid qp) then Some (false, st1)
  else
    sys ← m_system st1;
    let '(ok2, dyn) :=
      setControlInput (dynamics sys) (m_baseVelocity st, m_jointVelocities st) in
    let st2 :=
      set_velocities st1
        (SE3Tangentd_coeffs (qpIK_getOutput_baseVelocity qp))
        (qpIK_getOutput_jointVelocity qp) in
    let '(ok3, integ, dyn') :=
      if ok2 then integrate (integrator sys) dyn 0 (m_dtIntegration st2)
      else (false, integrator sys, dyn) in
    let st3 := set_system st2 (Some (mkSystem integ dyn')) in
    if negb ok3 then Some (false, st3)
    else
      let '(basePosition, baseRotation, jointPosition) := getSolution dyn' in
      let st4 :=
        set_configuration st3
          (mkMatrix4d (SO3d_rotation baseRotation) basePosition
                      (bottomRow (m_basePose st3)))
          jointPosition in
      k ← m_kinDyn st4;
      let '(_, k') :=
        setRobotState k
          (mkRobotState (m_basePose st4) jointPosition (m_baseVelocity st4)
                        (m_jointVelocities st4) (m_gravity st4)) in
      Some (true, set_kinDyn st4 (Some k')).

(** ** The sizes of the cached vectors *)

(** The part of the state the sizes depend on. *)
Definition core (st : HumanIK)
  : VectorXd * VectorXd * option System * option KinDynComputations :=
  (m_jointPositions st, m_jointVelocities st, m_system st, m_kinDyn st).

(** The cached vectors, the state of the integrated system and the model
    all have [D] joints. *)
Definition sized (D : nat) (st : HumanIK) : Prop :=
  length (m_jointPositions st) = D /\
  length (m_jointVelocities st) = D /\
  (exists sys, m_system st = Some sys /\ length (getSolution (dynamics sys)).2 = D) /\
  (exists k, m_kinDyn st = Some k /\ getNrOfDegreesOfFreedom k = D).

(** ** What a successful [initialize] needs of the configuration *)

(** The task [task] of the list [tasks] has a group of its own, of type
    [SO3Task] or [GravityTask], that names its node. *)
Definition declared (ptr : Handler) (task : string) : Prop :=
  exists taskHandler taskType nodeNumber,
    getGroup ptr task = Some taskHandler /\
    getParameter_string taskHandler "type" = Some taskType /\
    (taskType = "SO3Task" \/ taskType = "GravityTask") /\
    getParameter_int taskHandler "node_number" = Some nodeNumber.

(** The task [task] is an orientation task of the node [node]. *)
Definition orientation_node (ptr : Handler) (task : string) (node : Z) : Prop :=
  exists taskHandler,
    getGroup ptr task = Some taskHandler /\
    getParameter_string taskHandler "type" = Some "SO3Task" /\
    getParameter_int taskHandler "node_number" = Some node.

(** The call [c] is addressed to the node [node]. *)
Definition addresses (node : Z) (c : Call) : bool :=
  match c with
  | CallSetNodeSetPoint n _ _ => Z.eqb n node
  | CallTPoseCalibrationNode n _ => Z.eqb n node
  | _ => false
  end.

(** ** The Python bindings of the joint accessors

    [bindings/python/IK/src/InverseKinematics.cpp], lines 75-85: the binding
    allocates the buffer itself, with [getDoFsNumber] entries, and returns
    the flag with the buffer. *)

(** [Eigen::VectorXd v(n)]: [n] entries that are not initialized; a negative
    size is not allowed. *)
Definition Eigen_VectorXd (uninitialized : nat -> double) (n : Z) : option VectorXd :=
  if n <? 0 then None else Some (uninitialized <$> seq 0 (Z.to_nat n)).

(** The binding of [getJointPositions] (lines 75-80). *)
Definition bindings_getJointPositions (uninitialized : nat -> double) (st : HumanIK)
  : option (bool * VectorXd) :=
  jointPositions ← Eigen_VectorXd uninitialized (getDoFsNumber st);
  Some (getJointPositions st jointPositions).

(** The binding of [getJointVelocities] (lines 81-85). *)
Definition bindings_getJointVelocities (uninitialized : nat -> double) (st : HumanIK)
  : option (bool * VectorXd) :=
  jointVelocities ← Eigen_VectorXd uninitialized (getDoFsNumber st);
  Some (getJointVelocities st jointVelocities).

End HumanIK.
End IK.

(** * Inverse dynamics: [HumanID] *)

Module ID.

(** ** iDynTree values *)

Abbreviation VectorDynSize := (list double).
Definition Vector3 : Type := Vector3d.
Definition Position : Type := Vector3d.
Definition Rotation : Type := Matrix3d.

Definition Vector3_zero : Vector3 := (zero, zero, zero).

(** [p - q] on positions. *)
Definition Position_sub (p q : Position) : Position :=
  let '(px, py, pz) := p in
  let '(qx, qy, qz) := q in
  (sub px qx, sub py qy, sub pz qz).

(** [Rotation::inverse]: the transpose. *)
Definition Rotation_inverse (r : Rotation) : Rotation :=
  let '((a, b, c), (d, e, f), (g, h, i)) := r in
  ((a, d, g), (b, e, h), (c, f, i)).

Record Transform : Type := mkTransform {
  getRotation : Rotation;
  getPosition : Position
}.

Definition setRotation (t : Transform) (r : Rotation) : Transform :=
  mkTransform r (getPosition t).

Definition setPosition (t : Transform) (p : Position) : Transform :=
  mkTransform (getRotation t) p.

(** A spatial force: [Wrench] and [SpatialForceVector]. *)
Record Wrench : Type := mkWrench {
  getLinearVec3 : Vector3;
  getAngularVec3 : Vector3
}.

Definition SpatialForceVector : Type := Wrench.

Definition Wrench_zero : Wrench := mkWrench Vector3_zero Vector3_zero.

(** [w(j)], for [j] below six. *)
Definition Wrench_at (w : Wrench) (j : nat) : double :=
  let '(fx, fy, fz) := getLinearVec3 w in
  let '(tx, ty, tz) := getAngularVec3 w in
  match j with
  | 0 => fx | 1 => fy | 2 => fz | 3 => tx | 4 => ty | _ => tz
  end%nat.

Definition Wrench_to_list (w : Wrench) : list double :=
  Wrench_at w <$> seq 0 6.

(** [w * c] and [w1 + w2], component by component. *)
Definition Vector3_scale (v : Vector3) (c : double) : Vector3 :=
  let '(x, y, z) := v in (mul x c, mul y c, mul z c).

Definition Vector3_add (v w : Vector3) : Vector3 :=
  let '(x, y, z) := v in
  let '(x', y', z') := w in
  (add x x', add y y', add z z').

Definition Wrench_scale (w : Wrench) (c : double) : Wrench :=
  mkWrench (Vector3_scale (getLinearVec3 w) c) (Vector3_scale (getAngularVec3 w) c).

Definition Wrench_add (w1 w2 : Wrench) : Wrench :=
  mkWrench (Vector3_add (getLinearVec3 w1) (getLinearVec3 w2))
           (Vector3_add (getAngularVec3 w1) (getAngularVec3 w2)).

Record Twist : Type := mkTwist {
  twist_linear : Vector3;
  twist_angular : Vector3
}.

Record IndexRange : Type := mkIndexRange {
  offset : Z;
  size : Z
}.

(** [v(i)] and [v(i) = x]: defined inside the vector only. *)
Definition VectorDynSize_get (v : VectorDynSize) (i : Z) : option double :=
  if 0 <=? i then v !! Z.to_nat i else None.

Definition VectorDynSize_set (v : VectorDynSize) (i : Z) (x : double)
  : option VectorDynSize :=
  if (0 <=? i) && (i <? Z.of_nat (length v)) then Some (<[Z.to_nat i := x]> v)
  else None.

Definition VectorDynSize_zero (v : VectorDynSize) : VectorDynSize :=
  repeat zero (length v).

(** [resize(n)] followed by [zero()]. *)
Definition VectorDynSize_zeros (n : nat) : VectorDynSize := repeat zero n.

(** [for (j = 0; j < 6; j++) v(off + j) = w(j)], from [j] on. *)
Fixpoint write_components (v : VectorDynSize) (off : Z) (w : Wrench)
    (j : nat) (n : nat) : option VectorDynSize :=
  match n with
  | O => Some v
  | S n' =>
      v' ← VectorDynSize_set v (off + Z.of_nat j) (Wrench_at w j);
      write_components v' off w (S j) n'
  end.

Definition write_wrench (v : VectorDynSize) (off : Z) (w : Wrench)
  : option VectorDynSize :=
  write_components v off w 0 6.

Inductive BerdyVariants : Type :=
| ORIGINAL_BERDY_FIXED_BASE
| BERDY_FLOATING_BASE
| BERDY_FLOATING_BASE_NON_COLLOCATED_EXT_WRENCHES.

Inductive BerdySensorTypes : Type :=
| SIX_AXIS_FORCE_TORQUE_SENSOR
| ACCELEROMETER_SENSOR
| GYROSCOPE_SENSOR
| THREE_AXIS_ANGULAR_ACCELEROMETER_SENSOR
| THREE_AXIS_FORCE_TORQUE_CONTACT_SENSOR
| DOF_ACCELERATION_SENSOR
| DOF_TORQUE_SENSOR
| NET_EXT_WRENCH_SENSOR
| JOINT_WRENCH_SENSOR
| COM_ACCELEROMETER_SENSOR
| RCM_SENSOR.

Record BerdySensor : Type := mkBerdySensor {
  sensor_type : BerdySensorTypes;
  sensor_id : string;
  sensor_range : IndexRange
}.

Record BerdyOptions : Type := mkBerdyOptions {
  berdyVariant : BerdyVariants;
  baseLink : string;
  includeAllNetExternalWrenchesAsSensors : bool;
  includeAllNetExternalWrenchesAsDynamicVariables : bool;
  includeAllJointAccelerationsAsSensors : bool;
  includeAllJointTorquesAsSensors : bool;
  includeFixedBaseExternalWrench : bool
}.

(** Triplets of a sparse matrix: [setTriplet] replaces the entry of a
    position that has one and adds it otherwise. *)
Definition Triplet : Type := (Z * Z * double)%type.

Fixpoint setTriplet (ts : list Triplet) (t : Triplet) : list Triplet :=
  match ts with
  | [] => [t]
  | u :: ts' =>
      if (u.1.1 =? t.1.1) && (u.1.2 =? t.1.2) then t :: ts'
      else u :: setTriplet ts' t
  end.

(** A sparse matrix after [resize], [zero] and [setFromTriplets]. *)
Record SparseMatrix : Type := mkSparseMatrix {
  rows : nat;
  cols : nat;
  entries : list Triplet
}.

(** What [getRobotState] writes and [setRobotState] reads. *)
Record RobotState : Type := mkRobotState {
  w_H_b : Transform;
  s : VectorDynSize;
  base_velocity : Twist;
  s_dot : VectorDynSize;
  world_gravity : Vector3
}.

(** ** The iDynTree objects [HumanID] calls

    Two classes: the types of the objects, which the state of [HumanID] is
    made of, and their methods. *)

Class IDynTreeTypes : Type := {
  Model : Type;
  SensorsList : Type;
  KinDynComputations : Type;
  BerdyHelper : Type;
  BerdySparseMAPSolver : Type
}.

Class IDynTree `{IDynTreeTypes} : Type := {
  (** [T * w]: the wrench [w] expressed in the frame [T] maps to. *)
  Transform_mul : Transform -> Wrench -> Wrench;

  getJointName : Model -> nat -> string;
  getLinkIndex : Model -> string -> Z;
  sensors : Model -> SensorsList;
  (** [LinkNetExternalWrenches(model)]: one wrench per link. *)
  make_LinkNetExternalWrenches : Model -> list Wrench;

  removeAllSensorsOfType : SensorsList -> BerdySensorTypes -> bool * SensorsList;
  removeSensor : SensorsList -> BerdySensorTypes -> string -> bool * SensorsList;

  (** [ModelLoader::loadModelFromFile] and, when it succeeds, [model()]. *)
  loadModelFromFile : string -> option Model;

  make_KinDynComputations : KinDynComputations;
  loadRobotModel : KinDynComputations -> Model -> bool * KinDynComputations;
  isValid : KinDynComputations -> bool;
  getNrOfDegreesOfFreedom : KinDynComputations -> nat;
  getRobotModel : KinDynComputations -> Model;
  getFloatingBase : KinDynComputations -> string;
  setFloatingBase : KinDynComputations -> string -> bool * KinDynComputations;
  getFrameIndex : KinDynComputations -> string -> Z;
  getRobotState : KinDynComputations -> RobotState;
  setRobotState : KinDynComputations -> RobotState -> bool * KinDynComputations;
  getJointPos : KinDynComputations -> VectorDynSize;
  getJointVel : KinDynComputations -> VectorDynSize;
  getBaseTwist : KinDynComputations -> Twist;
  getWorldTransform : KinDynComputations -> string -> Transform;
  getWorldBaseTransform : KinDynComputations -> Transform;
  getCenterOfMassPosition : KinDynComputations -> Position;

  make_BerdyOptions : BerdyOptions;
  checkConsistency : BerdyOptions -> bool;

  make_BerdyHelper : BerdyHelper;
  berdy_init : BerdyHelper -> Model -> BerdyOptions -> bool * BerdyHelper;
  getNrOfDynamicVariables : BerdyHelper -> nat;
  getNrOfSensorsMeasurements : BerdyHelper -> nat;
  getSensorsOrdering : BerdyHelper -> list BerdySensor;
  getRangeLinkSensorVariable : BerdyHelper -> BerdySensorTypes -> Z -> IndexRange;
  getRangeRCMSensorVariable : BerdyHelper -> BerdySensorTypes -> IndexRange;
  updateKinematicsFromFloatingBase :
    BerdyHelper -> VectorDynSize -> VectorDynSize -> Z -> Vector3 -> bool * BerdyHelper;
  extractLinkNetExternalWrenchesFromDynamicVariables :
    BerdyHelper -> VectorDynSize -> list Wrench -> bool * list Wrench;
  extractJointTorquesFromDynamicVariables :
    BerdyHelper -> VectorDynSize -> VectorDynSize -> VectorDynSize ->
    bool * VectorDynSize;

  (** The solver is built on a helper and keeps a reference to it: its
      methods take the helper, and give it back when they change it. *)
  make_BerdySparseMAPSolver : BerdyHelper -> BerdySparseMAPSolver;
  solver_initialize : BerdySparseMAPSolver -> BerdyHelper -> bool * BerdySparseMAPSolver;
  solver_isValid : BerdySparseMAPSolver -> BerdyHelper -> bool;
  setMeasurementsPriorCovariance :
    BerdySparseMAPSolver -> SparseMatrix -> BerdySparseMAPSolver;
  setDynamicsRegularizationPriorExpectedValue :
    BerdySparseMAPSolver -> VectorDynSize -> BerdySparseMAPSolver;
  setDynamicsRegularizationPriorCovariance :
    BerdySparseMAPSolver -> SparseMatrix -> BerdySparseMAPSolver;
  updateEstimateInformationFloatingBase :
    BerdySparseMAPSolver -> BerdyHelper -> VectorDynSize -> VectorDynSize -> Z ->
    Vector3 -> VectorDynSize -> BerdySparseMAPSolver * BerdyHelper;
  doEstimate : BerdySparseMAPSolver -> BerdyHelper -> bool * BerdySparseMAPSolver;
  getLastEstimate : BerdySparseMAPSolver -> VectorDynSize
}.

Section HumanID.

Context {idyntreeT : IDynTreeTypes} {idyntreeO : IDynTree}.

(** ** What the headers leave to the model

    [mapBerdySensorType] is a table of [InverseDynamics.h], which is not among
    the sources: the names under which the sensor types appear in the group
    [SENSOR_REMOVAL].  The other three are the contents of objects that the
    source constructs and reads before it has written all of them. *)
Variable mapBerdySensorType : list (BerdySensorTypes * string).
Variable fresh_double : double.
Variable fresh_Transform : Transform.
Variable fresh_Wrench : Wrench.

(** [v.resize(n)]: the entries that are kept are the first ones. *)
Definition VectorDynSize_resize (v : VectorDynSize) (n : nat) : VectorDynSize :=
  resize n fresh_double v.

(** ** The state of a [HumanID] object *)

Inductive WrenchSourceType : Type := Fixed | Dummy.

Record WrenchSourceData : Type := mkWrenchSourceData {
  outputFrame : string;
  type : WrenchSourceType;
  outputFrameTransform : Transform;
  wrench : Wrench
}.

Record KinematicState : Type := mkKinematicState {
  floatingBaseFrameIndex : Z;
  jointsPosition : VectorDynSize;
  jointsVelocity : VectorDynSize;
  baseAngularVelocity : Vector3
}.

(** A Berdy helper with its solver and buffers.  The solver is held by a
    [unique_ptr], null until the helper is initialized. *)
Record BerdyData : Type := mkBerdyData {
  berdyHelper : BerdyHelper;
  berdySolver : option BerdySparseMAPSolver;
  estimatedDynamicVariables : VectorDynSize;
  estimatedJointTorques : VectorDynSize;
  measurement : VectorDynSize
}.

(** The model of the external-wrench estimator is a shared pointer: null,
    the model of the object itself, or a model of its own. *)
Inductive KinDynPtr : Type :=
| NullPtr
| SameAsMain
| Own (k : KinDynComputations).

Record ExtWrenchesEstimator : Type := mkExtWrenchesEstimator {
  helper : BerdyData;
  kinDyn : KinDynPtr;
  useFullModel : bool;
  jointPositions : VectorDynSize;
  jointVelocities : VectorDynSize;
  jointsPositionArray : VectorDynSize;
  jointsVelocityArray : VectorDynSize
}.

Record MAPEstParams : Type := mkMAPEstParams {
  priorDynamicsRegularizationExpected : double;
  priorDynamicsRegularizationCovarianceValue : double;
  measurementDefaultCovariance : double;
  specificMeasurementsCovariance : gmap string (list double)
}.

Record HumanID : Type := mkHumanID {
  m_humanMass : double;
  m_kinDyn : option KinDynComputations;
  m_kinState : KinematicState;
  m_jointTorquesHelper : BerdyData;
  m_extWrenchesEstimator : ExtWrenchesEstimator;
  m_wrenchSources : list WrenchSourceData;
  m_estimatedExtWrenches : list Wrench;
  m_mapEstParams : MAPEstParams
}.

Definition set_humanMass (st : HumanID) (m : double) : HumanID :=
  mkHumanID m (m_kinDyn st) (m_kinState st) (m_jointTorquesHelper st)
    (m_extWrenchesEstimator st) (m_wrenchSources st) (m_estimatedExtWrenches st)
    (m_mapEstParams st).

Definition set_kinDyn (st : HumanID) (k : option KinDynComputations) : HumanID :=
  mkHumanID (m_humanMass st) k (m_kinState st) (m_jointTorquesHelper st)
    (m_extWrenchesEstimator st) (m_wrenchSources st) (m_estimatedExtWrenches st)
    (m_mapEstParams st).

Definition set_kinState (st : HumanID) (ks : KinematicState) : HumanID :=
  mkHumanID (m_humanMass st) (m_kinDyn st) ks (m_jointTorquesHelper st)
    (m_extWrenchesEstimator st) (m_wrenchSources st) (m_estimatedExtWrenches st)
    (m_mapEstParams st).

Definition set_jointTorquesHelper (st : HumanID) (b : BerdyData) : HumanID :=
  mkHumanID (m_humanMass st) (m_kinDyn st) (m_kinState st) b
    (m_extWrenchesEstimator st) (m_wrenchSources st) (m_estimatedExtWrenches st)
    (m_mapEstParams st).

Definition set_extWrenchesEstimator (st : HumanID) (e : ExtWrenchesEstimator) : HumanID :=
  mkHumanID (m_humanMass st) (m_kinDyn st) (m_kinState st) (m_jointTorquesHelper st)
    e (m_wrenchSources st) (m_estimatedExtWrenches st) (m_mapEstParams st).

Definition set_wrenchSources (st : HumanID) (l : list WrenchSourceData) : HumanID :=
  mkHumanID (m_humanMass st) (m_kinDyn st) (m_kinState st) (m_jointTorquesHelper st)
    (m_extWrenchesEstimator st) l (m_estimatedExtWrenches st) (m_mapEstParams st).

Definition set_estimatedExtWrenches (st : HumanID) (l : list Wrench) : HumanID :=
  mkHumanID (m_humanMass st) (m_kinDyn st) (m_kinState st) (m_jointTorquesHelper st)
    (m_extWrenchesEstimator st) (m_wrenchSources st) l (m_mapEstParams st).

Definition set_mapEstParams (st : HumanID) (p : MAPEstParams) : HumanID :=
  mkHumanID (m_humanMass st) (m_kinDyn st) (m_kinState st) (m_jointTorquesHelper st)
    (m_extWrenchesEstimator st) (m_wrenchSources st) (m_estimatedExtWrenches st) p.

Definition set_berdyHelper (b : BerdyData) (h : BerdyHelper) : BerdyData :=
  mkBerdyData h (berdySolver b) (estimatedDynamicVariables b)
    (estimatedJointTorques b) (measurement b).

Definition set_berdySolver (b : BerdyData) (sv : option BerdySparseMAPSolver) : BerdyData :=
  mkBerdyData (berdyHelper b) sv (estimatedDynamicVariables b)
    (estimatedJointTorques b) (measurement b).

Definition set_estimatedDynamicVariables (b : BerdyData) (v : VectorDynSize) : BerdyData :=
  mkBerdyData (berdyHelper b) (berdySolver b) v (estimatedJointTorques b) (measurement b).

Definition set_estimatedJointTorques (b : BerdyData) (v : VectorDynSize) : BerdyData :=
  mkBerdyData (berdyHelper b) (berdySolver b) (estimatedDynamicVariables b) v
    (measurement b).

Definition set_measurement (b : BerdyData) (v : VectorDynSize) : BerdyData :=
  mkBerdyData (berdyHelper b) (berdySolver b) (estimatedDynamicVariables b)
    (estimatedJointTorques b) v.

Definition set_helper (e : ExtWrenchesEstimator) (b : BerdyData) : ExtWrenchesEstimator :=
  mkExtWrenchesEstimator b (kinDyn e) (useFullModel e) (jointPositions e)
    (jointVelocities e) (jointsPositionArray e) (jointsVelocityArray e).

Definition set_ext_kinDynPtr (e : ExtWrenchesEstimator) (p : KinDynPtr) (full : bool)
  : ExtWrenchesEstimator :=
  mkExtWrenchesEstimator (helper e) p full (jointPositions e)
    (jointVelocities e) (jointsPositionArray e) (jointsVelocityArray e).

Definition set_joints (e : ExtWrenchesEstimator) (q qd : VectorDynSize)
  : ExtWrenchesEstimator :=
  mkExtWrenchesEstimator (helper e) (kinDyn e) (useFullModel e) q qd
    (jointsPositionArray e) (jointsVelocityArray e).

Definition set_jointsArrays (e : ExtWrenchesEstimator) (q qd : VectorDynSize)
  : ExtWrenchesEstimator :=
  mkExtWrenchesEstimator (helper e) (kinDyn e) (useFullModel e) (jointPositions e)
    (jointVelocities e) q qd.

(** [*m_extWrenchesEstimator.kinDyn], and the state after a method has
    changed the object it points to. *)
Definition ext_kinDyn (st : HumanID) : option KinDynComputations :=
  match kinDyn (m_extWrenchesEstimator st) with
  | NullPtr => None
  | SameAsMain => m_kinDyn st
  | Own k => Some k
  end.

Definition set_ext_kinDyn (st : HumanID) (k : KinDynComputations) : HumanID :=
  match kinDyn (m_extWrenchesEstimator st) with
  | NullPtr => st
  | SameAsMain => set_kinDyn st (Some k)
  | Own _ =>
      set_extWrenchesEstimator st
        (set_ext_kinDynPtr (m_extWrenchesEstimator st) (Own k)
                           (useFullModel (m_extWrenchesEstimator st)))
  end.

(** ** [HumanID::initialize] and its helpers *)

(** The loop over [mapBerdySensorType] (lines 284-310), on the copy of the
    sensor list it works on.  The flag is false when the function has
    returned false from inside the loop. *)
Fixpoint removeSensors (removeSensorHandler : Handler)
    (table : list (BerdySensorTypes * string)) (sensorList : SensorsList)
  : bool * SensorsList :=
  match table with
  | [] => (true, sensorList)
  | sensor :: rest =>
      match getParameter_string removeSensorHandler sensor.2 with
      | None => removeSensors removeSensorHandler rest sensorList
      | Some sensorName =>
          if String.eqb sensorName "*" then
            let '(ok, l) := removeAllSensorsOfType sensorList sensor.1 in
            if negb ok then (false, l)
            else removeSensors removeSensorHandler rest l
          else
            let '(_, l) := removeSensor sensorList sensor.1 sensorName in
            removeSensors removeSensorHandler rest l
      end
  end.

(** [HumanID::initializeJointTorquesHelper] (lines 260-336). *)
Definition initializeJointTorquesHelper (st : HumanID) (groupHandler : Handler)
  : option (bool * HumanID) :=
  k ← m_kinDyn st;
  let berdyOptions :=
    mkBerdyOptions BERDY_FLOATING_BASE (getFloatingBase k) true true true false false in
  match getGroup groupHandler "SENSOR_REMOVAL" with
  | None => Some (false, st)
  | Some removeSensorHandler =>
      if negb (removeSensors removeSensorHandler mapBerdySensorType
                             (sensors (getRobotModel k))).1
      then Some (false, st)
      else
        let jt := m_jointTorquesHelper st in
        let '(ok, bh) := berdy_init (berdyHelper jt) (getRobotModel k) berdyOptions in
        let jt1 := set_berdyHelper jt bh in
        if negb ok then Some (false, set_jointTorquesHelper st jt1)
        else
          let jt2 :=
            set_estimatedDynamicVariables jt1
              (VectorDynSize_resize (estimatedDynamicVariables jt1)
                                    (getNrOfDynamicVariables bh)) in
          let '(ok', sv) := solver_initialize (make_BerdySparseMAPSolver bh) bh in
          Some (ok', set_jointTorquesHelper st (set_berdySolver jt2 (Some sv)))
  end.

Definition Position_of (position : list double) : option Position :=
  match position with
  | x :: y :: z :: _ => Some (x, y, z)
  | _ => None
  end.

Definition Wrench_of (values : list double) : option Wrench :=
  match values with
  | a :: b :: c :: d :: e :: f :: _ => Some (mkWrench (a, b, c) (d, e, f))
  | _ => None
  end.

(** The body of the loop over the wrench sources (lines 353-431): [None]
    when a vector of the configuration is read past its end, [Some None]
    when the function returns false, the source to append otherwise. *)
Definition readWrenchSource (groupHandler : Handler) (name : string)
  : option (option WrenchSourceData) :=
  match getGroup groupHandler name with
  | None => Some None
  | Some wrenchHandler =>
      match getParameter_string wrenchHandler "outputFrame" with
      | None => Some None
      | Some frame =>
          match getParameter_string wrenchHandler "type" with
          | None => Some None
          | Some ty =>
              if String.eqb ty "fixed" then
                match getParameter_vector_double wrenchHandler "position" with
                | None => Some None
                | Some position =>
                    p ← Position_of position;
                    match getParameter_vector_double wrenchHandler "orientation" with
                    | None => Some None
                    | Some orientation =>
                        r ← Map_RowMajor33 orientation;
                        Some (Some (mkWrenchSourceData frame Fixed (mkTransform r p)
                                                       fresh_Wrench))
                    end
                end
              else if String.eqb ty "dummy" then
                match getParameter_vector_double wrenchHandler "values" with
                | None => Some None
                | Some values =>
                    w ← Wrench_of values;
                    Some (Some (mkWrenchSourceData frame Dummy fresh_Transform w))
                end
              else Some None
          end
      end
  end.

Fixpoint readWrenchSources (groupHandler : Handler) (names : list string)
    (sources : list WrenchSourceData) : option (bool * list WrenchSourceData) :=
  match names with
  | [] => Some (true, sources)
  | name :: rest =>
      r ← readWrenchSource groupHandler name;
      match r with
      | None => Some (false, sources)
      | Some data => readWrenchSources groupHandler rest (sources ++ [data])
      end
  end.

(** The loop over [specificElements] (lines 502-513). *)
Fixpoint readSpecificElements (groupHandler : Handler) (elements : list string)
    (m : gmap string (list double)) : bool * gmap string (list double) :=
  match elements with
  | [] => (true, m)
  | element :: rest =>
      match getParameter_vector_double groupHandler element with
      | None => (false, m)
      | Some covariance =>
          readSpecificElements groupHandler rest (<[element := covariance]> m)
      end
  end.

(** The first six entries of a vector. *)
Definition first_six (v : list double) : option (list double) :=
  mapM (fun i => v !! i) (seq 0 6).

Definition diagonal_triplets (ts : list Triplet) (off : Z) (values : list double)
  : list Triplet :=
  foldl setTriplet ts
        (imap (fun i x => (off + Z.of_nat i, off + Z.of_nat i, x)) values).

(** The loop over the sensors of the helper (lines 569-612). *)
Fixpoint measurementsCovarianceTriplets (p : MAPEstParams)
    (sensorsOrdering : list BerdySensor) (ts : list Triplet) : option (list Triplet) :=
  match sensorsOrdering with
  | [] => Some ts
  | berdySensor :: rest =>
      match sensor_type berdySensor with
      | NET_EXT_WRENCH_SENSOR =>
          wrenchCovariance ←
            match specificMeasurementsCovariance p !! sensor_id berdySensor with
            | Some v => first_six v
            | None => Some (repeat (measurementDefaultCovariance p) 6)
            end;
          measurementsCovarianceTriplets p rest
            (diagonal_triplets ts (offset (sensor_range berdySensor)) wrenchCovariance)
      | RCM_SENSOR =>
          v ← specificMeasurementsCovariance p !! "RCM_SENSOR";
          c ← first_six v;
          measurementsCovarianceTriplets p rest
            (diagonal_triplets ts (offset (sensor_range berdySensor)) c)
      | _ => measurementsCovarianceTriplets p rest ts
      end
  end.

(** The rest of [initializeExtWrenchesHelper] once the model of the
    estimator is loaded (lines 471-653). *)
Definition initializeExtWrenchesEstimation (st : HumanID) (groupHandler : Handler)
    (ek : KinDynComputations) : option (bool * HumanID) :=
  let e := m_extWrenchesEstimator st in
  let zeros := VectorDynSize_zeros (getNrOfDegreesOfFreedom ek) in
  let st1 := set_extWrenchesEstimator st (set_jointsArrays e zeros zeros) in
  let p := m_mapEstParams st1 in
  match getParameter_double groupHandler "mu_dyn_variables" with
  | None => Some (false, st1)
  | Some mu =>
  let p1 := mkMAPEstParams mu (priorDynamicsRegularizationCovarianceValue p)
              (measurementDefaultCovariance p) (specificMeasurementsCovariance p) in
  match getParameter_double groupHandler "cov_dyn_variables" with
  | None => Some (false, set_mapEstParams st1 p1)
  | Some cov =>
  let p2 := mkMAPEstParams mu cov (measurementDefaultCovariance p)
              (specificMeasurementsCovariance p) in
  match getParameter_vector_string groupHandler "specificElements" with
  | None => Some (false, set_mapEstParams st1 p2)
  | Some specificElements =>
  let '(oke, m) :=
    readSpecificElements groupHandler specificElements
                         (specificMeasurementsCovariance p2) in
  let p3 := mkMAPEstParams mu cov (measurementDefaultCovariance p) m in
  if negb oke then Some (false, set_mapEstParams st1 p3)
  else
  let rcm_old := default [] (m !! "RCM_SENSOR") in
  match getParameter_vector_double groupHandler "cov_measurements_RCM_SENSOR" with
  | None =>
      Some (false,
            set_mapEstParams st1
              (mkMAPEstParams mu cov (measurementDefaultCovariance p)
                              (<["RCM_SENSOR" := rcm_old]> m)))
  | Some rcm =>
  let m' := <["RCM_SENSOR" := rcm]> m in
  match getParameter_double groupHandler "default_cov_measurements" with
  | None =>
      Some (false,
            set_mapEstParams st1
              (mkMAPEstParams mu cov (measurementDefaultCovariance p) m'))
  | Some dflt =>
  let p4 := mkMAPEstParams mu cov dflt m' in
  let st2 := set_mapEstParams st1 p4 in
  let berdyOptionsExtWrenches :=
    mkBerdyOptions BERDY_FLOATING_BASE_NON_COLLOCATED_EXT_WRENCHES
      (baseLink make_BerdyOptions) true true false false
      (includeFixedBaseExternalWrench make_BerdyOptions) in
  if negb (checkConsistency berdyOptionsExtWrenches) then Some (false, st2)
  else
  let b := helper (m_extWrenchesEstimator st2) in
  let '(okb, bh) := berdy_init (berdyHelper b) (getRobotModel ek) berdyOptionsExtWrenches in
  let b1 := set_berdyHelper b bh in
  let with_helper (x : BerdyData) : HumanID :=
    set_extWrenchesEstimator st2 (set_helper (m_extWrenchesEstimator st2) x) in
  if negb okb then Some (false, with_helper b1)
  else
  let '(oks, sv) := solver_initialize (make_BerdySparseMAPSolver bh) bh in
  if negb oks then Some (false, with_helper (set_berdySolver b1 (Some sv)))
  else
  ts ← measurementsCovarianceTriplets p4 (getSensorsOrdering bh) [];
  let sigmaYSize := getNrOfSensorsMeasurements bh in
  let sv1 := setMeasurementsPriorCovariance sv (mkSparseMatrix sigmaYSize sigmaYSize ts) in
  let sigmaDSize := getNrOfDynamicVariables bh in
  let sv2 := setDynamicsRegularizationPriorExpectedValue sv1 (repeat mu sigmaDSize) in
  let sv3 :=
    setDynamicsRegularizationPriorCovariance sv2
      (mkSparseMatrix sigmaDSize sigmaDSize
                      (diagonal_triplets [] 0 (repeat cov sigmaDSize))) in
  Some (solver_isValid sv3 bh, with_helper (set_berdySolver b1 (Some sv3)))
  end end end end end.

(** [HumanID::initializeExtWrenchesHelper] (lines 338-654). *)
Definition initializeExtWrenchesHelper (st : HumanID) (groupHandler : Handler)
  : option (bool * HumanID) :=
  match getParameter_vector_string groupHandler "wrenchSources" with
  | None => Some (false, st)
  | Some wrenchSource =>
      '(oks, sources) ← readWrenchSources groupHandler wrenchSource (m_wrenchSources st);
      let st1 := set_wrenchSources st sources in
      if negb oks then Some (false, st1)
      else
        let st2 :=
          set_estimatedExtWrenches st1
            (resize (length sources) fresh_Wrench (m_estimatedExtWrenches st1)) in
        let e := m_extWrenchesEstimator st2 in
        match getParameter_string groupHandler "modelPath" with
        | Some modelPath =>
            match loadModelFromFile modelPath with
            | None => Some (false, st2)
            | Some model =>
                let '(okl, ek) := loadRobotModel make_KinDynComputations model in
                if negb okl
                then Some (false,
                           set_extWrenchesEstimator st2
                             (set_ext_kinDynPtr e (Own ek) (useFullModel e)))
                else
                  let zeros := VectorDynSize_zeros (getNrOfDegreesOfFreedom ek) in
                  k ← m_kinDyn st2;
                  let '(_, ek') := setFloatingBase ek (getFloatingBase k) in
                  initializeExtWrenchesEstimation
                    (set_extWrenchesEstimator st2
                       (set_ext_kinDynPtr (set_joints e zeros zeros) (Own ek') true))
                    groupHandler ek'
            end
        | None =>
            Some (false,
                  set_extWrenchesEstimator st2 (set_ext_kinDynPtr e SameAsMain false))
        end
  end.

(** [HumanID::initialize] (lines 7-81). *)
Definition initialize (st : HumanID) (handler : option Handler)
    (kinDyn : option KinDynComputations) : option (bool * HumanID) :=
  ptr ← handler;
  match getParameter_double ptr "humanMass" with
  | None => Some (false, st)
  | Some mass =>
      let st1 := set_humanMass st mass in
      match kinDyn with
      | None => Some (false, st1)
      | Some k =>
          if negb (isValid k) then Some (false, st1)
          else
            let n := getNrOfDegreesOfFreedom k in
            let st2 :=
              set_jointTorquesHelper
                (set_kinState (set_kinDyn st1 (Some k))
                   (mkKinematicState (getFrameIndex k (getFloatingBase k))
                      (VectorDynSize_zeros n) (VectorDynSize_zeros n) Vector3_zero))
                (set_estimatedJointTorques (m_jointTorquesHelper st1)
                   (VectorDynSize_resize
                      (estimatedJointTorques (m_jointTorquesHelper st1)) n)) in
            match getGroup ptr "JOINT_TORQUES" with
            | None => Some (false, st2)
            | Some jointTorquesHandler =>
                '(okj, st3) ← initializeJointTorquesHelper st2 jointTorquesHandler;
                if negb okj then Some (false, st3)
                else
                  match getGroup ptr "EXTERNAL_WRENCHES" with
                  | None => Some (false, st3)
                  | Some extWrenchesHandler =>
                      '(oke, st4) ← initializeExtWrenchesHelper st3 extWrenchesHandler;
                      if negb oke then Some (false, st4)
                      else
                        let e := m_extWrenchesEstimator st4 in
                        let b := helper e in
                        let b' :=
                          set_measurement
                            (set_estimatedDynamicVariables b
                               (VectorDynSize_resize (estimatedDynamicVariables b)
                                  (getNrOfDynamicVariables (berdyHelper b))))
                            (VectorDynSize_zeros
                               (getNrOfSensorsMeasurements (berdyHelper b))) in
                        let jt := m_jointTorquesHelper st4 in
                        let jt' :=
                          set_measurement
                            (set_estimatedDynamicVariables jt
                               (VectorDynSize_resize (estimatedDynamicVariables jt)
                                  (getNrOfDynamicVariables (berdyHelper jt))))
                            (VectorDynSize_resize (measurement jt)
                               (getNrOfSensorsMeasurements (berdyHelper jt))) in
                        Some (true,
                              set_jointTorquesHelper
                                (set_extWrenchesEstimator st4 (set_helper e b')) jt')
                  end
            end
      end
  end.

(** ** Measurements *)

(** [HumanID::computeRCMInBaseFrame] (lines 656-674).  The local
    [world_gravity] is declared and never assigned before it is read: its
    content is an argument of the model. *)
Definition computeRCMInBaseFrame (world_gravity : Vector3) (st : HumanID)
  : option SpatialForceVector :=
  let rcmWrench := Wrench_zero in
  let subjectWeightInCentroidal :=
    Wrench_scale (mkWrench world_gravity (zero, zero, zero)) (opp (m_humanMass st)) in
  k ← m_kinDyn st;
  let base_H_centroidal :=
    setRotation
      (setPosition fresh_Transform
         (Position_sub (getCenterOfMassPosition k)
                       (getPosition (getWorldBaseTransform k))))
      (Rotation_inverse (getRotation (getWorldBaseTransform k))) in
  Some (Wrench_add rcmWrench (Transform_mul base_H_centroidal subjectWeightInCentroidal)).

(** The inner loop of lines 99-108: the first joint of the model, from [j]
    on, that has the given name. *)
Fixpoint matchingJoint (m : Model) (name : string) (j n : nat) : option nat :=
  match n with
  | O => None
  | S n' =>
      if String.eqb name (getJointName m j) then Some j
      else matchingJoint m name (S j) n'
  end.

(** The outer loop of lines 97-109, from [i] on. *)
Fixpoint copyJointState (ext main : KinDynComputations) (rs : RobotState)
    (i n : nat) (q qd : VectorDynSize) : option (VectorDynSize * VectorDynSize) :=
  match n with
  | O => Some (q, qd)
  | S n' =>
      match matchingJoint (getRobotModel main) (getJointName (getRobotModel ext) i)
                          0 (getNrOfDegreesOfFreedom main) with
      | None => copyJointState ext main rs (S i) n' q qd
      | Some j =>
          x ← VectorDynSize_get (s rs) (Z.of_nat j);
          q' ← VectorDynSize_set q (Z.of_nat i) x;
          xd ← VectorDynSize_get (s_dot rs) (Z.of_nat j);
          qd' ← VectorDynSize_set qd (Z.of_nat i) xd;
          copyJointState ext main rs (S i) n' q' qd'
      end
  end.

(** Lines 87-115: the state of the model of the object, copied by joint name
    into the model of the estimator. *)
Definition synchronizeFullModel (st : HumanID) : option HumanID :=
  if useFullModel (m_extWrenchesEstimator st) then
    k ← m_kinDyn st;
    let rs := getRobotState k in
    ek ← ext_kinDyn st;
    let e := m_extWrenchesEstimator st in
    '(q, qd) ← copyJointState ek k rs 0 (getNrOfDegreesOfFreedom ek)
                              (jointPositions e) (jointVelocities e);
    let st1 := set_extWrenchesEstimator st (set_joints e q qd) in
    let '(_, ek') :=
      setRobotState ek (mkRobotState (w_H_b rs) q (base_velocity rs) qd
                                     (world_gravity rs)) in
    Some (set_ext_kinDyn st1 ek')
  else Some st.

(** The loop over the wrench sources (lines 118-148).  The flag is false
    when the function has returned false from inside the loop. *)
Fixpoint updateWrenchSources (wrenches : gmap string Wrench)
    (ek : option KinDynComputations) (bh : BerdyHelper)
    (sources : list WrenchSourceData) (meas : VectorDynSize)
  : option (bool * list WrenchSourceData * VectorDynSize) :=
  match sources with
  | [] => Some (true, [], meas)
  | src :: rest =>
      match type src with
      | Dummy =>
          k ← ek;
          let src' :=
            mkWrenchSourceData (outputFrame src) (type src)
              (setRotation (outputFrameTransform src)
                 (getRotation (getWorldTransform k (outputFrame src))))
              (wrench src) in
          '(ok, rest', meas') ← updateWrenchSources wrenches ek bh rest meas;
          Some (ok, src' :: rest', meas')
      | Fixed =>
          match wrenches !! outputFrame src with
          | None => Some (false, src :: rest, meas)
          | Some raw =>
              let w := Transform_mul (outputFrameTransform src) raw in
              let src' :=
                mkWrenchSourceData (outputFrame src) (type src)
                                   (outputFrameTransform src) w in
              k ← ek;
              let sensorRange :=
                getRangeLinkSensorVariable bh NET_EXT_WRENCH_SENSOR
                  (getFrameIndex k (outputFrame src)) in
              meas1 ← write_wrench meas (offset sensorRange) w;
              '(ok, rest', meas') ← updateWrenchSources wrenches ek bh rest meas1;
              Some (ok, src' :: rest', meas')
          end
      end
  end.

(** [HumanID::updateExtWrenchesMeasurements] (lines 83-159); [world_gravity]
    is the content of the unassigned local of [computeRCMInBaseFrame]. *)
Definition updateExtWrenchesMeasurements (world_gravity : Vector3) (st : HumanID)
    (wrenches : gmap string Wrench) : option (bool * HumanID) :=
  st1 ← synchronizeFullModel st;
  let e := m_extWrenchesEstimator st1 in
  let b := helper e in
  '(ok, sources, meas) ←
    updateWrenchSources wrenches (ext_kinDyn st1) (berdyHelper b)
                        (m_wrenchSources st1) (VectorDynSize_zero (measurement b));
  let st2 :=
    set_wrenchSources (set_extWrenchesEstimator st1 (set_helper e (set_measurement b meas)))
                      sources in
  if negb ok then Some (false, st2)
  else
    rcmWrench ← computeRCMInBaseFrame world_gravity st2;
    let rcmSensorRange := getRangeRCMSensorVariable (berdyHelper b) RCM_SENSOR in
    meas' ← write_wrench meas (offset rcmSensorRange) rcmWrench;
    Some (true,
          set_extWrenchesEstimator st2
            (set_helper (m_extWrenchesEstimator st2)
               (set_measurement (helper (m_extWrenchesEstimator st2)) meas'))).

(** ** The estimation *)

(** The [return] statement a call of [solve] leaves by. *)
Inductive SolveReturn : Type :=
| ExtWrenchesEstimateFailed      (* line 182 *)
| KinematicsUpdateFailed         (* line 215 *)
| JointTorquesEstimateFailed     (* line 229 *)
| JointTorquesExtractionFailed   (* line 244 *)
| Solved.                        (* line 247 *)

Definition returned (r : SolveReturn) : bool :=
  match r with Solved => true | _ => false end.

(** [linkExtWrenches(linkIndex)]: defined for the index of a link. *)
Definition LinkWrenches_at (linkExtWrenches : list Wrench) (linkIndex : Z)
  : option Wrench :=
  if 0 <=? linkIndex then linkExtWrenches !! Z.to_nat linkIndex else None.

(** The loop of lines 195-203, from source [i] on. *)
Fixpoint copyLinkWrenches (model : Model) (linkExtWrenches : list Wrench)
    (sources : list WrenchSourceData) (i : nat) (estimated : list Wrench)
  : option (list Wrench) :=
  match sources with
  | [] => Some estimated
  | src :: rest =>
      let linkIndex := getLinkIndex model (outputFrame src) in
      if (i <? length estimated)%nat then
        w ← LinkWrenches_at linkExtWrenches linkIndex;
        copyLinkWrenches model linkExtWrenches rest (S i) (<[i := w]> estimated)
      else None
  end.

(** [HumanID::solve] (lines 161-248), with the statement it returns by. *)
Definition solve_at (st : HumanID) : option (SolveReturn * HumanID) :=
  k ← m_kinDyn st;
  let ks := m_kinState st in
  let ks1 := mkKinematicState (floatingBaseFrameIndex ks) (getJointPos k) (getJointVel k)
                              (baseAngularVelocity ks) in
  ek ← ext_kinDyn st;
  let e := m_extWrenchesEstimator st in
  let e1 := set_jointsArrays e (getJointPos ek) (getJointVel ek) in
  let ks2 := mkKinematicState (floatingBaseFrameIndex ks1) (jointsPosition ks1)
                              (jointsVelocity ks1) (twist_angular (getBaseTwist k)) in
  let b := helper e1 in
  sv ← berdySolver b;
  let '(sv1, bh1) :=
    updateEstimateInformationFloatingBase sv (berdyHelper b)
      (jointsPositionArray e1) (jointsVelocityArray e1)
      (floatingBaseFrameIndex ks2) (baseAngularVelocity ks2) (measurement b) in
  let '(ok1, sv2) := doEstimate sv1 bh1 in
  let b1 := set_berdySolver (set_berdyHelper b bh1) (Some sv2) in
  let st1 := set_extWrenchesEstimator (set_kinState st ks2) (set_helper e1 b1) in
  if negb ok1 then Some (ExtWrenchesEstimateFailed, st1)
  else
    let b2 := set_estimatedDynamicVariables b1 (getLastEstimate sv2) in
    let '(_, linkExtWrenches) :=
      extractLinkNetExternalWrenchesFromDynamicVariables bh1
        (estimatedDynamicVariables b2)
        (make_LinkNetExternalWrenches (getRobotModel ek)) in
    estimated ← copyLinkWrenches (getRobotModel ek) linkExtWrenches
                                 (m_wrenchSources st1) 0 (m_estimatedExtWrenches st1);
    let st2 :=
      set_estimatedExtWrenches
        (set_extWrenchesEstimator st1 (set_helper e1 b2)) estimated in
    let jt := m_jointTorquesHelper st2 in
    let '(ok2, jh1) :=
      updateKinematicsFromFloatingBase (berdyHelper jt)
        (jointsPosition ks2) (jointsVelocity ks2)
        (floatingBaseFrameIndex ks2) (baseAngularVelocity ks2) in
    let jt1 := set_berdyHelper jt jh1 in
    if negb ok2 then Some (KinematicsUpdateFailed, set_jointTorquesHelper st2 jt1)
    else
      jsv ← berdySolver jt1;
      let '(jsv1, jh2) :=
        updateEstimateInformationFloatingBase jsv jh1
          (jointsPosition ks2) (jointsVelocity ks2)
          (floatingBaseFrameIndex ks2) (baseAngularVelocity ks2) (measurement jt1) in
      let '(ok3, jsv2) := doEstimate jsv1 jh2 in
      let jt2 := set_berdySolver (set_berdyHelper jt1 jh2) (Some jsv2) in
      if negb ok3 then Some (JointTorquesEstimateFailed, set_jointTorquesHelper st2 jt2)
      else
        let jt3 := set_estimatedDynamicVariables jt2 (getLastEstimate jsv2) in
        let '(ok4, torques) :=
          extractJointTorquesFromDynamicVariables jh2 (estimatedDynamicVariables jt3)
            (jointsPosition ks2) (estimatedJointTorques jt3) in
        let st3 := set_jointTorquesHelper st2 (set_estimatedJointTorques jt3 torques) in
        if negb ok4 then Some (JointTorquesExtractionFailed, st3)
        else Some (Solved, st3).

Definition solve (st : HumanID) : option (bool * HumanID) :=
  '(r, st') ← solve_at st; Some (returned r, st').

(** [HumanID::getJointTorques] and [HumanID::getEstimatedExtWrenches]
    (lines 250-258). *)
Definition getJointTorques (st : HumanID) : VectorDynSize :=
  estimatedJointTorques (m_jointTorquesHelper st).

Definition getEstimatedExtWrenches (st : HumanID) : list Wrench :=
  m_estimatedExtWrenches st.

(** ** Sequences of calls on an initialized object *)

Inductive Call : Type :=
| CallUpdateExtWrenchesMeasurements (world_gravity : Vector3)
                                    (wrenches : gmap string Wrench)
| CallSolve.

Definition call (st : HumanID) (c : Call) : option (bool * HumanID) :=
  match c with
  | CallUpdateExtWrenchesMeasurements g wrenches =>
      updateExtWrenchesMeasurements g st wrenches
  | CallSolve => solve st
  end.

Fixpoint calls (st : HumanID) (cs : list Call) : option HumanID :=
  match cs with
  | [] => Some st
  | c :: cs' => '(_, st') ← call st c; calls st' cs'
  end.

(** ** The measurement layout *)

(** The six slots of the measurement vector that belong to a frame, and the
    slots of the consistency measurement. *)
Definition frameOffset (st : HumanID) (k : KinDynComputations) (frame : string) : Z :=
  offset (getRangeLinkSensorVariable
            (berdyHelper (helper (m_extWrenchesEstimator st)))
            NET_EXT_WRENCH_SENSOR (getFrameIndex k frame)).

Definition rcmOffset (st : HumanID) : Z :=
  offset (getRangeRCMSensorVariable
            (berdyHelper (helper (m_extWrenchesEstimator st))) RCM_SENSOR).

Definition slots (v : VectorDynSize) (off : Z) : list (option double) :=
  (fun j => VectorDynSize_get v (off + Z.of_nat j)) <$> seq 0 6.

Definition in_slots (off p : Z) : Prop := off <= p < off + 6.

(** ** The consistency measurement as the specification words it

    "The gravity-direction force scaled by the configured humanMass,
    transformed from the centroidal frame to the base frame": the wrench of
    [computeRCMInBaseFrame] for the gravity of the model. *)
Definition bodyWeightInBaseFrame (st : HumanID) : option SpatialForceVector :=
  k ← m_kinDyn st;
  computeRCMInBaseFrame (world_gravity (getRobotState k)) st.

(** ** Notions the properties are stated with *)

(** Every vector of a wrench source is as long as the source reads it:
    three coordinates, nine entries of a rotation, six components. *)
Definition complete_vectors (g : Handler) : Prop :=
  forall name h v,
    getGroup g name = Some h ->
    (getParameter_vector_double h "position" = Some v -> (3 <= length v)%nat) /\
    (getParameter_vector_double h "orientation" = Some v -> (9 <= length v)%nat) /\
    (getParameter_vector_double h "values" = Some v -> (6 <= length v)%nat).

(** The wrenches of the links in the estimate of the external wrenches that
    the object holds. *)
Definition heldLinkWrenches (st : HumanID) (ek : KinDynComputations) : list Wrench :=
  (extractLinkNetExternalWrenchesFromDynamicVariables
     (berdyHelper (helper (m_extWrenchesEstimator st)))
     (estimatedDynamicVariables (helper (m_extWrenchesEstimator st)))
     (make_LinkNetExternalWrenches (getRobotModel ek))).2.

(** Where the wrench of a source goes in the measurement vector. *)
Definition sourceOffset (bh : BerdyHelper) (k : KinDynComputations)
    (src : WrenchSourceData) : Z :=
  offset (getRangeLinkSensorVariable bh NET_EXT_WRENCH_SENSOR
                                     (getFrameIndex k (outputFrame src))).


(** What the loop makes of a source. *)
Definition resolved (wrenches : gmap string Wrench) (k : KinDynComputations)
    (src : WrenchSourceData) : option WrenchSourceData :=
  match type src with
  | Fixed =>
      raw ← wrenches !! outputFrame src;
      Some (mkWrenchSourceData (outputFrame src) Fixed (outputFrameTransform src)
                               (Transform_mul (outputFrameTransform src) raw))
  | Dummy =>
      Some (mkWrenchSourceData (outputFrame src) Dummy
              (setRotation (outputFrameTransform src)
                           (getRotation (getWorldTransform k (outputFrame src))))
              (wrench src))
  end.

(** The object can take measurements: it has its two models, and the slots
    of its fixed sources and of the consistency measurement lie inside its
    measurement vector. *)
Definition measurable (st1 : HumanID) (k : KinDynComputations) : Prop :=
  ext_kinDyn st1 = Some k /\
  is_Some (m_kinDyn st1) /\
  (forall src,
     src ∈ m_wrenchSources st1 -> type src = Fixed ->
     0 <= frameOffset st1 k (outputFrame src) /\
     frameOffset st1 k (outputFrame src) + 6 <=
       Z.of_nat (length (measurement (helper (m_extWrenchesEstimator st1))))) /\
  0 <= rcmOffset st1 /\
  rcmOffset st1 + 6 <=
    Z.of_nat (length (measurement (helper (m_extWrenchesEstimator st1)))).

(** ** What a successful [initialize] needs of the configuration *)

(** The group [EXTERNAL_WRENCHES] has the model of the estimator, which
    loads, and the parameters of the estimation. *)
Definition estimation_configured (g : Handler) : Prop :=
  (exists modelPath, getParameter_string g "modelPath" = Some modelPath /\
                     is_Some (loadModelFromFile modelPath)) /\
  is_Some (getParameter_double g "mu_dyn_variables") /\
  is_Some (getParameter_double g "cov_dyn_variables") /\
  (exists specificElements,
     getParameter_vector_string g "specificElements" = Some specificElements /\
     Forall (fun element => is_Some (getParameter_vector_double g element))
            specificElements) /\
  is_Some (getParameter_vector_double g "cov_measurements_RCM_SENSOR") /\
  is_Some (getParameter_double g "default_cov_measurements").

Definition configured (ptr : Handler) : Prop :=
  is_Some (getParameter_double ptr "humanMass") /\
  (exists jointTorquesHandler,
     getGroup ptr "JOINT_TORQUES" = Some jointTorquesHandler /\
     is_Some (getGroup jointTorquesHandler "SENSOR_REMOVAL")) /\
  (exists extWrenchesHandler,
     getGroup ptr "EXTERNAL_WRENCHES" = Some extWrenchesHandler /\
     is_Some (getParameter_vector_string extWrenchesHandler "wrenchSources") /\
     estimation_configured extWrenchesHandler).

(** ** What the calls keep *)

(** What the configuration gives a source for good: its frame and its type;
    for a fixed source its transform; for a dummy source its wrench and the
    position of its transform. *)
Definition configured_part (src : WrenchSourceData)
  : string * WrenchSourceType * option Transform * option (Position * Wrench) :=
  (outputFrame src, type src,
   match type src with
   | Fixed => Some (outputFrameTransform src)
   | Dummy => None
   end,
   match type src with
   | Fixed => None
   | Dummy => Some (getPosition (outputFrameTransform src), wrench src)
   end).

(** The object has what [updateExtWrenchesMeasurements] and [solve]
    dereference: its model, a model of its own for the estimator, the two
    solvers, and one estimated wrench for each source. *)
Definition operational (st : HumanID) : Prop :=
  is_Some (m_kinDyn st) /\
  (exists ek, kinDyn (m_extWrenchesEstimator st) = Own ek) /\
  useFullModel (m_extWrenchesEstimator st) = true /\
  is_Some (berdySolver (helper (m_extWrenchesEstimator st))) /\
  is_Some (berdySolver (m_jointTorquesHelper st)) /\
  length (m_estimatedExtWrenches st) = length (m_wrenchSources st).

(** ** The covariance of the measurements *)

Definition on_diagonal (t : Triplet) : Prop := t.1.1 = t.1.2.

Definition position_of (t : Triplet) : Z * Z := t.1.

End HumanID.
End ID.

(** * Stand-ins for the libraries

    Small executable instances of the interfaces above, on which the
    functions of the two classes can be run. *)

Module Mock.

Definition one : double := of_Z 1.

Definition is_finite (x : double) : bool :=
  match x with
  | S754_zero _ | S754_finite _ _ _ => true
  | S754_infinity _ | S754_nan => false
  end.

Definition dot3 (u v : Vector3d) : double :=
  let '(a, b, c) := u in
  let '(x, y, z) := v in
  add (add (mul a x) (mul b y)) (mul c z).

Definition transpose (m : Matrix3d) : Matrix3d :=
  let '((a, b, c), (d, e, f), (g, h, i)) := m in
  ((a, d, g), (b, e, h), (c, f, i)).

Definition mat_vec (m : Matrix3d) (v : Vector3d) : Vector3d :=
  let '(r1, r2, r3) := m in (dot3 r1 v, dot3 r2 v, dot3 r3 v).

Definition mat_mul (m n : Matrix3d) : Matrix3d :=
  let '(c1, c2, c3) := transpose n in
  let '(r1, r2, r3) := m in
  ((dot3 r1 c1, dot3 r1 c2, dot3 r1 c3),
   (dot3 r2 c1, dot3 r2 c2, dot3 r2 c3),
   (dot3 r3 c1, dot3 r3 c2, dot3 r3 c3)).

Definition identity33 : Matrix3d :=
  ((one, zero, zero), (zero, one, zero), (zero, zero, one)).

Definition zero3 : Vector3d := (zero, zero, zero).

Definition axpy3 (a : double) (x y : Vector3d) : Vector3d :=
  let '(x1, x2, x3) := x in
  let '(y1, y2, y3) := y in
  (add y1 (mul a x1), add y2 (mul a x2), add y3 (mul a x3)).

End Mock.

(** ** For [HumanIK] *)

Module MockIK.

Import Mock IK.

(** Rotations as their matrices. *)
#[export] Instance manifTypes : ManifTypes := {|
  SO3d := Matrix3d;
  SO3Tangentd := Vector3d;
  SE3Tangentd := Vector6d
|}.

#[export] Instance manif : Manif := {|
  SO3d_Identity := identity33;
  SO3d_mul := mat_mul;
  SO3d_inverse := transpose;
  SO3d_rotation := fun r => r;
  toManifRot := fun m => m;
  SE3Tangentd_coeffs := fun v => v
|}.

(** A model is its number of degrees of freedom and its state. *)
Definition model_state (k : nat * RobotState) : RobotState :=
  let '(n, rs) := k in
  mkRobotState (world_T_base rs) (resize n zero (s rs)) (base_velocity rs)
               (resize n zero (s_dot rs)) (world_gravity rs).

#[export] Instance kinDynTypes : KinDynTypes := {|
  KinDynComputations := nat * RobotState
|}.

#[export] Instance kinDyn : KinDyn := {|
  isValid := fun _ => true;
  getNrOfDegreesOfFreedom := fst;
  getRobotState := model_state;
  setRobotState := fun k rs => (true, (fst k, rs))
|}.

(** The solver: whether it is finalized, and its last output. *)
Record Solver : Type := mkSolver {
  finalized : bool;
  valid : bool;
  jointVelocity : VectorXd;
  baseVelocity : Vector6d
}.

(** Its solution is a unit velocity on every joint and along the first axis
    of the base. *)
Definition solver_advance (qp : Solver) (k : option (nat * RobotState))
  : bool * Solver :=
  match k with
  | Some (n, _) =>
      if finalized qp
      then (true, mkSolver true true (repeat one n)
                           (mkVector6d (one, zero, zero) zero3))
      else (false, qp)
  | None => (false, qp)
  end.

(** The integrated system: its state and its control input. *)
Record Kinematics : Type := mkKinematics {
  state : Vector3d * Matrix3d * VectorXd;
  control : Vector6d * VectorXd
}.

Definition seconds (ns : Z) : double := div (of_Z ns) (of_Z 1000000000).

(** One explicit Euler step of length [t1 - t0]; the orientation of the
    base is kept. *)
Definition euler (integ : Z) (d : Kinematics) (t0 t1 : Z) : bool * Z * Kinematics :=
  let '(p, r, q) := state d in
  let '(v, qd) := control d in
  if (t1 <? t0) || (integ <=? 0) || negb (length q =? length qd)%nat
  then (false, integ, d)
  else
    let dt := seconds (t1 - t0) in
    (true, integ,
     mkKinematics
       (axpy3 dt (topRows v) p, r, zip_with (fun x xd => add x (mul dt xd)) q qd)
       (control d)).

#[export] Instance blfTypes : BLFTypes := {|
  SO3Task := option (Matrix3d * Vector3d);
  GravityTask := unit;
  MultiStateWeightProvider := unit;
  QPInverseKinematics := Solver;
  VariablesHandler := list (string * nat);
  FloatingBaseSystemKinematics := Kinematics;
  ForwardEuler := Z
|}.

#[export] Instance blf : BLF := {|
  make_SO3Task := None;
  SO3Task_setKinDyn := fun t k => (bool_decide (is_Some k), t);
  SO3Task_initialize := fun t _ => (true, t);
  SO3Task_setSetPoint := fun _ r w => (true, Some (r, w));
  make_GravityTask := tt;
  GravityTask_setKinDyn := fun t k => (bool_decide (is_Some k), t);
  GravityTask_initialize := fun t _ => (true, t);
  make_MultiStateWeightProvider := tt;
  MultiStateWeightProvider_initialize := fun w _ => (true, w);
  addVariable := fun vh name n => (true, (name, n) :: vh);
  qpIK_initialize := fun qp h => (bool_decide (is_Some h), qp);
  qpIK_addTask_SO3 := fun qp _ _ _ _ => (true, qp);
  qpIK_addTask_Gravity := fun qp _ _ _ _ => (true, qp);
  qpIK_finalize := fun qp _ =>
    (true, mkSolver true (valid qp) (jointVelocity qp) (baseVelocity qp));
  qpIK_advance := fun qp _ _ k => solver_advance qp k;
  qpIK_isOutputValid := valid;
  qpIK_getOutput_jointVelocity := jointVelocity;
  qpIK_getOutput_baseVelocity := baseVelocity;
  make_FloatingBaseSystemKinematics :=
    mkKinematics (zero3, identity33, []) (mkVector6d zero3 zero3, []);
  setState := fun d x => (true, mkKinematics x (control d));
  setControlInput := fun d u => (true, mkKinematics (state d) u);
  make_ForwardEuler := 0;
  setDynamicalSystem := fun i => (true, i);
  setIntegrationStep := fun i dT => if dT <=? 0 then (false, i) else (true, dT);
  integrate := euler;
  getSolution := state
|}.

(** An object before [initialize]. *)
Definition fresh : HumanIK :=
  mkHumanIK 0 None [] [] (mkMatrix4d identity33 zero3 (zero, zero, zero, one))
    (mkVector6d zero3 zero3) zero3 0 ∅ ∅
    (mkSolver false false [] (mkVector6d zero3 zero3)) [] None identity33 identity33.

(** A model with two joints, at rest at the origin. *)
Definition model : nat * RobotState :=
  (2%nat,
   mkRobotState (mkMatrix4d identity33 zero3 (zero, zero, zero, one))
                [zero; zero] (mkVector6d zero3 zero3) [zero; zero]
                (zero, zero, opp (of_Z 10))).

(** A configuration with one orientation task, on node 3. *)
Definition configuration : Handler :=
  MkHandler
    {[ "tasks" := PVectorString ["PELVIS_TASK"] ]}
    {[ "IK" := MkHandler {[ "robot_velocity_variable_name" := PString "robot_velocity" ]} ∅;
       "PELVIS_TASK" :=
         MkHandler {[ "type" := PString "SO3Task";
                      "node_number" := PInt 3;
                      "frame_name" := PString "Pelvis" ]} ∅ ]}.

(** The object after [initialize] and [setDt(0.01)]. *)
Definition initialized : option HumanIK :=
  '(_, st) ← initialize fresh (Some configuration) (Some model);
  '(_, st') ← setDt st (div one (of_Z 100));
  Some st'.

(** The object after [initialize], and after [setDt(0.01)] as well. *)
Definition started : HumanIK :=
  default fresh ('(_, st) ← initialize fresh (Some configuration) (Some model); Some st).

Definition ready : HumanIK := default fresh initialized.

(** A quarter turn about the third axis, no rotation, and no angular
    velocity. *)
Definition quarter_turn : SO3d :=
  ((zero, opp one, zero), (one, zero, zero), (zero, zero, one)).

Definition no_turn : SO3d := identity33.

Definition no_rate : SO3Tangentd := zero3.

End MockIK.

(** ** For [HumanID] *)

Module MockID.

Import Mock ID.

Record Skeleton : Type := mkSkeleton {
  joints : list string;
  links : list string
}.

(** The index of a name in a list, [-1] when it is not there. *)
Fixpoint index_of (name : string) (l : list string) : Z :=
  match l with
  | [] => -1
  | x :: l' =>
      if String.eqb name x then 0
      else let i := index_of name l' in if i <? 0 then -1 else i + 1
  end.

Record Kin : Type := mkKin {
  skeleton : Skeleton;
  floatingBase : string;
  robotState : RobotState
}.

Definition cross3 (u v : Vector3d) : Vector3d :=
  let '(a, b, c) := u in
  let '(x, y, z) := v in
  (sub (mul b z) (mul c y), sub (mul c x) (mul a z), sub (mul a y) (mul b x)).

(** A wrench in another frame: the force is rotated, the moment is rotated
    and gets the moment of the force at the origin of the frame. *)
Definition transform_wrench (t : Transform) (w : Wrench) : Wrench :=
  let f := mat_vec (getRotation t) (getLinearVec3 w) in
  mkWrench f (Vector3_add (mat_vec (getRotation t) (getAngularVec3 w))
                          (cross3 (getPosition t) f)).

Definition identity : Transform := mkTransform identity33 zero3.

Definition rest (n : nat) : RobotState :=
  mkRobotState identity (repeat zero n) (mkTwist zero3 zero3) (repeat zero n)
               (zero, zero, opp (of_Z 10)).

Record Berdy : Type := mkBerdy {
  berdy_links : list string;
  berdy_ready : bool
}.

Definition link_range (b : Berdy) (i : Z) : IndexRange :=
  if (0 <=? i) && (i <? Z.of_nat (length (berdy_links b)))
  then mkIndexRange (6 * i) 6 else mkIndexRange (-1) 0.

Definition rcm_range (b : Berdy) : IndexRange :=
  mkIndexRange (6 * Z.of_nat (length (berdy_links b))) 6.

Definition ordering (b : Berdy) : list BerdySensor :=
  imap (fun i l => mkBerdySensor NET_EXT_WRENCH_SENSOR l (link_range b (Z.of_nat i)))
       (berdy_links b)
  ++ [mkBerdySensor RCM_SENSOR "RCM_SENSOR" (rcm_range b)].

(** The wrench of link [i] among the dynamic variables. *)
Definition link_wrench (d : VectorDynSize) (i : nat) : Wrench :=
  default Wrench_zero (Wrench_of (drop (6 * i) d)).

Record MAP : Type := mkMAP {
  map_ready : bool;
  map_measurement : VectorDynSize;
  map_estimate : VectorDynSize
}.

(** The estimate of the stand-in: the measured wrench of every link.  The
    kinematics of the helper cannot be updated from a joint position that is
    not a number, or from a frame the model does not have. *)
#[export] Instance idyntreeTypes : IDynTreeTypes := {|
  Model := Skeleton;
  SensorsList := unit;
  KinDynComputations := Kin;
  BerdyHelper := Berdy;
  BerdySparseMAPSolver := MAP
|}.

#[export] Instance idyntree : IDynTree := {|
  Transform_mul := transform_wrench;
  getJointName := fun m i => default "" (joints m !! i);
  getLinkIndex := fun m name => index_of name (links m);
  sensors := fun _ => tt;
  make_LinkNetExternalWrenches := fun m => repeat Wrench_zero (length (links m));
  removeAllSensorsOfType := fun l _ => (true, l);
  removeSensor := fun l _ _ => (true, l);
  loadModelFromFile := fun path =>
    if String.eqb path "human.urdf"
    then Some (mkSkeleton ["jLeftAnkle"; "jRightWrist"] ["Pelvis"; "LeftFoot"; "RightHand"])
    else None;
  make_KinDynComputations := mkKin (mkSkeleton [] []) "" (rest 0);
  loadRobotModel := fun k m =>
    (true, mkKin m (floatingBase k) (rest (length (joints m))));
  isValid := fun _ => true;
  getNrOfDegreesOfFreedom := fun k => length (joints (skeleton k));
  getRobotModel := skeleton;
  getFloatingBase := floatingBase;
  setFloatingBase := fun k b =>
    (0 <=? index_of b (links (skeleton k)), mkKin (skeleton k) b (robotState k));
  getFrameIndex := fun k name => index_of name (links (skeleton k));
  getRobotState := robotState;
  setRobotState := fun k rs => (true, mkKin (skeleton k) (floatingBase k) rs);
  getJointPos := fun k => s (robotState k);
  getJointVel := fun k => s_dot (robotState k);
  getBaseTwist := fun k => base_velocity (robotState k);
  getWorldTransform := fun k _ => w_H_b (robotState k);
  getWorldBaseTransform := fun k => w_H_b (robotState k);
  getCenterOfMassPosition := fun k => getPosition (w_H_b (robotState k));
  make_BerdyOptions :=
    mkBerdyOptions ORIGINAL_BERDY_FIXED_BASE "" true false true false false;
  checkConsistency := fun _ => true;
  make_BerdyHelper := mkBerdy [] false;
  berdy_init := fun _ m _ => (true, mkBerdy (links m) true);
  getNrOfDynamicVariables := fun b => (6 * length (berdy_links b))%nat;
  getNrOfSensorsMeasurements := fun b => (6 * length (berdy_links b) + 6)%nat;
  getSensorsOrdering := ordering;
  getRangeLinkSensorVariable := fun b _ i => link_range b i;
  getRangeRCMSensorVariable := fun b _ => rcm_range b;
  updateKinematicsFromFloatingBase := fun b q _ frame _ =>
    (forallb is_finite q && (0 <=? frame), b);
  extractLinkNetExternalWrenchesFromDynamicVariables := fun b d w =>
    (true, imap (fun i _ => link_wrench d i) w);
  extractJointTorquesFromDynamicVariables := fun b d q _ =>
    (true, resize (length q) zero d);
  make_BerdySparseMAPSolver := fun _ => mkMAP false [] [];
  solver_initialize := fun sv b =>
    (berdy_ready b, mkMAP (berdy_ready b) (map_measurement sv) (map_estimate sv));
  solver_isValid := fun sv _ => map_ready sv;
  setMeasurementsPriorCovariance := fun sv _ => sv;
  setDynamicsRegularizationPriorExpectedValue := fun sv _ => sv;
  setDynamicsRegularizationPriorCovariance := fun sv _ => sv;
  updateEstimateInformationFloatingBase := fun sv b _ _ _ _ meas =>
    (mkMAP (map_ready sv) meas (map_estimate sv), b);
  doEstimate := fun sv b =>
    (map_ready sv,
     mkMAP (map_ready sv) (map_measurement sv)
           (take (6 * length (berdy_links b)) (map_measurement sv)));
  getLastEstimate := map_estimate
|}.

Definition sensorTypeNames : list (BerdySensorTypes * string) :=
  [(SIX_AXIS_FORCE_TORQUE_SENSOR, "SIX_AXIS_FORCE_TORQUE_SENSOR");
   (ACCELEROMETER_SENSOR, "ACCELEROMETER_SENSOR");
   (GYROSCOPE_SENSOR, "GYROSCOPE_SENSOR")].

(** An object before [initialize]. *)
Definition fresh : HumanID :=
  mkHumanID zero None (mkKinematicState 0 [] [] zero3)
    (mkBerdyData (mkBerdy [] false) None [] [] [])
    (mkExtWrenchesEstimator (mkBerdyData (mkBerdy [] false) None [] [] [])
                            NullPtr false [] [] [] [])
    [] [] (mkMAPEstParams zero zero zero ∅).

Definition human : Skeleton :=
  mkSkeleton ["jLeftAnkle"; "jRightWrist"] ["Pelvis"; "LeftFoot"; "RightHand"].

(** The model of the caller, at rest; and the same model after a joint
    position has become NaN. *)
Definition model : Kin := mkKin human "Pelvis" (rest 2).

Definition model_nan : Kin :=
  mkKin human "Pelvis"
        (mkRobotState identity [S754_nan; zero] (mkTwist zero3 zero3) [zero; zero]
                      (zero, zero, opp (of_Z 10))).

Definition d (z : Z) : double := of_Z z.

(** A configuration with a fixed source on the left foot and a dummy source
    with a known wrench on the right hand. *)
Definition externalWrenches : Handler :=
  MkHandler
    {[ "wrenchSources" := PVectorString ["LEFT_FOOT"; "RIGHT_HAND"];
       "modelPath" := PString "human.urdf";
       "mu_dyn_variables" := PDouble zero;
       "cov_dyn_variables" := PDouble (d 10000);
       "specificElements" := PVectorString [];
       "cov_measurements_RCM_SENSOR" := PVectorDouble (repeat one 6);
       "default_cov_measurements" := PDouble (d 10000) ]}
    {[ "LEFT_FOOT" :=
         MkHandler {[ "outputFrame" := PString "LeftFoot";
                      "type" := PString "fixed";
                      "position" := PVectorDouble [zero; zero; zero];
                      "orientation" :=
                        PVectorDouble [one; zero; zero; zero; one; zero; zero; zero; one] ]} ∅;
       "RIGHT_HAND" :=
         MkHandler {[ "outputFrame" := PString "RightHand";
                      "type" := PString "dummy";
                      "values" := PVectorDouble [d 1; d 2; d 3; d 4; d 5; d 6] ]} ∅ ]}.

Definition configuration : Handler :=
  MkHandler
    {[ "humanMass" := PDouble (d 70) ]}
    {[ "JOINT_TORQUES" := MkHandler ∅ {[ "SENSOR_REMOVAL" := MkHandler ∅ ∅ ]};
       "EXTERNAL_WRENCHES" := externalWrenches ]}.

(** The same configuration without [modelPath]. *)
Definition configuration_without_modelPath : Handler :=
  MkHandler
    {[ "humanMass" := PDouble (d 70) ]}
    {[ "JOINT_TORQUES" := MkHandler ∅ {[ "SENSOR_REMOVAL" := MkHandler ∅ ∅ ]};
       "EXTERNAL_WRENCHES" :=
         MkHandler (delete "modelPath" (params externalWrenches))
                   (groups externalWrenches) ]}.

Definition initialize (k : Kin) (h : Handler) : option (bool * HumanID) :=
  ID.initialize sensorTypeNames zero identity Wrench_zero fresh (Some h) (Some k).

(** The wrench the foot sensor reads. *)
Definition footWrench : Wrench := mkWrench (zero, zero, d 700) zero3.

Definition observations : gmap string Wrench := {[ "LeftFoot" := footWrench ]}.

Definition updateExtWrenchesMeasurements (g : Vector3) (st : HumanID)
    (wrenches : gmap string Wrench) : option (bool * HumanID) :=
  ID.updateExtWrenchesMeasurements identity g st wrenches.

(** The object initialized on the model at rest, after the measurement of
    the foot, and after a [solve]. *)
Definition started : HumanID :=
  default fresh (snd <$> initialize model configuration).

Definition measured : HumanID :=
  default fresh (snd <$> updateExtWrenchesMeasurements zero3 started observations).

Definition solved : HumanID := default fresh (snd <$> solve measured).

(** Then a joint position of the model, which the object shares with its
    caller, becomes NaN, and the foot reads half the weight. *)
Definition halfWrench : Wrench := mkWrench (zero, zero, d 350) zero3.

Definition disturbed : HumanID :=
  default fresh
    (snd <$> updateExtWrenchesMeasurements zero3 (set_kinDyn solved (Some model_nan))
                                           {[ "LeftFoot" := halfWrench ]}).

(** The model of the estimator, loaded from [modelPath]. *)
Definition estimator_model : Kin := mkKin human "Pelvis" (rest 2).
End MockID.

(** * Properties of [HumanIK] *)

Module IKTheory.

Import IK.

(** ** The time step *)

(** Rounding keeps the sign it is given. *)
Lemma binary_round_aux_sign (sx : bool) (mx ex : Z) (lx : location) :
  match binary_round_aux prec emax sx mx ex lx with
  | S754_finite s' _ _ => s' = sx
  | _ => True
  end.
Proof.
  unfold binary_round_aux.
  destruct (shr_fexp prec emax mx ex lx) as [mrs' e'].
  destruct (shr_fexp prec emax _ e' loc_Exact) as [mrs'' e''].
  destruct (shr_m mrs''); [exact I | | exact I].
  destruct (e'' <=? emax - prec)%Z; [reflexivity | exact I].
Qed.

(** A product of two doubles that are not negative is not negative. *)
Lemma mul_sign (x y : double) :
  leb zero x = true -> leb zero y = true ->
  match mul x y with
  | S754_finite s' _ _ => s' = false
  | _ => True
  end.
Proof.
  destruct x as [sx | sx | | sx mx ex], y as [sy | sy | | sy my ey];
    try exact (fun _ _ => I); try discriminate.
  destruct sx; [discriminate |]. destruct sy; [discriminate |].
  intros _ _. apply (binary_round_aux_sign false).
Qed.

(** Toward zero and downward agree on what is not negative. *)
Lemma truncZ_floorZ (x : double) :
  match x with S754_finite s' _ _ => s' = false | _ => True end ->
  truncZ x = floorZ x.
Proof.
  destruct x as [sx | sx | | sx m e]; try reflexivity.
  intros ->. unfold truncZ, floorZ, cond_Zopp.
  destruct (0 <=? e) eqn:He; [reflexivity |].
  f_equal. apply Z.quot_div_nonneg; [lia |].
  apply Z.pow_pos_nonneg; lia.
Qed.

Lemma floorZ_nonneg (x : double) (n : Z) :
  match x with S754_finite s' _ _ => s' = false | _ => True end ->
  floorZ x = Some n -> 0 <= n.
Proof.
  destruct x as [sx | sx | | sx m e]; try discriminate.
  - intros _ [= <-]. lia.
  - intros ->. unfold floorZ, cond_Zopp. intros [= <-].
    destruct (0 <=? e) eqn:He.
    + apply Z.mul_nonneg_nonneg; [lia |]. apply Z.pow_nonneg; lia.
    + apply Z.div_pos; [lia |]. apply Z.pow_pos_nonneg; lia.
Qed.

Lemma nano_den_nonneg : leb zero (of_Z Chrono.nano_den) = true.
Proof. vm_compute. reflexivity. Qed.

(** The nanoseconds [setDt] stores: the floor of [dt * 1e9], when it is an
    [int64_t]. *)
Lemma duration_cast_nanoseconds_floor (dt : double) (ns : Z) :
  leb zero dt = true ->
  floorZ (mul dt (of_Z Chrono.nano_den)) = Some ns ->
  ns <= Chrono.int64_max ->
  Chrono.duration_cast_nanoseconds dt = Some ns.
Proof.
  intros Hdt Hfl Hmax.
  pose proof (mul_sign dt _ Hdt nano_den_nonneg) as Hs.
  unfold Chrono.duration_cast_nanoseconds, Chrono.static_cast_int64.
  rewrite (truncZ_floorZ _ Hs), Hfl. simpl.
  pose proof (floorZ_nonneg _ _ Hs Hfl) as H0.
  unfold Chrono.in_int64.
  replace (Chrono.int64_min <=? ns) with true
    by (symmetry; apply Z.leb_le; unfold Chrono.int64_min; lia).
  replace (ns <=? Chrono.int64_max) with true by (symmetry; apply Z.leb_le; lia).
  reflexivity.
Qed.

Section Properties.

Context {manifT : ManifTypes} {kinDynT : KinDynTypes} {blfT : BLFTypes}
        {manifO : Manif} {kinDynO : KinDyn} {blfO : BLF}.

(** C10, as amended: on an object that has its integrator (one that
    [initialize] has gone through), for every time step [dt] that is not
    negative and whose number of whole nanoseconds [floor(dt * 1e9)] fits the
    64-bit count of [std::chrono::nanoseconds], [setDt(dt)] stores that number
    and [getDt()] then returns it divided by [1e9], the product, the
    conversion and the quotient being those of [double]; nothing else of the
    state of the solver enters the result. *)
Theorem getDt_after_setDt (st : HumanIK) (dt : double) (ns : Z) :
  is_Some (m_system st) ->
  leb zero dt = true ->
  floorZ (mul dt (of_Z Chrono.nano_den)) = Some ns ->
  ns <= Chrono.int64_max ->
  exists ok st',
    setDt st dt = Some (ok, st') /\
    m_dtIntegration st' = ns /\
    getDt st' = div (of_Z ns) (of_Z Chrono.nano_den).
Proof.
  intros [sys Hsys] Hdt Hfl Hmax.
  unfold setDt.
  rewrite (duration_cast_nanoseconds_floor dt ns Hdt Hfl Hmax). simpl.
  rewrite Hsys. simpl.
  destruct (setIntegrationStep (integrator sys) ns) as [ok integ].
  exists ok. eexists. split; [reflexivity |]. split; reflexivity.
Qed.

(** ** Accessors of the base *)

(** C9: the four accessors of the base return true in every state, whatever
    the buffer holds, and the buffer then holds the position and the rotation
    block of the cached pose and the two halves of the cached twist. *)
Theorem base_accessors_always_succeed (st : HumanIK)
    (position linear angular : Vector3d) (orientation : Matrix3d) :
  getBasePosition st position = (true, topRightCorner (m_basePose st)) /\
  getBaseOrientation st orientation = (true, topLeftCorner (m_basePose st)) /\
  getBaseLinearVelocity st linear = (true, topRows (m_baseVelocity st)) /\
  getBaseAngularVelocity st angular = (true, bottomRows (m_baseVelocity st)).
Proof. repeat split. Qed.

(** ** Nodes that are not configured *)

(** C7: for a node that has no entry in the map of orientation tasks,
    [setNodeSetPoint] and [TPoseCalibrationNode] return false and the whole
    object, the task and the calibration of every configured node with it, is
    as before. *)
Theorem unconfigured_node_is_rejected (st : HumanIK) (node : Z)
    (I_R_IMU : SO3d) (I_omega_IMU : SO3Tangentd) :
  m_OrientationTasks st !! node = None ->
  setNodeSetPoint st node I_R_IMU I_omega_IMU = (false, st) /\
  TPoseCalibrationNode st node I_R_IMU = (false, st).
Proof.
  intros Hnone. unfold setNodeSetPoint, TPoseCalibrationNode.
  rewrite Hnone. split; reflexivity.
Qed.

(** ** The sizes of the cached vectors *)

Lemma initializeGravityTask_core (st : HumanIK) (name : string) (h : Handler) :
  core (initializeGravityTask st name h).2 = core st.
Proof.
  unfold initializeGravityTask.
  destruct (getParameter_int h "node_number"); [| reflexivity].
  destruct (MultiStateWeightProvider_initialize _ h) as [okw wp].
  destruct okw; simpl; [| reflexivity].
  destruct (GravityTask_setKinDyn _ _) as [ok1 t1].
  destruct (if ok1 then _ else _) as [ok2 t2].
  destruct (if ok2 then _ else _) as [ok3 qp].
  reflexivity.
Qed.

Lemma initializeSO3Task_core (ok : bool) (st : HumanIK) (task : string)
    (h : Handler) (k : KinDynComputations) (n : Z) (r : bool * HumanIK) :
  initializeSO3Task ok st task h k n = Some r -> core r.2 = core st.
Proof.
  unfold initializeSO3Task.
  destruct (match getParameter_vector_double h "rotation_matrix" with
            | Some v => toManifRot <$> Map_RowMajor33 v
            | None => Some SO3d_Identity
            end) as [R |]; [| discriminate].
  simpl.
  destruct (if ok then _ else _) as [ok1 t1].
  destruct (if ok1 then _ else _) as [ok2 t2].
  destruct (if ok2 then _ else _) as [ok3 qp].
  intros [= <-]. reflexivity.
Qed.

Lemma initializeTasks_core (ptr : Handler) (k : KinDynComputations)
    (tasks : list string) :
  forall (ok : bool) (st : HumanIK) (r : bool * bool * HumanIK),
    initializeTasks ptr k tasks ok st = Some r -> core r.2 = core st.
Proof.
  induction tasks as [| task rest IH]; intros ok st r; simpl.
  - intros [= <-]. reflexivity.
  - destruct (getGroup ptr task) as [th |]; [| intros [= <-]; reflexivity].
    destruct (getParameter_string th "type") as [ty |]; [| intros [= <-]; reflexivity].
    destruct (String.eqb ty "SO3Task").
    + destruct (getParameter_int th "node_number") as [n |];
        [| intros [= <-]; reflexivity].
      destruct (initializeSO3Task ok st task th k n) as [[ok' st'] |] eqn:E;
        [| discriminate].
      simpl. apply initializeSO3Task_core in E. simpl in E.
      destruct ok'; simpl.
      * intros Hr. rewrite (IH _ _ _ Hr). exact E.
      * intros [= <-]. exact E.
    + destruct (String.eqb ty "GravityTask"); [| intros [= <-]; reflexivity].
      pose proof (initializeGravityTask_core st task th) as E.
      destruct (initializeGravityTask st task th) as [okg st']. simpl in E.
      destruct okg; simpl.
      * intros Hr. rewrite (IH _ _ _ Hr). exact E.
      * intros [= <-]. exact E.
Qed.

Section Sized.

Context {sizes : Sizes}.

Lemma sized_core (D : nat) (st st' : HumanIK) :
  core st' = core st -> sized D st -> sized D st'.
Proof.
  unfold core, sized. intros [= -> -> -> ->]. exact (fun x => x).
Qed.

Lemma initialize_sized (st0 : HumanIK) (handler : option Handler)
    (k : KinDynComputations) (st : HumanIK) :
  initialize st0 handler (Some k) = Some (true, st) ->
  sized (getNrOfDegreesOfFreedom k) st.
Proof.
  unfold initialize.
  destruct (isValid k); simpl; [| discriminate].
  destruct (setState _ _) as [ok0 dyn] eqn:Hdyn.
  destruct (setDynamicalSystem _) as [ok0' integ].
  destruct handler as [ptr |]; [| discriminate].
  destruct (getParameter_vector_string ptr "tasks") as [tasks |]; [| discriminate].
  destruct (qpIK_initialize _ _) as [ok qp].
  destruct (getGroup ptr "IK") as [group |]; [| discriminate]. simpl.
  destruct (addVariable _ _ _) as [okv vh].
  destruct (initializeTasks _ _ _ _ _) as [[[finished ok'] st5] |] eqn:E;
    [| discriminate].
  simpl. apply initializeTasks_core in E. simpl in E.
  destruct finished; simpl; [| discriminate].
  destruct (qpIK_finalize _ _) as [okf qp'].
  intros [= _ <-].
  eapply sized_core; [exact E |].
  repeat split; simpl.
  - apply getRobotState_s.
  - apply getRobotState_s_dot.
  - eexists. split; [reflexivity |]. simpl.
    pose proof (setState_size make_FloatingBaseSystemKinematics
                  (topRightCorner (world_T_base (getRobotState k)),
                   toManifRot (topLeftCorner (world_T_base (getRobotState k))),
                   s (getRobotState k))) as Hs.
    simpl in Hs. rewrite Hdyn in Hs. simpl in Hs. rewrite Hs.
    apply getRobotState_s.
  - eexists. split; reflexivity.
Qed.

Lemma advance_sized (D : nat) (st : HumanIK) (b : bool) (st' : HumanIK) :
  sized D st -> advance st = Some (b, st') -> sized D st'.
Proof.
  intros (Hq & Hqd & (sys & Hsys & Hsol) & (k & Hk & HD)).
  unfold advance. rewrite Hk.
  destruct (qpIK_advance _ _ _ _) as [ok1 qp] eqn:Hqp.
  destruct ok1; simpl.
  2:{ intros [= _ <-]. repeat split; simpl; eauto. }
  destruct (qpIK_isOutputValid qp) eqn:Hvalid; simpl.
  2:{ intros [= _ <-]. repeat split; simpl; eauto. }
  pose proof (qpIK_output_size _ _ _ _ _ Hqp Hvalid) as Hout.
  rewrite Hsys. simpl.
  pose proof (setControlInput_size (dynamics sys)
                (SE3Tangentd_coeffs (qpIK_getOutput_baseVelocity qp),
                 qpIK_getOutput_jointVelocity qp)) as Hc.
  destruct (setControlInput _ _) as [ok2 dyn]. simpl in Hc.
  destruct ok2.
  - pose proof (integrate_size (integrator sys) dyn 0 (m_dtIntegration st)) as Hi.
    destruct (integrate _ _ _ _) as [[ok3 integ] dyn']. simpl in Hi.
    destruct ok3; simpl.
    + destruct (getSolution dyn') as [[p R] q] eqn:Hs. simpl. rewrite Hk. simpl.
      pose proof (setRobotState_dofs k
                    (mkRobotState (mkMatrix4d (SO3d_rotation R) p (bottomRow (m_basePose st)))
                       q (SE3Tangentd_coeffs (qpIK_getOutput_baseVelocity qp))
                       (qpIK_getOutput_jointVelocity qp) (m_gravity st))) as Hk'.
      destruct (setRobotState _ _) as [okk k']. simpl in Hk'.
      intros [= _ <-]. simpl in Hi.
      repeat split; simpl; try lia.
      * eexists. split; [reflexivity |]. simpl. rewrite Hs. simpl. lia.
      * eexists. split; [reflexivity |]. lia.
    + intros [= _ <-].
      repeat split; simpl; try lia.
      * eexists. split; [reflexivity |]. simpl. lia.
      * exists k. split; [exact Hk | exact HD].
  - simpl. intros [= _ <-].
    repeat split; simpl; try lia.
    + eexists. split; [reflexivity |]. simpl. lia.
    + exists k. split; [exact Hk | exact HD].
Qed.

Lemma call_sized (D : nat) (st : HumanIK) (c : Call) (b : bool) (st' : HumanIK) :
  sized D st -> call st c = Some (b, st') -> sized D st'.
Proof.
  intros Hst. destruct c as [dt | node R w | node R |]; simpl.
  - unfold setDt.
    destruct (Chrono.duration_cast_nanoseconds dt) as [ns |]; [| discriminate].
    simpl. destruct Hst as (Hq & Hqd & (sys & Hsys & Hsol) & Hk).
    rewrite Hsys. simpl.
    destruct (setIntegrationStep _ _) as [ok integ].
    intros [= _ <-]. repeat split; simpl; eauto.
  - unfold setNodeSetPoint.
    destruct (m_OrientationTasks st !! node) as [ot |].
    + destruct (SO3Task_setSetPoint _ _ _) as [ok t].
      intros [= _ <-]. exact Hst.
    + intros [= _ <-]. exact Hst.
  - unfold TPoseCalibrationNode.
    destruct (m_OrientationTasks st !! node) as [ot |]; intros [= _ <-]; exact Hst.
  - apply advance_sized. exact Hst.
Qed.

Lemma calls_sized (D : nat) (cs : list Call) :
  forall st st', sized D st -> calls st cs = Some st' -> sized D st'.
Proof.
  induction cs as [| c cs IH]; intros st st' Hst; simpl.
  - intros [= <-]. exact Hst.
  - destruct (call st c) as [[b st1] |] eqn:Hc; [| discriminate]. simpl.
    apply IH. exact (call_sized _ _ _ _ _ Hst Hc).
Qed.

(** C6: when the libraries keep their sizes, on an object initialized on a
    model with [D] degrees of freedom and after any calls, the cached joint
    positions and velocities have [D] entries, and [getJointPositions] and
    [getJointVelocities] return true and the cached vector for a buffer of
    [D] entries and false, leaving the buffer, for a buffer of any other
    length.  They are functions of the state: nothing is solved and nothing
    of the object changes. *)
Theorem joint_accessors_check_the_size (st0 : HumanIK) (handler : option Handler)
    (k : KinDynComputations) (st : HumanIK) (cs : list Call) (st' : HumanIK)
    (buffer : VectorXd) :
  initialize st0 handler (Some k) = Some (true, st) ->
  calls st cs = Some st' ->
  let D := getNrOfDegreesOfFreedom k in
  length (m_jointPositions st') = D /\
  length (m_jointVelocities st') = D /\
  getJointPositions st' buffer =
    (if decide (length buffer = D) then (true, m_jointPositions st')
     else (false, buffer)) /\
  getJointVelocities st' buffer =
    (if decide (length buffer = D) then (true, m_jointVelocities st')
     else (false, buffer)).
Proof.
  intros Hinit Hcalls D.
  pose proof (calls_sized D cs st st' (initialize_sized _ _ _ _ Hinit) Hcalls)
    as (Hq & Hqd & _ & _).
  split; [exact Hq |]. split; [exact Hqd |].
  unfold getJointPositions, getJointVelocities. rewrite Hq, Hqd.
  destruct (decide (length buffer = D)) as [-> | Hne].
  - rewrite Nat.eqb_refl. split; reflexivity.
  - apply Nat.eqb_neq in Hne. rewrite Hne. split; reflexivity.
Qed.

End Sized.

(** ** Calibration *)

(** A call that does not calibrate a node leaves its calibration and the
    rotation from its sensor to its link. *)
Lemma call_keeps_calibration (st : HumanIK) (c : Call) (b : bool) (st' : HumanIK)
    (node : Z) (ot : OrientationTask) :
  call st c = Some (b, st') ->
  calibrates node c = false ->
  m_OrientationTasks st !! node = Some ot ->
  exists ot',
    m_OrientationTasks st' !! node = Some ot' /\
    calibrationMatrix ot' = calibrationMatrix ot /\
    IMU_R_link ot' = IMU_R_link ot.
Proof.
  intros Hcall Hc Hot. destruct c as [dt | n R w | n R |]; simpl in Hcall, Hc.
  - unfold setDt in Hcall.
    destruct (Chrono.duration_cast_nanoseconds dt); [| discriminate].
    simpl in Hcall. destruct (m_system st); [| discriminate]. simpl in Hcall.
    destruct (setIntegrationStep _ _). injection Hcall as _ <-.
    exists ot. auto.
  - unfold setNodeSetPoint in Hcall.
    destruct (m_OrientationTasks st !! n) as [otn |] eqn:Hn.
    + destruct (SO3Task_setSetPoint _ _ _) as [ok t].
      injection Hcall as _ <-. simpl.
      destruct (decide (n = node)) as [-> | Hne].
      * rewrite lookup_insert_eq. eexists. split; [reflexivity |].
        rewrite Hot in Hn. injection Hn as <-. auto.
      * rewrite lookup_insert_ne by exact Hne. exists ot. auto.
    + injection Hcall as _ <-. exists ot. auto.
  - unfold TPoseCalibrationNode in Hcall. apply Z.eqb_neq in Hc.
    destruct (m_OrientationTasks st !! n) as [otn |].
    + injection Hcall as _ <-. simpl.
      rewrite lookup_insert_ne by exact Hc. exists ot. auto.
    + injection Hcall as _ <-. exists ot. auto.
  - unfold advance in Hcall.
    destruct (qpIK_advance _ _ _ _) as [ok1 qp].
    destruct (negb (ok1 && qpIK_isOutputValid qp)).
    { injection Hcall as _ <-. exists ot. auto. }
    simpl in Hcall. destruct (m_system st) as [sys |]; [| discriminate].
    simpl in Hcall.
    destruct (setControlInput _ _) as [ok2 dyn].
    destruct (if ok2 then _ else _) as [[ok3 integ] dyn'].
    destruct ok3; simpl in Hcall.
    + destruct (getSolution dyn') as [[p R] q]. simpl in Hcall.
      destruct (m_kinDyn st); [| discriminate]. simpl in Hcall.
      destruct (setRobotState _ _). injection Hcall as _ <-. exists ot. auto.
    + injection Hcall as _ <-. exists ot. auto.
Qed.

Lemma calls_keep_calibration (node : Z) (cs : list Call) :
  forall (st st' : HumanIK) (ot : OrientationTask),
    Forall (fun c => calibrates node c = false) cs ->
    calls st cs = Some st' ->
    m_OrientationTasks st !! node = Some ot ->
    exists ot',
      m_OrientationTasks st' !! node = Some ot' /\
      calibrationMatrix ot' = calibrationMatrix ot /\
      IMU_R_link ot' = IMU_R_link ot.
Proof.
  induction cs as [| c cs IH]; intros st st' ot Hcs; simpl.
  - intros [= <-] Hot. exists ot. auto.
  - destruct (call st c) as [[b st1] |] eqn:Hc; [| discriminate]. simpl.
    intros Hrest Hot. inversion Hcs as [| ? ? Hc0 Hcs']; subst.
    destruct (call_keeps_calibration _ _ _ _ _ _ Hc Hc0 Hot) as (ot1 & Hot1 & Hcal & Himu).
    destruct (IH _ _ _ Hcs' Hrest Hot1) as (ot' & H' & Hcal' & Himu').
    exists ot'. split; [exact H' |]. split; congruence.
Qed.

(** C5: once [TPoseCalibrationNode] has stored a calibration for a node,
    and for as long as the node is not calibrated again, every
    [setNodeSetPoint] for the node gives its task the set point
    [calibrationMatrix * I_R_IMU * IMU_R_link] with that stored calibration;
    and a calibration call, for any node, leaves every task, with the set
    point it was given, and the last rotation computed for a task as they
    were. *)
Theorem calibration_is_composed_until_recalibrated (st : HumanIK) (node : Z)
    (I_R_IMU0 : SO3d) (st1 : HumanIK) (cs : list Call) (st2 : HumanIK)
    (I_R_IMU : SO3d) (I_omega_IMU : SO3Tangentd) :
  TPoseCalibrationNode st node I_R_IMU0 = (true, st1) ->
  Forall (fun c => calibrates node c = false) cs ->
  calls st1 cs = Some st2 ->
  (exists ot ot2,
     m_OrientationTasks st !! node = Some ot /\
     m_OrientationTasks st2 !! node = Some ot2 /\
     calibrationMatrix ot2 =
       SO3d_mul (calib_R_link st) (SO3d_inverse (SO3d_mul I_R_IMU0 (IMU_R_link ot))) /\
     let target := SO3d_mul (SO3d_mul (calibrationMatrix ot2) I_R_IMU) (IMU_R_link ot2) in
     let pushed := SO3Task_setSetPoint (ot_task ot2) target I_omega_IMU in
     let result := setNodeSetPoint st2 node I_R_IMU I_omega_IMU in
     result.1 = pushed.1 /\
     ot_task <$> m_OrientationTasks result.2 !! node = Some pushed.2 /\
     I_R_link result.2 = target) /\
  (forall (s0 : HumanIK) (n : Z) (R : SO3d),
     ot_task <$> m_OrientationTasks (TPoseCalibrationNode s0 n R).2 =
       ot_task <$> m_OrientationTasks s0 /\
     I_R_link (TPoseCalibrationNode s0 n R).2 = I_R_link s0).
Proof.
  intros Hcal Hcs Hcalls. split.
  - unfold TPoseCalibrationNode in Hcal.
    destruct (m_OrientationTasks st !! node) as [ot |] eqn:Hot; [| discriminate].
    injection Hcal as <-.
    assert (m_OrientationTasks
              (set_OrientationTasks st
                 (<[node := mkOrientationTask (ot_task ot) (ot_nodeNumber ot) (IMU_R_link ot)
                              (SO3d_mul (calib_R_link st)
                                 (SO3d_inverse (SO3d_mul I_R_IMU0 (IMU_R_link ot))))]>
                    (m_OrientationTasks st))) !! node
            = Some (mkOrientationTask (ot_task ot) (ot_nodeNumber ot) (IMU_R_link ot)
                      (SO3d_mul (calib_R_link st)
                         (SO3d_inverse (SO3d_mul I_R_IMU0 (IMU_R_link ot))))))
      as Hst1 by (simpl; apply lookup_insert_eq).
    destruct (calls_keep_calibration node cs _ _ _ Hcs Hcalls Hst1)
      as (ot2 & H2 & Hc2 & Hi2).
    exists ot, ot2. split; [reflexivity |]. split; [exact H2 |].
    split; [exact Hc2 |].
    unfold setNodeSetPoint. rewrite H2.
    destruct (SO3Task_setSetPoint _ _ _) as [ok t]. simpl.
    rewrite lookup_insert_eq. auto.
  - intros s0 n R. unfold TPoseCalibrationNode.
    destruct (m_OrientationTasks s0 !! n) as [otn |] eqn:Hn; simpl.
    + split; [| reflexivity].
      rewrite fmap_insert. simpl. apply insert_id.
      rewrite lookup_fmap, Hn. reflexivity.
    + auto.
Qed.

(** ** One cycle *)

(** [advance] is defined on an object that has its integrator and its
    model. *)
Lemma advance_defined (st : HumanIK) :
  is_Some (m_system st) -> is_Some (m_kinDyn st) -> is_Some (advance st).
Proof.
  intros [sys Hsys] [k Hk]. unfold advance.
  destruct (qpIK_advance _ _ _ _) as [ok1 qp].
  destruct (negb (ok1 && qpIK_isOutputValid qp)); [eauto |].
  simpl. rewrite Hsys. simpl.
  destruct (setControlInput _ _) as [ok2 dyn].
  destruct (if ok2 then _ else _) as [[ok3 integ] dyn'].
  destruct ok3; simpl; [| eauto].
  destruct (getSolution dyn') as [[p R] q]. simpl. rewrite Hk. simpl.
  destruct (setRobotState _ _). eauto.
Qed.

(** C1, as amended: [advance] (1) runs the task-priority solver on the
    tasks and the model; (2) when the solver fails or its output is not valid
    it returns false, and nothing but the solver has changed; otherwise (3) it
    caches the generalized velocity this solve has just produced, gives it to
    the floating-base system as its input and has the integrator advance the
    system from 0 to the time step; and when that succeeds (4) it caches the
    solution of the integrator as the base pose and the joint positions, sets
    the state of the model to the cached pose, positions and velocities, and
    returns true. *)
Theorem advance_cycle (st : HumanIK) (ok : bool) (qp : QPInverseKinematics) :
  qpIK_advance (m_qpIK st) (ot_task <$> m_OrientationTasks st)
               (gt_task <$> m_GravityTasks st) (m_kinDyn st) = (ok, qp) ->
  (ok && qpIK_isOutputValid qp = false ->
   advance st = Some (false, set_qpIK st qp)) /\
  (ok && qpIK_isOutputValid qp = true ->
   forall sys k dyn integ dyn' p R q,
     m_system st = Some sys ->
     m_kinDyn st = Some k ->
     let v := SE3Tangentd_coeffs (qpIK_getOutput_baseVelocity qp) in
     let qd := qpIK_getOutput_jointVelocity qp in
     setControlInput (dynamics sys) (v, qd) = (true, dyn) ->
     integrate (integrator sys) dyn 0 (m_dtIntegration st) = (true, integ, dyn') ->
     getSolution dyn' = (p, R, q) ->
     exists st',
       advance st = Some (true, st') /\
       m_baseVelocity st' = v /\
       m_jointVelocities st' = qd /\
       m_jointPositions st' = q /\
       topRightCorner (m_basePose st') = p /\
       topLeftCorner (m_basePose st') = SO3d_rotation R /\
       m_system st' = Some (mkSystem integ dyn') /\
       m_kinDyn st' =
         Some (setRobotState k
                 (mkRobotState (m_basePose st') q v qd (m_gravity st))).2).
Proof.
  intros Hqp. split.
  - intros Hfail. unfold advance. rewrite Hqp, Hfail. reflexivity.
  - intros Hok sys k dyn integ dyn' p R q Hsys Hk v qd Hc Hi Hs.
    unfold advance. rewrite Hqp, Hok. simpl. rewrite Hsys. simpl.
    fold v qd. rewrite Hc, Hi. simpl. rewrite Hs. simpl. rewrite Hk. simpl.
    destruct (setRobotState _ _) as [okk k'] eqn:Hset.
    eexists. split; [reflexivity |]. simpl.
    repeat (split; [reflexivity |]). rewrite Hset. reflexivity.
Qed.

End Properties.

End IKTheory.

(** * [HumanIK] on the stand-ins *)

Module IKExamples.

Import IK MockIK IKTheory.

Lemma mock_sizes : Sizes.
Proof.
  split.
  - intros [n rs]. simpl. apply length_resize.
  - intros [n rs]. simpl. apply length_resize.
  - intros [n rs] rs'. reflexivity.
  - intros qp so3 gr [n rs] qp'. simpl.
    destruct (finalized qp); [| discriminate].
    intros [= <-] _. simpl. apply repeat_length.
  - intros dyn x. reflexivity.
  - intros dyn u. reflexivity.
  - intros i dyn t0 t1. simpl. unfold euler.
    destruct (state dyn) as [[p r] q] eqn:Hs.
    destruct (control dyn) as [v qd].
    destruct ((t1 <? t0) || (i <=? 0) || negb (length q =? length qd)%nat) eqn:Hc;
      simpl; rewrite ?Hs; simpl; [reflexivity |].
    apply orb_false_elim in Hc as [_ Hlen].
    apply negb_false_iff, Nat.eqb_eq in Hlen.
    rewrite length_zip_with. lia.
Qed.

(** The time step of a hundredth of a second is stored as ten million
    nanoseconds. *)
Lemma getDt_after_setDt_witness :
  exists ok st',
    setDt started (div Mock.one (of_Z 100)) = Some (ok, st') /\
    m_dtIntegration st' = 10000000 /\
    getDt st' = div (of_Z 10000000) (of_Z Chrono.nano_den).
Proof.
  apply (getDt_after_setDt started (div Mock.one (of_Z 100)) 10000000).
  - vm_compute. eexists. reflexivity.
  - vm_compute. reflexivity.
  - vm_compute. reflexivity.
  - vm_compute. discriminate.
Defined.

(** Ten thousand million seconds are more nanoseconds than the 64-bit count
    of [std::chrono::nanoseconds] holds: the time step is not negative, the
    floor of [dt * 1e9] is [10^19], no [int64_t] is that number, and the cast
    in [setDt] has no defined result. *)
Lemma setDt_beyond_int64 :
  let dt := of_Z (10 ^ 10) in
  leb zero dt = true /\
  floorZ (mul dt (of_Z Chrono.nano_den)) = Some (10 ^ 19) /\
  Chrono.in_int64 (10 ^ 19) = false /\
  setDt ready dt = None.
Proof. vm_compute. repeat split. Qed.

(** Three tenths of a second.  The double nearest to 0.3 lies below it, and
    so does its exact product with [1e9], whose floor is 299999999; the
    product in [double] is [3e8], and [setDt] stores 300000000 nanoseconds. *)
Lemma setDt_rounds_the_product :
  let dt := div (of_Z 3) (of_Z 10) in
  dt = S754_finite false 5404319552844595 (-54) /\
  (5404319552844595 * 10 ^ 9) / 2 ^ 54 = 299999999 /\
  floorZ (mul dt (of_Z Chrono.nano_den)) = Some 300000000 /\
  (fun r => m_dtIntegration r.2) <$> setDt started dt = Some 300000000.
Proof. vm_compute. repeat split. Qed.

(** Node 7 is not configured. *)
Lemma unconfigured_node_witness :
  setNodeSetPoint ready 7 quarter_turn no_rate = (false, ready) /\
  TPoseCalibrationNode ready 7 quarter_turn = (false, ready).
Proof.
  apply (unconfigured_node_is_rejected ready 7 quarter_turn no_rate).
  vm_compute. reflexivity.
Defined.

(** Two joints, after a time step was set and a cycle was run. *)
Lemma joint_accessors_witness :
  let st' := default fresh (calls started [CallSetDt (div Mock.one (of_Z 100)); CallAdvance]) in
  let buffer := [zero; zero; zero] in
  length (m_jointPositions st') = 2%nat /\
  length (m_jointVelocities st') = 2%nat /\
  getJointPositions st' buffer =
    (if decide (length buffer = 2%nat) then (true, m_jointPositions st')
     else (false, buffer)) /\
  getJointVelocities st' buffer =
    (if decide (length buffer = 2%nat) then (true, m_jointVelocities st')
     else (false, buffer)).
Proof.
  apply (joint_accessors_check_the_size (sizes := mock_sizes)
           fresh (Some configuration) model started
           [CallSetDt (div Mock.one (of_Z 100)); CallAdvance]).
  - vm_compute. reflexivity.
  - vm_compute. reflexivity.
Defined.

(** Node 3 is calibrated on a quarter turn; a set point and a cycle later
    the calibration is still the one composed into the set point. *)
Lemma calibration_witness :
  let st1 := (TPoseCalibrationNode ready 3 quarter_turn).2 in
  let cs := [CallSetNodeSetPoint 3 no_turn no_rate; CallAdvance] in
  let st2 := default fresh (calls st1 cs) in
  (exists ot ot2,
     m_OrientationTasks ready !! 3 = Some ot /\
     m_OrientationTasks st2 !! 3 = Some ot2 /\
     calibrationMatrix ot2 =
       SO3d_mul (calib_R_link ready)
                (SO3d_inverse (SO3d_mul quarter_turn (IMU_R_link ot))) /\
     let target :=
       SO3d_mul (SO3d_mul (calibrationMatrix ot2) quarter_turn) (IMU_R_link ot2) in
     let pushed := SO3Task_setSetPoint (ot_task ot2) target no_rate in
     let result := setNodeSetPoint st2 3 quarter_turn no_rate in
     result.1 = pushed.1 /\
     ot_task <$> m_OrientationTasks result.2 !! 3 = Some pushed.2 /\
     I_R_link result.2 = target) /\
  (forall (s0 : HumanIK) (n : Z) (R : SO3d),
     ot_task <$> m_OrientationTasks (TPoseCalibrationNode s0 n R).2 =
       ot_task <$> m_OrientationTasks s0 /\
     I_R_link (TPoseCalibrationNode s0 n R).2 = I_R_link s0).
Proof.
  apply (calibration_is_composed_until_recalibrated ready 3 quarter_turn
           (TPoseCalibrationNode ready 3 quarter_turn).2
           [CallSetNodeSetPoint 3 no_turn no_rate; CallAdvance]).
  - vm_compute. reflexivity.
  - repeat constructor.
  - vm_compute. reflexivity.
Defined.

(** A cycle of the initialized object. *)
Lemma advance_cycle_witness :
  let qp := (solver_advance (m_qpIK ready) (m_kinDyn ready)).2 in
  (true && qpIK_isOutputValid qp = false ->
   advance ready = Some (false, set_qpIK ready qp)) /\
  (true && qpIK_isOutputValid qp = true ->
   forall sys k dyn integ dyn' p R q,
     m_system ready = Some sys ->
     m_kinDyn ready = Some k ->
     let v := SE3Tangentd_coeffs (qpIK_getOutput_baseVelocity qp) in
     let qd := qpIK_getOutput_jointVelocity qp in
     setControlInput (dynamics sys) (v, qd) = (true, dyn) ->
     integrate (integrator sys) dyn 0 (m_dtIntegration ready) = (true, integ, dyn') ->
     getSolution dyn' = (p, R, q) ->
     exists st',
       advance ready = Some (true, st') /\
       m_baseVelocity st' = v /\
       m_jointVelocities st' = qd /\
       m_jointPositions st' = q /\
       topRightCorner (m_basePose st') = p /\
       topLeftCorner (m_basePose st') = SO3d_rotation R /\
       m_system st' = Some (mkSystem integ dyn') /\
       m_kinDyn st' =
         Some (setRobotState k
                 (mkRobotState (m_basePose st') q v qd (m_gravity ready))).2).
Proof.
  apply (advance_cycle ready true).
  vm_compute. reflexivity.
Defined.

(** The object holds a zero velocity from the cycle before; the solver
    finds a unit velocity.  [advance] moves the joints by the new velocity
    over the time step; the cycle of the specification, which integrates the
    velocity of the cycle before, leaves them where they are. *)
Lemma advance_integrates_the_new_velocity :
  let step := add zero (mul (seconds 10000000) Mock.one) in
  m_jointVelocities ready = [zero; zero] /\
  m_jointPositions ready = [zero; zero] /\
  (fun r => (r.1, m_jointPositions r.2)) <$> advance ready = Some (true, [step; step]) /\
  (fun r => (r.1, m_jointPositions r.2)) <$> advance_with_previous_velocity ready
    = Some (true, [zero; zero]) /\
  step <> zero.
Proof. vm_compute. repeat split. discriminate. Qed.

End IKExamples.

(** * Properties of [HumanID] *)

Module IDTheory.

Import ID.

Section Properties.

Context {idyntreeT : IDynTreeTypes} {idyntreeO : IDynTree}.

Variable mapBerdySensorType : list (BerdySensorTypes * string).
Variable fresh_double : double.
Variable fresh_Transform : Transform.
Variable fresh_Wrench : Wrench.

(** ** Initialization without [modelPath] *)

Lemma Position_of_defined (v : list double) :
  (3 <= length v)%nat -> is_Some (Position_of v).
Proof.
  destruct v as [| a [| b [| c v]]]; simpl; try lia. eauto.
Qed.

Lemma Map_RowMajor33_defined (v : list double) :
  (9 <= length v)%nat -> is_Some (Map_RowMajor33 v).
Proof.
  do 9 (destruct v as [| ? v]; simpl; try lia). eauto.
Qed.

Lemma Wrench_of_defined (v : list double) :
  (6 <= length v)%nat -> is_Some (Wrench_of v).
Proof.
  do 6 (destruct v as [| ? v]; simpl; try lia). eauto.
Qed.

Lemma readWrenchSource_defined (g : Handler) (name : string) :
  complete_vectors g ->
  is_Some (readWrenchSource fresh_Transform fresh_Wrench g name).
Proof.
  intros Hg. unfold readWrenchSource.
  destruct (getGroup g name) as [h |] eqn:Hh; [| eauto].
  destruct (getParameter_string h "outputFrame"); [| eauto].
  destruct (getParameter_string h "type") as [ty |]; [| eauto].
  destruct (String.eqb ty "fixed").
  - destruct (getParameter_vector_double h "position") as [p |] eqn:Hp; [| eauto].
    destruct (Position_of_defined p) as [p' ->];
      [exact (proj1 (Hg _ _ p Hh) Hp) |].
    simpl.
    destruct (getParameter_vector_double h "orientation") as [o |] eqn:Ho; [| eauto].
    destruct (Map_RowMajor33_defined o) as [o' ->];
      [exact (proj1 (proj2 (Hg _ _ o Hh)) Ho) |].
    simpl. eauto.
  - destruct (String.eqb ty "dummy"); [| eauto].
    destruct (getParameter_vector_double h "values") as [v |] eqn:Hv; [| eauto].
    destruct (Wrench_of_defined v) as [w ->];
      [exact (proj2 (proj2 (Hg _ _ v Hh)) Hv) |].
    simpl. eauto.
Qed.

Lemma readWrenchSources_defined (g : Handler) (names : list string) :
  complete_vectors g ->
  forall sources,
    is_Some (readWrenchSources fresh_Transform fresh_Wrench g names sources).
Proof.
  intros Hg. induction names as [| name rest IH]; intros sources; simpl.
  - eauto.
  - destruct (readWrenchSource_defined g name Hg) as [r ->]. simpl.
    destruct r; [apply IH | eauto].
Qed.

(** Without [modelPath] the helper of the external wrenches returns false,
    whatever else the group holds. *)
Lemma initializeExtWrenchesHelper_without_modelPath (st : HumanID) (g : Handler) :
  getParameter_string g "modelPath" = None ->
  (forall b st',
     initializeExtWrenchesHelper fresh_Transform fresh_Wrench st g = Some (b, st') ->
     b = false) /\
  (complete_vectors g ->
   exists st',
     initializeExtWrenchesHelper fresh_Transform fresh_Wrench st g = Some (false, st')).
Proof.
  intros Hpath. unfold initializeExtWrenchesHelper. rewrite Hpath.
  destruct (getParameter_vector_string g "wrenchSources") as [names |].
  2:{ split; [intros b st' [= <- _]; reflexivity | eauto]. }
  split.
  - intros b st'.
    destruct (readWrenchSources _ _ g names (m_wrenchSources st)) as [[oks sources] |];
      [| discriminate].
    simpl. destruct oks; simpl; intros [= <- _]; reflexivity.
  - intros Hg.
    destruct (readWrenchSources_defined g names Hg (m_wrenchSources st))
      as [[oks sources] ->].
    simpl. destruct oks; simpl; eauto.
Qed.

Lemma initializeJointTorquesHelper_defined (st : HumanID) (g : Handler) :
  is_Some (m_kinDyn st) ->
  is_Some (initializeJointTorquesHelper mapBerdySensorType fresh_double st g).
Proof.
  intros [k Hk]. unfold initializeJointTorquesHelper. rewrite Hk. simpl.
  destruct (getGroup g "SENSOR_REMOVAL"); [| eauto].
  destruct (negb _); [eauto |].
  destruct (berdy_init _ _ _) as [ok bh].
  destruct ok; simpl; [| eauto].
  destruct (solver_initialize _ _). eauto.
Qed.

(** C8: when the group [EXTERNAL_WRENCHES] of the configuration has no
    [modelPath], [initialize] never returns true; and it does return, with
    false, whenever the vectors of the wrench sources are as long as they are
    read (reading one past its end has no defined result). *)
Theorem initialize_fails_without_modelPath (st : HumanID) (ptr : Handler)
    (kinDyn : option KinDynComputations) :
  (forall g, getGroup ptr "EXTERNAL_WRENCHES" = Some g ->
             getParameter_string g "modelPath" = None) ->
  (forall b st',
     initialize mapBerdySensorType fresh_double fresh_Transform fresh_Wrench
                st (Some ptr) kinDyn = Some (b, st') ->
     b = false) /\
  ((forall g, getGroup ptr "EXTERNAL_WRENCHES" = Some g -> complete_vectors g) ->
   exists st',
     initialize mapBerdySensorType fresh_double fresh_Transform fresh_Wrench
                st (Some ptr) kinDyn = Some (false, st')).
Proof.
  intros Hpath. unfold initialize. simpl.
  destruct (getParameter_double ptr "humanMass") as [mass |].
  2:{ split; [intros b st' [= <- _]; reflexivity | eauto]. }
  destruct kinDyn as [k |].
  2:{ split; [intros b st' [= <- _]; reflexivity | eauto]. }
  destruct (isValid k); simpl.
  2:{ split; [intros b st' [= <- _]; reflexivity | eauto]. }
  destruct (getGroup ptr "JOINT_TORQUES") as [jth |].
  2:{ split; [intros b st' [= <- _]; reflexivity | eauto]. }
  match goal with
  | |- context [initializeJointTorquesHelper _ _ ?s jth] =>
      destruct (initializeJointTorquesHelper_defined s jth) as [[okj st3] ->];
        [simpl; eauto |]
  end.
  simpl. destruct okj; simpl.
  2:{ split; [intros b st' [= <- _]; reflexivity | eauto]. }
  destruct (getGroup ptr "EXTERNAL_WRENCHES") as [g |] eqn:Hg.
  2:{ split; [intros b st' [= <- _]; reflexivity | eauto]. }
  destruct (initializeExtWrenchesHelper_without_modelPath st3 g (Hpath g eq_refl))
    as [Hnever Hfalse].
  split.
  - intros b st'.
    destruct (initializeExtWrenchesHelper _ _ st3 g) as [[oke st4] |] eqn:He;
      [| discriminate].
    simpl. rewrite (Hnever _ _ eq_refl). simpl. intros [= <- _]. reflexivity.
  - intros Hcomplete. destruct (Hfalse (Hcomplete g eq_refl)) as [st4 ->].
    simpl. eauto.
Qed.

(** ** A failed [solve] *)

Lemma copyLinkWrenches_spec (model : Model) (link : list Wrench)
    (sources : list WrenchSourceData) :
  forall (i : nat) (est est' : list Wrench),
    copyLinkWrenches model link sources i est = Some est' ->
    length est' = length est /\
    (forall p, (p < i)%nat -> est' !! p = est !! p) /\
    (forall j src,
       sources !! j = Some src ->
       exists w,
         LinkWrenches_at link (getLinkIndex model (outputFrame src)) = Some w /\
         est' !! (i + j)%nat = Some w).
Proof.
  induction sources as [| src rest IH]; intros i est est'; simpl.
  - intros [= <-]. split; [reflexivity |]. split; [reflexivity |].
    intros j src0 Hj. rewrite lookup_nil in Hj. discriminate.
  - destruct (i <? length est)%nat eqn:Hi; [| discriminate].
    apply Nat.ltb_lt in Hi.
    destruct (LinkWrenches_at link _) as [w |] eqn:Hw; [| discriminate]. simpl.
    intros Hrest. destruct (IH _ _ _ Hrest) as (Hlen & Hbelow & Hat).
    rewrite length_insert in Hlen.
    split; [exact Hlen |]. split.
    + intros p Hp. rewrite Hbelow by lia.
      apply list_lookup_insert_ne. lia.
    + intros [| j] src0 Hj; simpl in Hj.
      * injection Hj as <-. exists w. split; [exact Hw |].
        rewrite Nat.add_0_r, Hbelow by lia.
        apply list_lookup_insert_eq. exact Hi.
      * destruct (Hat j src0 Hj) as (w0 & Hw0 & Hest).
        exists w0. split; [exact Hw0 |].
        replace (i + S j)%nat with (S i + j)%nat by lia. exact Hest.
Qed.

(** C2, as amended: a [solve] that returns false leaves the object with its
    models, its wrench sources and its solver, so that [solve] can be called
    again.  [getJointTorques] returns what it returned before unless the
    failure is in the last stage, the extraction of the torques.
    [getEstimatedExtWrenches] returns what it returned before only when the
    failure is in the first stage, the estimate of the external wrenches;
    after a failure in a later stage it already returns the wrenches of the
    new estimate. *)
Theorem failed_solve_outputs (st st' : HumanID) :
  solve st = Some (false, st') ->
  exists r,
    solve_at st = Some (r, st') /\
    returned r = false /\
    m_kinDyn st' = m_kinDyn st /\
    kinDyn (m_extWrenchesEstimator st') = kinDyn (m_extWrenchesEstimator st) /\
    m_wrenchSources st' = m_wrenchSources st /\
    is_Some (berdySolver (helper (m_extWrenchesEstimator st'))) /\
    (is_Some (berdySolver (m_jointTorquesHelper st)) ->
     is_Some (berdySolver (m_jointTorquesHelper st'))) /\
    length (getEstimatedExtWrenches st') = length (getEstimatedExtWrenches st) /\
    (r <> JointTorquesExtractionFailed -> getJointTorques st' = getJointTorques st) /\
    (r = ExtWrenchesEstimateFailed ->
     getEstimatedExtWrenches st' = getEstimatedExtWrenches st) /\
    (r <> ExtWrenchesEstimateFailed ->
     exists ek,
       ext_kinDyn st = Some ek /\
       forall i src,
         m_wrenchSources st !! i = Some src ->
         exists w,
           LinkWrenches_at (heldLinkWrenches st' ek)
                           (getLinkIndex (getRobotModel ek) (outputFrame src)) = Some w /\
           getEstimatedExtWrenches st' !! i = Some w).
Proof.
  unfold solve.
  destruct (solve_at st) as [[r st1] |] eqn:Hat; [| discriminate].
  simpl. intros [= Hr <-]. exists r. split; [reflexivity |]. split; [exact Hr |].
  revert Hat. unfold solve_at.
  destruct (m_kinDyn st) as [k |] eqn:Hk; [| discriminate]. simpl.
  destruct (ext_kinDyn st) as [ek |] eqn:Hek; [| discriminate]. simpl.
  destruct (berdySolver (helper (m_extWrenchesEstimator st))) as [sv |] eqn:Hsv;
    [| discriminate].
  simpl.
  destruct (updateEstimateInformationFloatingBase sv _ _ _ _ _ _) as [sv1 bh1].
  destruct (doEstimate sv1 bh1) as [ok1 sv2].
  destruct ok1; simpl.
  2:{ intros [= <- <-]. simpl. rewrite Hk.
      repeat split;
        solve [reflexivity | eauto | intros; discriminate | intros; contradiction]. }
  destruct (extractLinkNetExternalWrenchesFromDynamicVariables bh1 _ _)
    as [okx link] eqn:Hlink.
  destruct (copyLinkWrenches _ link _ _ _) as [est |] eqn:Hcopy; [| discriminate].
  simpl.
  destruct (copyLinkWrenches_spec _ _ _ _ _ _ Hcopy) as (Hlen & _ & Hest).
  assert (forall s2 : HumanID,
            m_extWrenchesEstimator s2 =
              set_helper
                (set_jointsArrays (m_extWrenchesEstimator st) (getJointPos ek) (getJointVel ek))
                (set_estimatedDynamicVariables
                   (set_berdySolver
                      (set_berdyHelper (helper (m_extWrenchesEstimator st)) bh1) (Some sv2))
                   (getLastEstimate sv2)) ->
            m_estimatedExtWrenches s2 = est ->
            exists ek0,
              Some ek = Some ek0 /\
              forall i src,
                m_wrenchSources st !! i = Some src ->
                exists w,
                  LinkWrenches_at (heldLinkWrenches s2 ek0)
                    (getLinkIndex (getRobotModel ek0) (outputFrame src)) = Some w /\
                  getEstimatedExtWrenches s2 !! i = Some w) as Hnew.
  { intros s2 He Hes. exists ek. split; [reflexivity |].
    intros i src Hi. unfold heldLinkWrenches, getEstimatedExtWrenches.
    rewrite He, Hes. simpl. rewrite Hlink. simpl.
    destruct (Hest i src Hi) as (w & Hw & Hlook). exists w. auto. }
  destruct (updateKinematicsFromFloatingBase _ _ _ _ _) as [ok2 jh1].
  destruct ok2; simpl.
  2:{ intros [= <- <-]. simpl. rewrite Hk.
      repeat split;
        solve [reflexivity | eauto | exact Hlen | intros; discriminate
               | intros _; apply Hnew; reflexivity]. }
  destruct (berdySolver (m_jointTorquesHelper st)) as [jsv |] eqn:Hjsv;
    [| discriminate].
  simpl.
  destruct (updateEstimateInformationFloatingBase jsv _ _ _ _ _ _) as [jsv1 jh2].
  destruct (doEstimate jsv1 jh2) as [ok3 jsv2].
  destruct ok3; simpl.
  2:{ intros [= <- <-]. simpl. rewrite Hk.
      repeat split;
        solve [reflexivity | eauto | exact Hlen | intros; discriminate
               | intros _; apply Hnew; reflexivity]. }
  destruct (extractJointTorquesFromDynamicVariables _ _ _ _) as [ok4 torques].
  destruct ok4; simpl.
  { intros [= <- <-]. discriminate Hr. }
  intros [= <- <-]. simpl. rewrite Hk.
  repeat split;
    solve [reflexivity | eauto | exact Hlen | intros; discriminate
           | intros; contradiction | intros _; apply Hnew; reflexivity].
Qed.

(** ** Writing the measurement vector *)

Lemma VectorDynSize_set_inv (v : VectorDynSize) (i : Z) (x : double)
    (v' : VectorDynSize) :
  VectorDynSize_set v i x = Some v' ->
  0 <= i < Z.of_nat (length v) /\ v' = <[Z.to_nat i := x]> v.
Proof.
  unfold VectorDynSize_set.
  destruct ((0 <=? i) && (i <? Z.of_nat (length v))) eqn:Hi; [| discriminate].
  apply andb_prop in Hi as [H0 H1]. intros [= <-]. split; [lia | reflexivity].
Qed.

Lemma VectorDynSize_set_defined (v : VectorDynSize) (i : Z) (x : double) :
  0 <= i < Z.of_nat (length v) -> is_Some (VectorDynSize_set v i x).
Proof.
  intros Hi. unfold VectorDynSize_set.
  replace ((0 <=? i) && (i <? Z.of_nat (length v))) with true; [eauto |].
  symmetry. apply andb_true_intro. split; [apply Z.leb_le | apply Z.ltb_lt]; lia.
Qed.

Lemma VectorDynSize_get_set_eq (v : VectorDynSize) (i : Z) (x : double)
    (v' : VectorDynSize) :
  VectorDynSize_set v i x = Some v' -> VectorDynSize_get v' i = Some x.
Proof.
  intros Hset. apply VectorDynSize_set_inv in Hset as [Hi ->].
  unfold VectorDynSize_get. replace (0 <=? i) with true by (symmetry; apply Z.leb_le; lia).
  apply list_lookup_insert_eq. lia.
Qed.

Lemma VectorDynSize_get_set_ne (v : VectorDynSize) (i : Z) (x : double)
    (v' : VectorDynSize) (p : Z) :
  VectorDynSize_set v i x = Some v' -> p <> i ->
  VectorDynSize_get v' p = VectorDynSize_get v p.
Proof.
  intros Hset Hne. apply VectorDynSize_set_inv in Hset as [Hi ->].
  unfold VectorDynSize_get. destruct (0 <=? p) eqn:Hp; [| reflexivity].
  apply Z.leb_le in Hp. apply list_lookup_insert_ne. lia.
Qed.

Lemma write_components_spec (w : Wrench) (off : Z) (n : nat) :
  forall (j : nat) (v v' : VectorDynSize),
    write_components v off w j n = Some v' ->
    length v' = length v /\
    (forall p, ~ (off + Z.of_nat j <= p < off + Z.of_nat j + Z.of_nat n) ->
               VectorDynSize_get v' p = VectorDynSize_get v p) /\
    (forall i, (j <= i < j + n)%nat ->
               VectorDynSize_get v' (off + Z.of_nat i) = Some (Wrench_at w i)).
Proof.
  induction n as [| n IH]; intros j v v'; simpl.
  - intros [= <-]. split; [reflexivity |]. split; [reflexivity |]. intros i Hi. lia.
  - destruct (VectorDynSize_set v (off + Z.of_nat j) (Wrench_at w j)) as [v1 |] eqn:Hset;
      [| discriminate].
    simpl. intros Hrest. destruct (IH _ _ _ Hrest) as (Hlen & Hout & Hin).
    pose proof (VectorDynSize_set_inv _ _ _ _ Hset) as [_ Hv1].
    split; [rewrite Hlen, Hv1; apply length_insert |]. split.
    + intros p Hp. rewrite Hout by lia.
      apply (VectorDynSize_get_set_ne _ _ _ _ _ Hset). lia.
    + intros i Hi. destruct (decide (i = j)) as [-> | Hne].
      * rewrite Hout by lia. apply (VectorDynSize_get_set_eq _ _ _ _ Hset).
      * apply Hin. lia.
Qed.

Lemma write_components_defined (w : Wrench) (off : Z) (n : nat) :
  forall (j : nat) (v : VectorDynSize),
    0 <= off + Z.of_nat j ->
    off + Z.of_nat j + Z.of_nat n <= Z.of_nat (length v) ->
    is_Some (write_components v off w j n).
Proof.
  induction n as [| n IH]; intros j v H0 Hn; simpl; [eauto |].
  destruct (VectorDynSize_set_defined v (off + Z.of_nat j) (Wrench_at w j))
    as [v1 Hset]; [lia |].
  rewrite Hset. simpl.
  pose proof (VectorDynSize_set_inv _ _ _ _ Hset) as [_ Hv1].
  apply IH; [lia |]. rewrite Hv1, length_insert. lia.
Qed.

(** After [write_wrench] the six slots hold the wrench, the vector is as long
    as before, and every other entry is as before. *)
Lemma write_wrench_spec (v : VectorDynSize) (off : Z) (w : Wrench)
    (v' : VectorDynSize) :
  write_wrench v off w = Some v' ->
  length v' = length v /\
  (forall p, ~ in_slots off p -> VectorDynSize_get v' p = VectorDynSize_get v p) /\
  slots v' off = Some <$> Wrench_to_list w.
Proof.
  unfold write_wrench. intros Hw.
  destruct (write_components_spec _ _ _ _ _ _ Hw) as (Hlen & Hout & Hin).
  split; [exact Hlen |]. split.
  - intros p Hp. apply Hout. unfold in_slots in Hp. lia.
  - unfold slots, Wrench_to_list. rewrite <- list_fmap_compose.
    apply list_fmap_ext. intros i j Hj. apply lookup_seq in Hj as [-> Hi].
    simpl. apply Hin. lia.
Qed.

Lemma write_wrench_defined (v : VectorDynSize) (off : Z) (w : Wrench) :
  0 <= off -> off + 6 <= Z.of_nat (length v) -> is_Some (write_wrench v off w).
Proof.
  intros H0 H6. apply write_components_defined; simpl; lia.
Qed.


(** ** The loop over the wrench sources *)

Lemma updateWrenchSources_frame (wrenches : gmap string Wrench)
    (k : KinDynComputations) (bh : BerdyHelper) (sources : list WrenchSourceData) :
  forall meas ok sources' meas',
    updateWrenchSources wrenches (Some k) bh sources meas = Some (ok, sources', meas') ->
    length meas' = length meas /\
    forall p,
      (forall src, src ∈ sources -> type src = Fixed ->
                   ~ in_slots (sourceOffset bh k src) p) ->
      VectorDynSize_get meas' p = VectorDynSize_get meas p.
Proof.
  induction sources as [| src rest IH]; intros meas ok sources' meas'; simpl.
  - intros [= <- <- <-]. auto.
  - destruct (type src) eqn:Hty.
    + destruct (wrenches !! outputFrame src) as [raw |].
      2:{ intros [= <- <- <-]. auto. }
      simpl.
      destruct (write_wrench meas _ _) as [meas1 |] eqn:Hw; [| discriminate]. simpl.
      destruct (updateWrenchSources wrenches (Some k) bh rest meas1)
        as [[[ok1 rest'] meas1'] |] eqn:Hrest; [| discriminate].
      simpl. intros [= <- <- <-].
      destruct (IH _ _ _ _ Hrest) as [Hlen Hout].
      destruct (write_wrench_spec _ _ _ _ Hw) as (Hlen1 & Hout1 & _).
      split; [congruence |].
      intros p Hp. rewrite Hout.
      * apply Hout1. apply (Hp src); [left | exact Hty].
      * intros src' Hin. apply Hp. right. exact Hin.
    + simpl.
      destruct (updateWrenchSources wrenches (Some k) bh rest meas)
        as [[[ok1 rest'] meas1'] |] eqn:Hrest; [| discriminate].
      simpl. intros [= <- <- <-].
      destruct (IH _ _ _ _ Hrest) as [Hlen Hout].
      split; [exact Hlen |].
      intros p Hp. apply Hout. intros src' Hin. apply Hp. right. exact Hin.
Qed.


Lemma updateWrenchSources_defined (wrenches : gmap string Wrench)
    (k : KinDynComputations) (bh : BerdyHelper) (sources : list WrenchSourceData) :
  forall meas,
    (forall src, src ∈ sources -> type src = Fixed ->
                 0 <= sourceOffset bh k src /\
                 sourceOffset bh k src + 6 <= Z.of_nat (length meas)) ->
    is_Some (updateWrenchSources wrenches (Some k) bh sources meas).
Proof.
  induction sources as [| src rest IH]; intros meas Hin; simpl; [eauto |].
  destruct (type src) eqn:Hty.
  - destruct (wrenches !! outputFrame src) as [raw |]; [| eauto]. simpl.
    destruct (Hin src) as [H0 H6]; [left | exact Hty |].
    destruct (write_wrench_defined meas _
                (Transform_mul (outputFrameTransform src) raw) H0 H6) as [meas1 Hw].
    fold (sourceOffset bh k src). rewrite Hw. simpl.
    destruct (write_wrench_spec _ _ _ _ Hw) as (Hlen & _ & _).
    destruct (IH meas1) as [[[ok1 rest'] meas1'] ->]; [| simpl; eauto].
    intros src' Hin'. rewrite Hlen. apply Hin. right. exact Hin'.
  - simpl. destruct (IH meas) as [[[ok1 rest'] meas1'] ->]; [| simpl; eauto].
    intros src' Hin'. apply Hin. right. exact Hin'.
Qed.


(** ** [updateExtWrenchesMeasurements] *)

Lemma synchronizeFullModel_keeps (st st1 : HumanID) :
  synchronizeFullModel st = Some st1 ->
  m_wrenchSources st1 = m_wrenchSources st /\
  helper (m_extWrenchesEstimator st1) = helper (m_extWrenchesEstimator st) /\
  m_humanMass st1 = m_humanMass st.
Proof.
  unfold synchronizeFullModel.
  destruct (useFullModel (m_extWrenchesEstimator st)); [| intros [= <-]; auto].
  destruct (m_kinDyn st) as [k |]; [| discriminate]. simpl.
  destruct (ext_kinDyn st) as [ek |]; [| discriminate]. simpl.
  destruct (copyJointState _ _ _ _ _ _ _) as [[q qd] |]; [| discriminate]. simpl.
  destruct (setRobotState _ _) as [ok ek'].
  intros [= <-]. unfold set_ext_kinDyn. simpl.
  destruct (kinDyn (m_extWrenchesEstimator st)); simpl; auto.
Qed.

(** The call, by its parts: the loop over the sources on the zeroed vector,
    then the consistency measurement. *)
Lemma updateExtWrenchesMeasurements_parts (world_gravity : Vector3)
    (st : HumanID) (wrenches : gmap string Wrench) (st1 : HumanID)
    (k : KinDynComputations) :
  synchronizeFullModel st = Some st1 ->
  measurable st1 k ->
  exists ok sources' meas' st',
    updateWrenchSources wrenches (Some k)
      (berdyHelper (helper (m_extWrenchesEstimator st1))) (m_wrenchSources st1)
      (VectorDynSize_zero (measurement (helper (m_extWrenchesEstimator st1))))
      = Some (ok, sources', meas') /\
    updateExtWrenchesMeasurements fresh_Transform world_gravity st wrenches
      = Some (ok, st') /\
    m_wrenchSources st' = sources' /\
    (ok = true ->
     exists rcm,
       computeRCMInBaseFrame fresh_Transform world_gravity st1 = Some rcm /\
       write_wrench meas' (rcmOffset st1) rcm
         = Some (measurement (helper (m_extWrenchesEstimator st')))).
Proof.
  intros Hsync (Hek & [mk Hmk] & Hfixed & Hr0 & Hr6).
  unfold updateExtWrenchesMeasurements. rewrite Hsync. simpl. rewrite Hek.
  destruct (updateWrenchSources_defined wrenches k
              (berdyHelper (helper (m_extWrenchesEstimator st1)))
              (m_wrenchSources st1)
              (VectorDynSize_zero (measurement (helper (m_extWrenchesEstimator st1)))))
    as [[[ok sources'] meas'] Hloop].
  { intros src Hin Hty. unfold VectorDynSize_zero. rewrite repeat_length.
    exact (Hfixed src Hin Hty). }
  rewrite Hloop. simpl.
  destruct (updateWrenchSources_frame _ _ _ _ _ _ _ _ Hloop) as [Hlen _].
  unfold VectorDynSize_zero in Hlen. rewrite repeat_length in Hlen.
  exists ok, sources', meas'.
  destruct ok; simpl.
  - unfold computeRCMInBaseFrame. simpl. rewrite Hmk. simpl.
    match goal with
    | |- context [write_wrench meas' ?o ?w] =>
        destruct (write_wrench_defined meas' o w) as [meas'' Hw]
    end.
    { exact Hr0. }
    { rewrite Hlen. exact Hr6. }
    rewrite Hw. simpl. eexists. split; [reflexivity |].
    split; [reflexivity |]. split; [reflexivity |].
    intros _. eexists. split; [reflexivity |]. exact Hw.
  - eexists. split; [reflexivity |]. split; [reflexivity |].
    split; [reflexivity |]. discriminate.
Qed.


(** The slots of the consistency measurement hold the wrench that
    [computeRCMInBaseFrame] makes of the content of its unassigned local. *)
Lemma rcm_slots (world_gravity : Vector3) (st : HumanID)
    (wrenches : gmap string Wrench) (st1 : HumanID) (k : KinDynComputations)
    (st' : HumanID) :
  synchronizeFullModel st = Some st1 ->
  measurable st1 k ->
  updateExtWrenchesMeasurements fresh_Transform world_gravity st wrenches
    = Some (true, st') ->
  exists rcm,
    computeRCMInBaseFrame fresh_Transform world_gravity st1 = Some rcm /\
    slots (measurement (helper (m_extWrenchesEstimator st'))) (rcmOffset st1)
      = Some <$> Wrench_to_list rcm.
Proof.
  intros Hsync Hm Hcall.
  destruct (updateExtWrenchesMeasurements_parts world_gravity st wrenches st1 k Hsync Hm)
    as (ok & sources' & meas' & st0 & _ & Hcall0 & _ & Hrcm).
  rewrite Hcall in Hcall0. injection Hcall0 as <- <-.
  destruct (Hrcm eq_refl) as (rcm & Hc & Hw).
  exists rcm. split; [exact Hc |].
  exact (proj2 (proj2 (write_wrench_spec _ _ _ _ Hw))).
Qed.

End Properties.

End IDTheory.

(** * [HumanID] on the stand-ins *)

Module IDExamples.

Import ID MockID IDTheory.

(** ** Initialization *)

(** The configuration without [modelPath] is rejected. *)
Lemma initialize_without_modelPath_witness :
  (forall b st',
     initialize model configuration_without_modelPath = Some (b, st') -> b = false) /\
  ((forall g, getGroup configuration_without_modelPath "EXTERNAL_WRENCHES" = Some g ->
              complete_vectors g) ->
   exists st', initialize model configuration_without_modelPath = Some (false, st')).
Proof.
  apply (initialize_fails_without_modelPath sensorTypeNames zero identity Wrench_zero
           fresh configuration_without_modelPath (Some model)).
  intros g Hg. vm_compute in Hg. injection Hg as <-. vm_compute. reflexivity.
Defined.

(** ** A failed [solve] *)

(** The object is initialized, takes the measurement of the foot and is
    solved: [getEstimatedExtWrenches] returns the wrench of the foot.  Then a
    joint position of the model becomes NaN and the foot reads half the
    weight.  In the next [solve] the estimate of the external wrenches
    succeeds, the update of the kinematics of the joint-torque helper fails,
    [solve] returns false, and [getEstimatedExtWrenches] returns the new
    wrench of the foot, not the one it returned before. *)
Lemma failed_solve_overwrites_the_wrenches :
  fst <$> initialize model configuration = Some true /\
  fst <$> updateExtWrenchesMeasurements Mock.zero3 started observations = Some true /\
  fst <$> solve measured = Some true /\
  fst <$> updateExtWrenchesMeasurements Mock.zero3 (set_kinDyn solved (Some model_nan))
                                        {[ "LeftFoot" := halfWrench ]} = Some true /\
  getEstimatedExtWrenches disturbed = [footWrench; Wrench_zero] /\
  fst <$> solve_at disturbed = Some KinematicsUpdateFailed /\
  fst <$> solve disturbed = Some false /\
  (fun r => getEstimatedExtWrenches r.2) <$> solve disturbed
    = Some [halfWrench; Wrench_zero] /\
  halfWrench <> footWrench.
Proof. vm_compute. repeat split. discriminate. Qed.

Lemma failed_solve_witness :
  let st' := default fresh (snd <$> solve disturbed) in
  exists r,
    solve_at disturbed = Some (r, st') /\
    returned r = false /\
    m_kinDyn st' = m_kinDyn disturbed /\
    kinDyn (m_extWrenchesEstimator st') = kinDyn (m_extWrenchesEstimator disturbed) /\
    m_wrenchSources st' = m_wrenchSources disturbed /\
    is_Some (berdySolver (helper (m_extWrenchesEstimator st'))) /\
    (is_Some (berdySolver (m_jointTorquesHelper disturbed)) ->
     is_Some (berdySolver (m_jointTorquesHelper st'))) /\
    length (getEstimatedExtWrenches st') = length (getEstimatedExtWrenches disturbed) /\
    (r <> JointTorquesExtractionFailed ->
     getJointTorques st' = getJointTorques disturbed) /\
    (r = ExtWrenchesEstimateFailed ->
     getEstimatedExtWrenches st' = getEstimatedExtWrenches disturbed) /\
    (r <> ExtWrenchesEstimateFailed ->
     exists ek,
       ext_kinDyn disturbed = Some ek /\
       forall i src,
         m_wrenchSources disturbed !! i = Some src ->
         exists w,
           LinkWrenches_at (heldLinkWrenches st' ek)
                           (getLinkIndex (getRobotModel ek) (outputFrame src)) = Some w /\
           getEstimatedExtWrenches st' !! i = Some w).
Proof.
  apply (failed_solve_outputs disturbed).
  vm_compute. reflexivity.
Defined.

(** Once the caller has repaired the model, which the object shares with
    it, the next [solve] succeeds. *)
Lemma solve_succeeds_after_a_failure :
  let failed := default fresh (snd <$> solve disturbed) in
  fst <$> solve (set_kinDyn failed (Some model)) = Some true.
Proof. vm_compute. reflexivity. Qed.

(** ** Measurements *)



(** C3: a dummy source does not contribute its known wrench.  The dummy
    source of the right hand is configured with the wrench
    [(1, 2, 3, 4, 5, 6)], which [initialize] stores, and the call that
    measures the foot returns true.  After it the source still holds that
    wrench, and the six slots of its frame in the measurement vector hold
    zero: neither that wrench nor its image by the transform of the source.
    The loop gives a dummy source the current orientation of its frame and
    writes nothing of it into the measurement vector. *)
Theorem dummy_wrench_is_not_measured :
  let result := updateExtWrenchesMeasurements Mock.zero3 started observations in
  let known := mkWrench (d 1, d 2, d 3) (d 4, d 5, d 6) in
  fst <$> result = Some true /\
  (fun r => (fun src => (type src, wrench src)) <$> m_wrenchSources r.2 !! 1%nat) <$> result
    = Some (Some (Dummy, known)) /\
  frameOffset started estimator_model "RightHand" = 12 /\
  (fun r => slots (measurement (helper (m_extWrenchesEstimator r.2))) 12) <$> result
    = Some (Some <$> Wrench_to_list Wrench_zero) /\
  Wrench_to_list Wrench_zero <> Wrench_to_list known /\
  Wrench_to_list Wrench_zero <> Wrench_to_list (Transform_mul identity known).
Proof. vm_compute. repeat split; discriminate. Qed.

(** C4: the model of the caller has the gravity [(0, 0, -10)] and the mass
    is 70, so that the weight of the body in the base frame, as the
    specification words the consistency measurement, is the force
    [(0, 0, 700)].  The slots of the consistency measurement hold something
    else, which follows the content of the local [world_gravity] that
    [computeRCMInBaseFrame] never assigns: zero when that content is zero, the
    force [(-70, 0, 0)] when it is [(1, 0, 0)]. *)
Theorem rcm_measurement_follows_the_unassigned_local :
  let rcmSlots g :=
    (fun r => slots (measurement (helper (m_extWrenchesEstimator r.2))) (rcmOffset started))
      <$> updateExtWrenchesMeasurements g started observations in
  world_gravity (getRobotState model) = (zero, zero, opp (d 10)) /\
  m_humanMass started = d 70 /\
  bodyWeightInBaseFrame identity started
    = Some (mkWrench (zero, zero, d 700) Mock.zero3) /\
  rcmSlots Mock.zero3 = Some (Some <$> Wrench_to_list Wrench_zero) /\
  rcmSlots (Mock.one, zero, zero)
    = Some (Some <$> Wrench_to_list (mkWrench (opp (d 70), zero, zero) Mock.zero3)) /\
  Wrench_to_list Wrench_zero <> Wrench_to_list (mkWrench (zero, zero, d 700) Mock.zero3).
Proof. vm_compute. repeat split. discriminate. Qed.

End IDExamples.

(** * Further properties of [HumanIK] *)

Module IKBehaviour.

Import IK.

Section Properties.

Context {manifT : ManifTypes} {kinDynT : KinDynTypes} {blfT : BLFTypes}
        {manifO : Manif} {kinDynO : KinDyn} {blfO : BLF}.

(** ** The configuration of a successful [initialize] *)

(** The flag [ok] that the branch of an orientation task leaves is the
    result of a chain that starts from the flag it found. *)
Lemma initializeSO3Task_ok (ok : bool) (st : HumanIK) (task : string)
    (h : Handler) (k : KinDynComputations) (n : Z) (st' : HumanIK) :
  initializeSO3Task ok st task h k n = Some (true, st') -> ok = true.
Proof.
  unfold initializeSO3Task.
  destruct (match getParameter_vector_double h "rotation_matrix" with
            | Some v => _ | None => _ end) as [R |]; [| discriminate].
  simpl. destruct ok; [reflexivity |]. simpl. discriminate.
Qed.

Lemma initializeGravityTask_node (st : HumanIK) (name : string) (h : Handler)
    (st' : HumanIK) :
  initializeGravityTask st name h = (true, st') ->
  is_Some (getParameter_int h "node_number").
Proof.
  unfold initializeGravityTask.
  destruct (getParameter_int h "node_number") as [n |]; [eauto | discriminate].
Qed.

Lemma initializeTasks_declared (ptr : Handler) (k : KinDynComputations)
    (tasks : list string) :
  forall ok st ok' st',
    initializeTasks ptr k tasks ok st = Some (true, ok', st') ->
    Forall (declared ptr) tasks /\ (ok' = true -> ok = true).
Proof.
  induction tasks as [| task rest IH]; intros ok st ok' st'; simpl.
  - intros [= <- _]. split; [constructor | exact (fun x => x)].
  - destruct (getGroup ptr task) as [h |] eqn:Hg; [| discriminate].
    destruct (getParameter_string h "type") as [ty |] eqn:Hty; [| discriminate].
    destruct (String.eqb ty "SO3Task") eqn:Hso3.
    + apply String.eqb_eq in Hso3.
      destruct (getParameter_int h "node_number") as [n |] eqn:Hn; [| discriminate].
      destruct (initializeSO3Task ok st task h k n) as [[ok1 st1] |] eqn:E;
        [| discriminate].
      simpl. destruct ok1; simpl; [| discriminate].
      intros Hrest. destruct (IH _ _ _ _ Hrest) as [Hall _].
      split.
      * constructor; [| exact Hall]. exists h, ty, n. auto.
      * intros _. exact (initializeSO3Task_ok _ _ _ _ _ _ _ E).
    + destruct (String.eqb ty "GravityTask") eqn:Hgr; [| discriminate].
      apply String.eqb_eq in Hgr.
      destruct (initializeGravityTask st task h) as [okg st1] eqn:E.
      destruct okg; simpl; [| discriminate].
      intros Hrest. destruct (IH _ _ _ _ Hrest) as [Hall Hok].
      destruct (initializeGravityTask_node _ _ _ _ E) as [n Hn].
      split; [| exact Hok].
      constructor; [| exact Hall]. exists h, ty, n. auto.
Qed.

(** X1: [initialize] returns true only with a valid model and a
    configuration that has the list [tasks] and the group [IK] the solver
    accepts, and in which every task of the list has a group of its own, of
    type [SO3Task] or [GravityTask], with the number of its node. *)
Theorem initialize_succeeds_only_on_declared_tasks (st : HumanIK)
    (handler : option Handler) (kinDyn : option KinDynComputations)
    (st' : HumanIK) :
  initialize st handler kinDyn = Some (true, st') ->
  exists k ptr tasks group,
    kinDyn = Some k /\ isValid k = true /\
    handler = Some ptr /\
    getParameter_vector_string ptr "tasks" = Some tasks /\
    getGroup ptr "IK" = Some group /\
    (qpIK_initialize (m_qpIK st) (Some group)).1 = true /\
    Forall (declared ptr) tasks.
Proof.
  unfold initialize.
  destruct kinDyn as [k |]; [| discriminate].
  destruct (isValid k) eqn:Hvalid; simpl; [| discriminate].
  destruct (setState _ _) as [ok0 dyn].
  destruct (setDynamicalSystem _) as [ok0' integ].
  destruct handler as [ptr |]; [| discriminate].
  destruct (getParameter_vector_string ptr "tasks") as [tasks |] eqn:Htasks;
    [| discriminate].
  destruct (getGroup ptr "IK") as [group |] eqn:Hgroup.
  2:{ destruct (qpIK_initialize _ _). discriminate. }
  simpl. destruct (qpIK_initialize _ _) as [ok qp] eqn:Hqp. simpl.
  destruct (addVariable _ _ _) as [okv vh].
  destruct (initializeTasks _ _ _ _ _) as [[[finished ok'] st5] |] eqn:E;
    [| discriminate].
  simpl. destruct finished; simpl; [| discriminate].
  destruct (qpIK_finalize _ _) as [okf qp'].
  intros [= -> _].
  destruct (initializeTasks_declared _ _ _ _ _ _ _ E) as [Hall Hok].
  exists k, ptr, tasks, group. repeat (split; [reflexivity || assumption |]).
  split; [| exact Hall]. rewrite (Hok eq_refl) in Hqp. simpl in Hqp.
  rewrite Hqp. reflexivity.
Qed.

(** ** The nodes of a configuration *)

Lemma initializeGravityTask_keeps (st : HumanIK) (name : string) (h : Handler) :
  m_OrientationTasks (initializeGravityTask st name h).2 = m_OrientationTasks st /\
  m_nrDoFs (initializeGravityTask st name h).2 = m_nrDoFs st.
Proof.
  unfold initializeGravityTask.
  destruct (getParameter_int h "node_number") as [n |]; [| auto].
  destruct (MultiStateWeightProvider_initialize _ _) as [okw wp].
  destruct okw; simpl; [| auto].
  destruct (GravityTask_setKinDyn _ _) as [ok1 t1].
  destruct (if ok1 then _ else _) as [ok2 t2].
  destruct (if ok2 then _ else _) as [ok3 qp]. auto.
Qed.

Lemma initializeSO3Task_inserts (ok : bool) (st : HumanIK) (task : string)
    (h : Handler) (k : KinDynComputations) (n : Z) (ok' : bool) (st' : HumanIK) :
  initializeSO3Task ok st task h k n = Some (ok', st') ->
  (exists entry, m_OrientationTasks st' = <[n := entry]> (m_OrientationTasks st)) /\
  m_nrDoFs st' = m_nrDoFs st.
Proof.
  unfold initializeSO3Task.
  destruct (match getParameter_vector_double h "rotation_matrix" with
            | Some v => _ | None => _ end) as [R |]; [| discriminate].
  simpl.
  destruct (if ok then _ else _) as [ok1 t1].
  destruct (if ok1 then _ else _) as [ok2 t2].
  destruct (if ok2 then _ else _) as [ok3 qp].
  intros [= _ <-]. simpl. eauto.
Qed.

(** The loop over the tasks removes no node, whether it runs to its end or
    not, and leaves the number of degrees of freedom. *)
Lemma initializeTasks_keeps (ptr : Handler) (k : KinDynComputations)
    (tasks : list string) :
  forall ok st finished ok' st',
    initializeTasks ptr k tasks ok st = Some (finished, ok', st') ->
    m_nrDoFs st' = m_nrDoFs st /\
    forall n, is_Some (m_OrientationTasks st !! n) ->
              is_Some (m_OrientationTasks st' !! n).
Proof.
  induction tasks as [| task rest IH]; intros ok st finished ok' st'; simpl.
  - intros [= _ _ <-]. auto.
  - destruct (getGroup ptr task) as [h |]; [| intros [= _ _ <-]; auto].
    destruct (getParameter_string h "type") as [ty |]; [| intros [= _ _ <-]; auto].
    destruct (String.eqb ty "SO3Task").
    + destruct (getParameter_int h "node_number") as [n |];
        [| intros [= _ _ <-]; auto].
      destruct (initializeSO3Task ok st task h k n) as [[ok1 st1] |] eqn:E;
        [| discriminate].
      destruct (initializeSO3Task_inserts _ _ _ _ _ _ _ _ E) as [[entry Hm] Hd].
      assert (forall m, is_Some (m_OrientationTasks st !! m) ->
                        is_Some (m_OrientationTasks st1 !! m)) as Hmono.
      { intros m Hsome. rewrite Hm.
        destruct (decide (n = m)) as [-> | Hne].
        - rewrite lookup_insert_eq. eauto.
        - rewrite lookup_insert_ne by exact Hne. exact Hsome. }
      simpl. destruct ok1; simpl.
      * intros Hrest. destruct (IH _ _ _ _ _ Hrest) as [Hd' Hmono'].
        split; [congruence | auto].
      * intros [= _ _ <-]. auto.
    + destruct (String.eqb ty "GravityTask"); [| intros [= _ _ <-]; auto].
      pose proof (initializeGravityTask_keeps st task h) as [Hm Hd].
      destruct (initializeGravityTask st task h) as [okg st1]. simpl in Hm, Hd.
      destruct okg; simpl.
      * intros Hrest. destruct (IH _ _ _ _ _ Hrest) as [Hd' Hmono'].
        split; [congruence |]. intros n Hsome. apply Hmono'. rewrite Hm. exact Hsome.
      * intros [= _ _ <-]. rewrite Hm. auto.
Qed.

(** When the loop runs to its end every orientation task of the list has
    the entry of its node. *)
Lemma initializeTasks_configures (ptr : Handler) (k : KinDynComputations)
    (tasks : list string) :
  forall ok st ok' st' task node,
    initializeTasks ptr k tasks ok st = Some (true, ok', st') ->
    task ∈ tasks -> orientation_node ptr task node ->
    is_Some (m_OrientationTasks st' !! node).
Proof.
  induction tasks as [| t rest IH]; intros ok st ok' st' task node; simpl.
  - intros _ Hin. inversion Hin.
  - intros Hrun Hin Hnode.
    destruct (getGroup ptr t) as [h |] eqn:Hg; [| discriminate].
    destruct (getParameter_string h "type") as [ty |] eqn:Hty; [| discriminate].
    apply elem_of_cons in Hin as [-> | Hin].
    + destruct Hnode as (h' & Hg' & Hty' & Hn).
      rewrite Hg in Hg'. injection Hg' as <-.
      rewrite Hty in Hty'. injection Hty' as ->. simpl in Hrun.
      rewrite Hn in Hrun.
      destruct (initializeSO3Task ok st t h k node) as [[ok1 st1] |] eqn:E;
        [| discriminate].
      destruct (initializeSO3Task_inserts _ _ _ _ _ _ _ _ E) as [[entry Hm] _].
      simpl in Hrun. destruct ok1; simpl in Hrun; [| discriminate].
      apply (initializeTasks_keeps _ _ _ _ _ _ _ _ Hrun).
      rewrite Hm, lookup_insert_eq. eauto.
    + destruct (String.eqb ty "SO3Task").
      * destruct (getParameter_int h "node_number") as [n |]; [| discriminate].
        destruct (initializeSO3Task ok st t h k n) as [[ok1 st1] |]; [| discriminate].
        simpl in Hrun. destruct ok1; simpl in Hrun; [| discriminate].
        exact (IH _ _ _ _ _ _ Hrun Hin Hnode).
      * destruct (String.eqb ty "GravityTask"); [| discriminate].
        destruct (initializeGravityTask st t h) as [okg st1].
        destruct okg; simpl in Hrun; [| discriminate].
        exact (IH _ _ _ _ _ _ Hrun Hin Hnode).
Qed.

(** What [advance] leaves, whatever it returns; and when it returns false
    it leaves the cached configuration and the model as well. *)
Lemma advance_keeps (st : HumanIK) (b : bool) (st' : HumanIK) :
  advance st = Some (b, st') ->
  (m_OrientationTasks st' = m_OrientationTasks st /\
   m_GravityTasks st' = m_GravityTasks st /\
   m_dtIntegration st' = m_dtIntegration st /\
   m_nrDoFs st' = m_nrDoFs st) /\
  (b = false ->
   m_jointPositions st' = m_jointPositions st /\
   m_basePose st' = m_basePose st /\
   m_kinDyn st' = m_kinDyn st).
Proof.
  unfold advance.
  destruct (qpIK_advance _ _ _ _) as [ok1 qp].
  destruct (negb (ok1 && qpIK_isOutputValid qp)).
  { intros [= <- <-]. simpl. auto 10. }
  simpl. destruct (m_system st) as [sys |]; [| discriminate]. simpl.
  destruct (setControlInput _ _) as [ok2 dyn].
  destruct (if ok2 then _ else _) as [[ok3 integ] dyn'].
  destruct ok3; simpl.
  - destruct (getSolution dyn') as [[p R] q]. simpl.
    destruct (m_kinDyn st); [| discriminate]. simpl.
    destruct (setRobotState _ _). intros [= <- <-]. simpl.
    split; [auto |]. discriminate.
  - intros [= <- <-]. simpl. auto 10.
Qed.

(** A call leaves the number of degrees of freedom and the entry of every
    node it is not addressed to, and it neither adds nor removes a node. *)
Lemma call_keeps_nodes (st : HumanIK) (c : Call) (b : bool) (st' : HumanIK) :
  call st c = Some (b, st') ->
  m_nrDoFs st' = m_nrDoFs st /\
  (forall n, addresses n c = false ->
             m_OrientationTasks st' !! n = m_OrientationTasks st !! n) /\
  (forall n, is_Some (m_OrientationTasks st !! n) ->
             is_Some (m_OrientationTasks st' !! n)).
Proof.
  destruct c as [dt | node R w | node R |]; simpl.
  - unfold setDt.
    destruct (Chrono.duration_cast_nanoseconds dt); [| discriminate]. simpl.
    destruct (m_system st); [| discriminate]. simpl.
    destruct (setIntegrationStep _ _). intros [= _ <-]. simpl. auto.
  - unfold setNodeSetPoint.
    destruct (m_OrientationTasks st !! node) as [ot |] eqn:Hn.
    + destruct (SO3Task_setSetPoint _ _ _) as [ok t].
      intros [= _ <-]. simpl. split; [reflexivity |]. split.
      * intros n Hne. apply Z.eqb_neq in Hne.
        apply lookup_insert_ne. exact Hne.
      * intros n Hsome. destruct (decide (node = n)) as [-> | Hne].
        -- rewrite lookup_insert_eq. eauto.
        -- rewrite lookup_insert_ne by exact Hne. exact Hsome.
    + intros [= _ <-]. auto.
  - unfold TPoseCalibrationNode.
    destruct (m_OrientationTasks st !! node) as [ot |] eqn:Hn.
    + intros [= _ <-]. simpl. split; [reflexivity |]. split.
      * intros n Hne. apply Z.eqb_neq in Hne.
        apply lookup_insert_ne. exact Hne.
      * intros n Hsome. destruct (decide (node = n)) as [-> | Hne].
        -- rewrite lookup_insert_eq. eauto.
        -- rewrite lookup_insert_ne by exact Hne. exact Hsome.
    + intros [= _ <-]. auto.
  - intros Hadv. destruct (advance_keeps _ _ _ Hadv) as [(Hm & _ & _ & Hd) _].
    rewrite Hm. auto.
Qed.

Lemma calls_keep_nodes (cs : list Call) :
  forall st st',
    calls st cs = Some st' ->
    m_nrDoFs st' = m_nrDoFs st /\
    (forall n, Forall (fun c => addresses n c = false) cs ->
               m_OrientationTasks st' !! n = m_OrientationTasks st !! n) /\
    (forall n, is_Some (m_OrientationTasks st !! n) ->
               is_Some (m_OrientationTasks st' !! n)).
Proof.
  induction cs as [| c cs IH]; intros st st'; simpl.
  - intros [= <-]. auto.
  - destruct (call st c) as [[b st1] |] eqn:Hc; [| discriminate]. simpl.
    intros Hrest.
    destruct (call_keeps_nodes _ _ _ _ Hc) as (Hd & Hother & Hsome).
    destruct (IH _ _ Hrest) as (Hd' & Hother' & Hsome').
    split; [congruence |]. split.
    + intros n Hall. inversion Hall as [| ? ? Hc0 Hcs]; subst.
      rewrite (Hother' n Hcs). apply Hother. exact Hc0.
    + auto.
Qed.

(** X2: after a successful [initialize], and after any calls, every node
    that the configuration gives an orientation task has its entry:
    [TPoseCalibrationNode] returns true for it, and [setNodeSetPoint] returns
    what its task answers to the set point. *)
Theorem configured_nodes_stay_addressable (st0 : HumanIK) (ptr : Handler)
    (k : KinDynComputations) (st : HumanIK) (tasks : list string)
    (task : string) (node : Z) (cs : list Call) (st' : HumanIK) :
  initialize st0 (Some ptr) (Some k) = Some (true, st) ->
  getParameter_vector_string ptr "tasks" = Some tasks ->
  task ∈ tasks ->
  orientation_node ptr task node ->
  calls st cs = Some st' ->
  exists ot,
    m_OrientationTasks st' !! node = Some ot /\
    (forall R, (TPoseCalibrationNode st' node R).1 = true) /\
    (forall R w,
       (setNodeSetPoint st' node R w).1 =
       (SO3Task_setSetPoint (ot_task ot)
          (SO3d_mul (SO3d_mul (calibrationMatrix ot) R) (IMU_R_link ot)) w).1).
Proof.
  intros Hinit Htasks Hin Hnode Hcalls.
  assert (is_Some (m_OrientationTasks st !! node)) as Hst.
  { revert Hinit. unfold initialize.
    destruct (isValid k); simpl; [| discriminate].
    destruct (setState _ _) as [ok0 dyn].
    destruct (setDynamicalSystem _) as [ok0' integ].
    rewrite Htasks.
    destruct (qpIK_initialize _ _) as [ok qp].
    destruct (getGroup ptr "IK") as [group |]; [| discriminate]. simpl.
    destruct (addVariable _ _ _) as [okv vh].
    destruct (initializeTasks _ _ _ _ _) as [[[finished ok'] st5] |] eqn:E;
      [| discriminate].
    simpl. destruct finished; simpl; [| discriminate].
    destruct (qpIK_finalize _ _) as [okf qp'].
    intros [= _ <-]. simpl.
    exact (initializeTasks_configures _ _ _ _ _ _ _ _ _ E Hin Hnode). }
  destruct (calls_keep_nodes _ _ _ Hcalls) as (_ & _ & Hsome).
  destruct (Hsome node Hst) as [ot Hot].
  exists ot. split; [exact Hot |]. split.
  - intros R. unfold TPoseCalibrationNode. rewrite Hot. reflexivity.
  - intros R w. unfold setNodeSetPoint. rewrite Hot.
    destruct (SO3Task_setSetPoint _ _ _). reflexivity.
Qed.

(** X3: calls that are not addressed to a node, whatever they return,
    leave the whole entry of the node: its task with the set point it was
    given, its calibration and the rotation from its sensor to its link. *)
Theorem calls_to_other_nodes_leave_a_node (st : HumanIK) (node : Z)
    (cs : list Call) (st' : HumanIK) :
  Forall (fun c => addresses node c = false) cs ->
  calls st cs = Some st' ->
  m_OrientationTasks st' !! node = m_OrientationTasks st !! node.
Proof.
  intros Hcs Hcalls.
  destruct (calls_keep_nodes _ _ _ Hcalls) as (_ & Hother & _).
  exact (Hother node Hcs).
Qed.

(** X4: a call of [advance] that returns false, because the solver failed
    or because the integration did, has moved neither the cached joint
    positions nor the cached base pose, has not set the state of the model,
    and has left the tasks and the time step. *)
Theorem failed_advance_keeps_the_configuration (st st' : HumanIK) :
  advance st = Some (false, st') ->
  m_jointPositions st' = m_jointPositions st /\
  m_basePose st' = m_basePose st /\
  m_kinDyn st' = m_kinDyn st /\
  m_OrientationTasks st' = m_OrientationTasks st /\
  m_GravityTasks st' = m_GravityTasks st /\
  m_dtIntegration st' = m_dtIntegration st.
Proof.
  intros Hadv.
  destruct (advance_keeps _ _ _ Hadv) as [(Hm & Hg & Hdt & _) Hfail].
  destruct (Hfail eq_refl) as (Hq & Hp & Hk). auto 10.
Qed.

(** ** Calibration *)

(** X6: calibrations do not accumulate: calibrating a node again gives the
    state, and the answer, of the last calibration alone. *)
Theorem recalibration_replaces_the_calibration (st : HumanIK) (node : Z)
    (I_R_IMU1 I_R_IMU2 : SO3d) :
  TPoseCalibrationNode (TPoseCalibrationNode st node I_R_IMU1).2 node I_R_IMU2 =
  TPoseCalibrationNode st node I_R_IMU2.
Proof.
  unfold TPoseCalibrationNode.
  destruct (m_OrientationTasks st !! node) as [ot |] eqn:Hot; simpl.
  - rewrite lookup_insert_eq. simpl. unfold set_OrientationTasks. simpl.
    rewrite insert_insert_eq. reflexivity.
  - rewrite Hot. reflexivity.
Qed.

(** ** The bindings of the joint accessors *)

Lemma initialize_nrDoFs (st0 : HumanIK) (handler : option Handler)
    (k : KinDynComputations) (st : HumanIK) :
  initialize st0 handler (Some k) = Some (true, st) ->
  m_nrDoFs st = int_of_size_t (getNrOfDegreesOfFreedom k).
Proof.
  unfold initialize.
  destruct (isValid k); simpl; [| discriminate].
  destruct (setState _ _) as [ok0 dyn].
  destruct (setDynamicalSystem _) as [ok0' integ].
  destruct handler as [ptr |]; [| discriminate].
  destruct (getParameter_vector_string ptr "tasks") as [tasks |]; [| discriminate].
  destruct (qpIK_initialize _ _) as [ok qp].
  destruct (getGroup ptr "IK") as [group |]; [| discriminate]. simpl.
  destruct (addVariable _ _ _) as [okv vh].
  destruct (initializeTasks _ _ _ _ _) as [[[finished ok'] st5] |] eqn:E;
    [| discriminate].
  simpl. destruct finished; simpl; [| discriminate].
  destruct (qpIK_finalize _ _) as [okf qp'].
  intros [= _ <-]. simpl.
  destruct (initializeTasks_keeps _ _ _ _ _ _ _ _ E) as [Hd _]. exact Hd.
Qed.

Lemma Eigen_VectorXd_length (uninitialized : nat -> double) (n : nat) :
  exists v, Eigen_VectorXd uninitialized (Z.of_nat n) = Some v /\ length v = n.
Proof.
  unfold Eigen_VectorXd.
  destruct (Z.ltb_spec (Z.of_nat n) 0) as [Hneg | _]; [lia |].
  eexists. split; [reflexivity |].
  rewrite length_fmap, length_seq. apply Nat2Z.id.
Qed.

(** X7: when the libraries keep their sizes, on an object initialized on a
    model whose number of degrees of freedom fits an [int], and after any
    calls, the Python bindings of [getJointPositions] and
    [getJointVelocities] always return true with the cached vector: the
    buffer they allocate, of [getDoFsNumber] entries, has the size the
    accessors check. *)
Theorem bindings_joint_accessors_succeed {sizes : Sizes} (st0 : HumanIK)
    (handler : option Handler) (k : KinDynComputations) (st : HumanIK)
    (cs : list Call) (st' : HumanIK) (uninitialized : nat -> double) :
  initialize st0 handler (Some k) = Some (true, st) ->
  calls st cs = Some st' ->
  Z.of_nat (getNrOfDegreesOfFreedom k) < 2 ^ 31 ->
  getDoFsNumber st' = Z.of_nat (getNrOfDegreesOfFreedom k) /\
  bindings_getJointPositions uninitialized st' = Some (true, m_jointPositions st') /\
  bindings_getJointVelocities uninitialized st' = Some (true, m_jointVelocities st').
Proof.
  intros Hinit Hcalls Hfit.
  pose proof (IKTheory.calls_sized _ cs st st'
                (IKTheory.initialize_sized _ _ _ _ Hinit) Hcalls)
    as (Hq & Hqd & _ & _).
  destruct (calls_keep_nodes _ _ _ Hcalls) as (Hd & _ & _).
  assert (getDoFsNumber st' = Z.of_nat (getNrOfDegreesOfFreedom k)) as HD.
  { unfold getDoFsNumber. rewrite Hd, (initialize_nrDoFs _ _ _ _ Hinit).
    unfold int_of_size_t. rewrite Z.mod_small by lia.
    destruct (Z.ltb_spec (Z.of_nat (getNrOfDegreesOfFreedom k)) (2 ^ 31)); lia. }
  split; [exact HD |].
  unfold bindings_getJointPositions, bindings_getJointVelocities. rewrite HD.
  destruct (Eigen_VectorXd_length uninitialized (getNrOfDegreesOfFreedom k))
    as (v & -> & Hv).
  simpl. unfold getJointPositions, getJointVelocities.
  rewrite Hq, Hqd, Hv, Nat.eqb_refl. auto.
Qed.

(** ** Initializing an object again *)

Lemma initializeTasks_keeps_calibration (ptr : Handler) (k : KinDynComputations)
    (tasks : list string) (node : Z) :
  forall ok st finished ok' st' ot,
    initializeTasks ptr k tasks ok st = Some (finished, ok', st') ->
    m_OrientationTasks st !! node = Some ot ->
    exists ot',
      m_OrientationTasks st' !! node = Some ot' /\
      calibrationMatrix ot' = calibrationMatrix ot.
Proof.
  induction tasks as [| task rest IH]; intros ok st finished ok' st' ot; simpl.
  - intros [= _ _ <-] Hot. eauto.
  - destruct (getGroup ptr task) as [h |]; [| intros [= _ _ <-]; eauto].
    destruct (getParameter_string h "type") as [ty |]; [| intros [= _ _ <-]; eauto].
    destruct (String.eqb ty "SO3Task").
    + destruct (getParameter_int h "node_number") as [n |];
        [| intros [= _ _ <-]; eauto].
      unfold initializeSO3Task.
      destruct (match getParameter_vector_double h "rotation_matrix" with
                | Some v => _ | None => _ end) as [R |]; [| discriminate].
      simpl.
      destruct (if ok then _ else _) as [ok1 t1].
      destruct (if ok1 then _ else _) as [ok2 t2].
      destruct (if ok2 then _ else _) as [ok3 qp].
      simpl. intros Hrun Hot.
      assert (exists ot1,
                <[n := mkOrientationTask t2 n R
                         (calibrationMatrix (OrientationTasks_at st n))]>
                  (m_OrientationTasks st) !! node = Some ot1 /\
                calibrationMatrix ot1 = calibrationMatrix ot) as (ot1 & Hot1 & Hc1).
      { destruct (decide (n = node)) as [-> | Hne].
        - rewrite lookup_insert_eq. eexists. split; [reflexivity |].
          unfold OrientationTasks_at. rewrite Hot. reflexivity.
        - rewrite lookup_insert_ne by exact Hne. eauto. }
      destruct ok3; simpl in Hrun.
      * destruct (IH _ _ _ _ _ ot1 Hrun Hot1) as (ot' & Hot' & Hc').
        exists ot'. split; [exact Hot' | congruence].
      * injection Hrun as _ _ <-. simpl. eauto.
    + destruct (String.eqb ty "GravityTask"); [| intros [= _ _ <-]; eauto].
      pose proof (initializeGravityTask_keeps st task h) as [Hm _].
      destruct (initializeGravityTask st task h) as [okg st1]. simpl in Hm.
      destruct okg; simpl.
      * intros Hrun Hot. apply (IH _ _ _ _ _ ot Hrun). rewrite Hm. exact Hot.
      * intros [= _ _ <-] Hot. rewrite Hm. eauto.
Qed.

(** X18: [initialize] does not reset a calibration: whatever it returns,
    a node that has an entry when it is called still has one afterwards, with
    the calibration it had, also when a task of the configuration is on that
    node. *)
Theorem initialize_keeps_the_calibration (st : HumanIK) (handler : option Handler)
    (kinDyn : option KinDynComputations) (b : bool) (st' : HumanIK) (node : Z)
    (ot : OrientationTask) :
  initialize st handler kinDyn = Some (b, st') ->
  m_OrientationTasks st !! node = Some ot ->
  exists ot',
    m_OrientationTasks st' !! node = Some ot' /\
    calibrationMatrix ot' = calibrationMatrix ot.
Proof.
  unfold initialize. intros Hinit Hot. revert Hinit.
  destruct kinDyn as [k |]; [| intros [= _ <-]; eauto].
  destruct (isValid k); simpl; [| intros [= _ <-]; eauto].
  destruct (setState _ _) as [ok0 dyn].
  destruct (setDynamicalSystem _) as [ok0' integ].
  destruct handler as [ptr |]; [| intros [= _ <-]; eauto].
  destruct (getParameter_vector_string ptr "tasks") as [tasks |];
    [| intros [= _ <-]; eauto].
  destruct (qpIK_initialize _ _) as [ok qp].
  destruct (getGroup ptr "IK") as [group |]; [| discriminate]. simpl.
  destruct (addVariable _ _ _) as [okv vh].
  destruct (initializeTasks _ _ _ _ _) as [[[finished ok'] st5] |] eqn:E;
    [| discriminate].
  simpl.
  destruct (initializeTasks_keeps_calibration _ _ _ node _ _ _ _ _ ot E Hot)
    as (ot' & Hot' & Hc').
  destruct finished; simpl.
  - destruct (qpIK_finalize _ _) as [okf qp']. intros [= _ <-]. simpl. eauto.
  - intros [= _ <-]. eauto.
Qed.

End Properties.

End IKBehaviour.

(** ** On the stand-ins *)

Module IKBehaviourExamples.

Import IK MockIK IKBehaviour.

(** The configuration of the stand-in, with its one orientation task, is
    accepted, and it has what a successful [initialize] needs. *)
Lemma initialize_declared_witness :
  exists k ptr tasks group,
    Some model = Some k /\ isValid k = true /\
    Some configuration = Some ptr /\
    getParameter_vector_string ptr "tasks" = Some tasks /\
    getGroup ptr "IK" = Some group /\
    (qpIK_initialize (m_qpIK fresh) (Some group)).1 = true /\
    Forall (declared ptr) tasks.
Proof.
  apply (initialize_succeeds_only_on_declared_tasks
           fresh (Some configuration) (Some model) started).
  vm_compute. reflexivity.
Defined.

(** Node 3, which the configuration gives an orientation task, is still
    addressable after a change of time step and a cycle. *)
Lemma configured_nodes_witness :
  let cs := [CallSetDt (div Mock.one (of_Z 100)); CallAdvance] in
  let st' := default fresh (calls started cs) in
  exists ot,
    m_OrientationTasks st' !! 3 = Some ot /\
    (forall R, (TPoseCalibrationNode st' 3 R).1 = true) /\
    (forall R w,
       (setNodeSetPoint st' 3 R w).1 =
       (SO3Task_setSetPoint (ot_task ot)
          (SO3d_mul (SO3d_mul (calibrationMatrix ot) R) (IMU_R_link ot)) w).1).
Proof.
  apply (configured_nodes_stay_addressable
           fresh configuration model started ["PELVIS_TASK"] "PELVIS_TASK" 3
           [CallSetDt (div Mock.one (of_Z 100)); CallAdvance]).
  - vm_compute. reflexivity.
  - vm_compute. reflexivity.
  - apply list_elem_of_here.
  - exists (default configuration (getGroup configuration "PELVIS_TASK")).
    repeat split; vm_compute; reflexivity.
  - vm_compute. reflexivity.
Defined.

(** A change of time step, a calibration and a set point for node 4 and a
    cycle leave the entry of node 3. *)
Lemma other_nodes_witness :
  let cs := [CallSetDt (div Mock.one (of_Z 100));
             CallTPoseCalibrationNode 4 quarter_turn;
             CallSetNodeSetPoint 4 quarter_turn no_rate;
             CallAdvance] in
  let st' := default fresh (calls started cs) in
  m_OrientationTasks st' !! 3 = m_OrientationTasks started !! 3.
Proof.
  apply (calls_to_other_nodes_leave_a_node started 3
           [CallSetDt (div Mock.one (of_Z 100));
            CallTPoseCalibrationNode 4 quarter_turn;
            CallSetNodeSetPoint 4 quarter_turn no_rate;
            CallAdvance]).
  - repeat constructor.
  - vm_compute. reflexivity.
Defined.

(** Before [setDt] the integration step is zero and the integrator of the
    stand-in refuses it: [advance] solves, fails to integrate and returns
    false. *)
Lemma failed_advance_witness :
  let st' := default fresh (snd <$> advance started) in
  m_jointPositions st' = m_jointPositions started /\
  m_basePose st' = m_basePose started /\
  m_kinDyn st' = m_kinDyn started /\
  m_OrientationTasks st' = m_OrientationTasks started /\
  m_GravityTasks st' = m_GravityTasks started /\
  m_dtIntegration st' = m_dtIntegration started.
Proof.
  apply (failed_advance_keeps_the_configuration started).
  vm_compute. reflexivity.
Defined.

(** The model of the stand-in has two degrees of freedom. *)
Lemma bindings_witness :
  let cs := [CallSetDt (div Mock.one (of_Z 100)); CallAdvance] in
  let st' := default fresh (calls started cs) in
  getDoFsNumber st' = 2 /\
  bindings_getJointPositions (fun _ => zero) st' = Some (true, m_jointPositions st') /\
  bindings_getJointVelocities (fun _ => zero) st' = Some (true, m_jointVelocities st').
Proof.
  apply (bindings_joint_accessors_succeed (sizes := IKExamples.mock_sizes)
           fresh (Some configuration) model started
           [CallSetDt (div Mock.one (of_Z 100)); CallAdvance]).
  - vm_compute. reflexivity.
  - vm_compute. reflexivity.
  - vm_compute. reflexivity.
Defined.

(** Node 3 is calibrated on a quarter turn, and the object is initialized
    again on the same configuration, which has a task on node 3. *)
Lemma initialize_keeps_calibration_witness :
  let calibrated := (TPoseCalibrationNode started 3 quarter_turn).2 in
  let again :=
    default fresh (snd <$> initialize calibrated (Some configuration) (Some model)) in
  exists ot',
    m_OrientationTasks again !! 3 = Some ot' /\
    calibrationMatrix ot' = calibrationMatrix (OrientationTasks_at calibrated 3).
Proof.
  apply (initialize_keeps_the_calibration
           (TPoseCalibrationNode started 3 quarter_turn).2
           (Some configuration) (Some model) true).
  - vm_compute. reflexivity.
  - vm_compute. reflexivity.
Defined.

End IKBehaviourExamples.

(** * Further properties of [HumanID] *)

Module IDBehaviour.

Import ID.

Section Properties.

Context {idyntreeT : IDynTreeTypes} {idyntreeO : IDynTree}.

Variable mapBerdySensorType : list (BerdySensorTypes * string).
Variable fresh_double : double.
Variable fresh_Transform : Transform.
Variable fresh_Wrench : Wrench.

(** ** The configuration of a successful [initialize] *)

Lemma readSpecificElements_true (g : Handler) (elements : list string) :
  forall m,
    (readSpecificElements g elements m).1 = true ->
    Forall (fun element => is_Some (getParameter_vector_double g element)) elements.
Proof.
  induction elements as [| element rest IH]; intros m; simpl.
  - constructor.
  - destruct (getParameter_vector_double g element) as [v |] eqn:Hv;
      [| discriminate].
    intros Hrest. constructor; [eauto | exact (IH _ Hrest)].
Qed.

(** The sources that are read are appended, in the order of their names, to
    the sources the object holds. *)
Lemma readWrenchSources_appends (g : Handler) (names : list string) :
  forall sources sources',
    readWrenchSources fresh_Transform fresh_Wrench g names sources
      = Some (true, sources') ->
    exists new,
      sources' = sources ++ new /\
      Forall2 (fun name src =>
                 readWrenchSource fresh_Transform fresh_Wrench g name = Some (Some src))
              names new.
Proof.
  induction names as [| name rest IH]; intros sources sources'; simpl.
  - intros [= <-]. exists []. split; [symmetry; apply app_nil_r | constructor].
  - destruct (readWrenchSource fresh_Transform fresh_Wrench g name)
      as [[data |] |] eqn:Hread; simpl; [| discriminate | discriminate].
    intros Hrest. destruct (IH _ _ Hrest) as (new & -> & Hall).
    exists (data :: new). split.
    + rewrite <- app_assoc. reflexivity.
    + constructor; assumption.
Qed.

Lemma initializeExtWrenchesEstimation_true (st : HumanID) (g : Handler)
    (ek : KinDynComputations) (st' : HumanID) :
  initializeExtWrenchesEstimation st g ek = Some (true, st') ->
  (is_Some (getParameter_double g "mu_dyn_variables") /\
   is_Some (getParameter_double g "cov_dyn_variables") /\
   (exists specificElements,
      getParameter_vector_string g "specificElements" = Some specificElements /\
      Forall (fun element => is_Some (getParameter_vector_double g element))
             specificElements) /\
   is_Some (getParameter_vector_double g "cov_measurements_RCM_SENSOR") /\
   is_Some (getParameter_double g "default_cov_measurements")) /\
  is_Some (berdySolver (helper (m_extWrenchesEstimator st'))) /\
  kinDyn (m_extWrenchesEstimator st') = kinDyn (m_extWrenchesEstimator st) /\
  useFullModel (m_extWrenchesEstimator st') = useFullModel (m_extWrenchesEstimator st) /\
  m_kinDyn st' = m_kinDyn st /\
  m_humanMass st' = m_humanMass st /\
  m_jointTorquesHelper st' = m_jointTorquesHelper st /\
  m_wrenchSources st' = m_wrenchSources st /\
  m_estimatedExtWrenches st' = m_estimatedExtWrenches st.
Proof.
  unfold initializeExtWrenchesEstimation.
  destruct (getParameter_double g "mu_dyn_variables") as [mu |] eqn:Hmu;
    [| discriminate].
  destruct (getParameter_double g "cov_dyn_variables") as [cov |] eqn:Hcov;
    [| discriminate].
  destruct (getParameter_vector_string g "specificElements") as [els |] eqn:Hels;
    [| discriminate].
  destruct (readSpecificElements _ _ _) as [oke m] eqn:Hread.
  destruct oke; simpl; [| discriminate].
  destruct (getParameter_vector_double g "cov_measurements_RCM_SENSOR")
    as [rcm |] eqn:Hrcm; [| discriminate].
  destruct (getParameter_double g "default_cov_measurements") as [dflt |] eqn:Hd;
    [| discriminate].
  destruct (checkConsistency _); simpl; [| discriminate].
  destruct (berdy_init _ _ _) as [okb bh].
  destruct okb; simpl; [| discriminate].
  destruct (solver_initialize _ _) as [oks sv].
  destruct oks; simpl; [| discriminate].
  destruct (measurementsCovarianceTriplets _ _ _) as [ts |]; [| discriminate].
  simpl. intros [= _ <-]. simpl.
  split; [| auto 10].
  repeat (split; [eauto |]). 2: eauto.
  exists els. split; [reflexivity |].
  apply (readSpecificElements_true g els (specificMeasurementsCovariance (m_mapEstParams st))).
  simpl in Hread. rewrite Hread. reflexivity.
Qed.

Lemma initializeExtWrenchesHelper_true (st : HumanID) (g : Handler) (st' : HumanID) :
  initializeExtWrenchesHelper fresh_Transform fresh_Wrench st g = Some (true, st') ->
  (exists names,
     getParameter_vector_string g "wrenchSources" = Some names /\
     readWrenchSources fresh_Transform fresh_Wrench g names (m_wrenchSources st)
       = Some (true, m_wrenchSources st')) /\
  estimation_configured g /\
  is_Some (berdySolver (helper (m_extWrenchesEstimator st'))) /\
  (exists ek, kinDyn (m_extWrenchesEstimator st') = Own ek) /\
  useFullModel (m_extWrenchesEstimator st') = true /\
  m_kinDyn st' = m_kinDyn st /\
  m_humanMass st' = m_humanMass st /\
  m_jointTorquesHelper st' = m_jointTorquesHelper st /\
  length (m_estimatedExtWrenches st') = length (m_wrenchSources st').
Proof.
  unfold initializeExtWrenchesHelper.
  destruct (getParameter_vector_string g "wrenchSources") as [names |] eqn:Hnames;
    [| discriminate].
  destruct (readWrenchSources _ _ _ _ _) as [[oks sources] |] eqn:Hread;
    [| discriminate].
  simpl. destruct oks; simpl; [| discriminate].
  destruct (getParameter_string g "modelPath") as [path |] eqn:Hpath;
    [| discriminate].
  destruct (loadModelFromFile path) as [model |] eqn:Hload; [| discriminate].
  destruct (loadRobotModel _ _) as [okl ek].
  destruct okl; simpl; [| discriminate].
  destruct (m_kinDyn st) as [k |] eqn:Hk; [| discriminate]. simpl.
  destruct (setFloatingBase _ _) as [okf ek'].
  intros Hest.
  destruct (initializeExtWrenchesEstimation_true _ _ _ _ Hest)
    as ((Hmu & Hcov & Hels & Hrcm & Hd) & Hsv & Hptr & Hfull & Hkin & Hmass & Hjt
        & Hsrc & Hw).
  simpl in Hptr, Hfull, Hkin, Hmass, Hjt, Hsrc, Hw.
  split; [exists names; split; [reflexivity | rewrite Hsrc; exact Hread] |].
  split.
  { unfold estimation_configured. split; [| auto 10].
    exists path. rewrite Hload. eauto. }
  split; [exact Hsv |]. split; [eauto |]. split; [exact Hfull |].
  split; [congruence |]. split; [exact Hmass |]. split; [exact Hjt |].
  rewrite Hw, Hsrc. apply length_resize.
Qed.

Lemma initializeJointTorquesHelper_true (st : HumanID) (g : Handler) (st' : HumanID) :
  initializeJointTorquesHelper mapBerdySensorType fresh_double st g = Some (true, st') ->
  is_Some (getGroup g "SENSOR_REMOVAL") /\
  is_Some (berdySolver (m_jointTorquesHelper st')) /\
  m_kinDyn st' = m_kinDyn st /\
  m_humanMass st' = m_humanMass st /\
  m_extWrenchesEstimator st' = m_extWrenchesEstimator st /\
  m_wrenchSources st' = m_wrenchSources st /\
  m_estimatedExtWrenches st' = m_estimatedExtWrenches st.
Proof.
  unfold initializeJointTorquesHelper.
  destruct (m_kinDyn st) as [k |] eqn:Hk; [| discriminate]. simpl.
  destruct (getGroup g "SENSOR_REMOVAL") as [r |]; [| discriminate].
  destruct (negb _); [discriminate |].
  destruct (berdy_init _ _ _) as [ok bh].
  destruct ok; simpl; [| discriminate].
  destruct (solver_initialize _ _) as [ok' sv].
  intros [= _ <-]. simpl. repeat split; eauto.
Qed.

(** What a successful [initialize] has found and what it leaves. *)
Lemma initialize_true (st : HumanID) (handler : option Handler)
    (k0 : option KinDynComputations) (st' : HumanID) :
  initialize mapBerdySensorType fresh_double fresh_Transform fresh_Wrench
             st handler k0 = Some (true, st') ->
  exists ptr k,
    handler = Some ptr /\ k0 = Some k /\ isValid k = true /\
    configured ptr /\
    operational st' /\
    m_kinDyn st' = Some k /\
    Some (m_humanMass st') = getParameter_double ptr "humanMass" /\
    exists g names,
      getGroup ptr "EXTERNAL_WRENCHES" = Some g /\
      getParameter_vector_string g "wrenchSources" = Some names /\
      readWrenchSources fresh_Transform fresh_Wrench g names (m_wrenchSources st)
        = Some (true, m_wrenchSources st').
Proof.
  unfold initialize.
  destruct handler as [ptr |]; [| discriminate]. simpl.
  destruct (getParameter_double ptr "humanMass") as [mass |] eqn:Hmass;
    [| discriminate].
  destruct k0 as [k |]; [| discriminate].
  destruct (isValid k) eqn:Hvalid; simpl; [| discriminate].
  destruct (getGroup ptr "JOINT_TORQUES") as [jth |] eqn:Hjth; [| discriminate].
  destruct (initializeJointTorquesHelper _ _ _ _) as [[okj st3] |] eqn:Hjt;
    [| discriminate].
  simpl. destruct okj; simpl; [| discriminate].
  destruct (getGroup ptr "EXTERNAL_WRENCHES") as [ewh |] eqn:Hewh; [| discriminate].
  destruct (initializeExtWrenchesHelper _ _ _ _) as [[oke st4] |] eqn:Hew;
    [| discriminate].
  simpl. destruct oke; simpl; [| discriminate].
  intros [= <-].
  destruct (initializeJointTorquesHelper_true _ _ _ Hjt)
    as (Hrem & Hjsv & Hk3 & Hm3 & He3 & Hs3 & Hw3).
  destruct (initializeExtWrenchesHelper_true _ _ _ Hew)
    as ((names & Hnames & Hread) & Hconf & Hsv & Hown & Hfull & Hk4 & Hm4 & Hj4 & Hlen).
  simpl in Hk3, Hm3, Hs3.
  exists ptr, k. repeat (split; [reflexivity |]). split; [exact Hvalid |].
  split.
  { split; [rewrite Hmass; eauto |]. split; [exists jth; eauto |].
    exists ewh. rewrite Hnames. eauto. }
  split.
  { unfold operational. simpl. rewrite Hk4, Hk3, Hj4.
    repeat (split; [solve [eauto] |]). exact Hlen. }
  split; [simpl; congruence |].
  split; [simpl; congruence |].
  exists ewh, names. split; [exact Hewh |]. split; [exact Hnames |].
  simpl. rewrite <- Hs3. exact Hread.
Qed.

(** X8: [initialize] returns true only with a valid model and a
    configuration that has the mass, the group [JOINT_TORQUES] with its group
    [SENSOR_REMOVAL], and the group [EXTERNAL_WRENCHES] with the list of the
    sources, a model of the estimator that loads, the two parameters of the
    prior of the dynamics, the list [specificElements] with a covariance for
    each of its elements, the covariance of the consistency measurement and
    the default covariance; it keeps the model and the mass it was given. *)
Theorem initialize_succeeds_only_when_configured (st : HumanID)
    (handler : option Handler) (k0 : option KinDynComputations) (st' : HumanID) :
  initialize mapBerdySensorType fresh_double fresh_Transform fresh_Wrench
             st handler k0 = Some (true, st') ->
  exists ptr k,
    handler = Some ptr /\ k0 = Some k /\ isValid k = true /\
    configured ptr /\
    m_kinDyn st' = Some k /\
    Some (m_humanMass st') = getParameter_double ptr "humanMass".
Proof.
  intros Hinit.
  destruct (initialize_true _ _ _ _ Hinit)
    as (ptr & k & Hh & Hk & Hvalid & Hconf & _ & Hkin & Hmass & _).
  exists ptr, k. auto 10.
Qed.

(** X9: a successful [initialize] keeps the sources the object already
    holds and appends the sources of the list [wrenchSources], one for each
    name and in the order of the names, each as [readWrenchSource] makes it
    of its group: initializing an object again does not replace its
    sources. *)
Theorem initialize_appends_the_sources (st : HumanID) (ptr : Handler)
    (k0 : option KinDynComputations) (st' : HumanID) :
  initialize mapBerdySensorType fresh_double fresh_Transform fresh_Wrench
             st (Some ptr) k0 = Some (true, st') ->
  exists g names new,
    getGroup ptr "EXTERNAL_WRENCHES" = Some g /\
    getParameter_vector_string g "wrenchSources" = Some names /\
    m_wrenchSources st' = m_wrenchSources st ++ new /\
    Forall2 (fun name src =>
               readWrenchSource fresh_Transform fresh_Wrench g name = Some (Some src))
            names new /\
    length (getEstimatedExtWrenches st') = (length (m_wrenchSources st) + length names)%nat.
Proof.
  intros Hinit.
  destruct (initialize_true _ _ _ _ Hinit)
    as (ptr' & k & [= <-] & _ & _ & _ & Hop & _ & _ & g & names & Hg & Hnames & Hread).
  destruct (readWrenchSources_appends _ _ _ _ Hread) as (new & Hnew & Hall).
  exists g, names, new. repeat (split; [assumption |]).
  destruct Hop as (_ & _ & _ & _ & _ & Hlen).
  unfold getEstimatedExtWrenches. rewrite Hlen, Hnew, length_app.
  rewrite (Forall2_length _ _ _ Hall). reflexivity.
Qed.

(** ** What [solve] changes *)

Lemma solve_at_keeps (st : HumanID) (r : SolveReturn) (st' : HumanID) :
  solve_at st = Some (r, st') ->
  (m_kinDyn st' = m_kinDyn st /\
   kinDyn (m_extWrenchesEstimator st') = kinDyn (m_extWrenchesEstimator st) /\
   useFullModel (m_extWrenchesEstimator st') = useFullModel (m_extWrenchesEstimator st) /\
   jointPositions (m_extWrenchesEstimator st') = jointPositions (m_extWrenchesEstimator st) /\
   jointVelocities (m_extWrenchesEstimator st') = jointVelocities (m_extWrenchesEstimator st) /\
   m_wrenchSources st' = m_wrenchSources st /\
   m_humanMass st' = m_humanMass st /\
   m_mapEstParams st' = m_mapEstParams st /\
   measurement (helper (m_extWrenchesEstimator st')) =
     measurement (helper (m_extWrenchesEstimator st)) /\
   measurement (m_jointTorquesHelper st') = measurement (m_jointTorquesHelper st)) /\
  is_Some (berdySolver (helper (m_extWrenchesEstimator st'))) /\
  (is_Some (berdySolver (m_jointTorquesHelper st)) ->
   is_Some (berdySolver (m_jointTorquesHelper st'))) /\
  length (m_estimatedExtWrenches st') = length (m_estimatedExtWrenches st).
Proof.
  unfold solve_at.
  destruct (m_kinDyn st) as [k |] eqn:Hk; [| discriminate]. simpl.
  destruct (ext_kinDyn st) as [ek |] eqn:Hek; [| discriminate]. simpl.
  destruct (berdySolver (helper (m_extWrenchesEstimator st))) as [sv |] eqn:Hsv;
    [| discriminate].
  simpl.
  destruct (updateEstimateInformationFloatingBase sv _ _ _ _ _ _) as [sv1 bh1].
  destruct (doEstimate sv1 bh1) as [ok1 sv2].
  destruct ok1; simpl.
  2:{ intros [= <- <-]. simpl. rewrite Hk. repeat split; eauto. }
  destruct (extractLinkNetExternalWrenchesFromDynamicVariables bh1 _ _)
    as [okx link].
  destruct (copyLinkWrenches _ link _ _ _) as [est |] eqn:Hcopy; [| discriminate].
  simpl.
  destruct (IDTheory.copyLinkWrenches_spec _ _ _ _ _ _ Hcopy) as (Hlen & _ & _).
  destruct (updateKinematicsFromFloatingBase _ _ _ _ _) as [ok2 jh1].
  destruct ok2; simpl.
  2:{ intros [= <- <-]. simpl. rewrite Hk. repeat split; eauto. }
  destruct (berdySolver (m_jointTorquesHelper st)) as [jsv |] eqn:Hjsv;
    [| discriminate].
  simpl.
  destruct (updateEstimateInformationFloatingBase jsv _ _ _ _ _ _) as [jsv1 jh2].
  destruct (doEstimate jsv1 jh2) as [ok3 jsv2].
  destruct ok3; simpl.
  2:{ intros [= <- <-]. simpl. rewrite Hk. repeat split; eauto. }
  destruct (extractJointTorquesFromDynamicVariables _ _ _ _) as [ok4 torques].
  destruct ok4; simpl; intros [= <- <-]; simpl; rewrite Hk; repeat split; eauto.
Qed.

(** X10: whatever it returns, [solve] changes neither the measurement
    vectors, nor the sources, nor the models and their joint state held for
    the estimator, nor the mass and the parameters of the estimation: it
    writes the kinematic state, the helpers, the solvers and the estimates
    only. *)
Theorem solve_keeps_the_measurements (st : HumanID) (b : bool) (st' : HumanID) :
  solve st = Some (b, st') ->
  measurement (helper (m_extWrenchesEstimator st')) =
    measurement (helper (m_extWrenchesEstimator st)) /\
  measurement (m_jointTorquesHelper st') = measurement (m_jointTorquesHelper st) /\
  m_wrenchSources st' = m_wrenchSources st /\
  m_kinDyn st' = m_kinDyn st /\
  ext_kinDyn st' = ext_kinDyn st /\
  jointPositions (m_extWrenchesEstimator st') = jointPositions (m_extWrenchesEstimator st) /\
  jointVelocities (m_extWrenchesEstimator st') = jointVelocities (m_extWrenchesEstimator st) /\
  m_humanMass st' = m_humanMass st /\
  m_mapEstParams st' = m_mapEstParams st.
Proof.
  unfold solve.
  destruct (solve_at st) as [[r st1] |] eqn:Hat; [| discriminate].
  simpl. intros [= _ <-].
  destruct (solve_at_keeps _ _ _ Hat)
    as ((Hk & Hp & Hf & Hq & Hqd & Hs & Hm & Hpar & Hme & Hmj) & _).
  unfold ext_kinDyn. rewrite Hp, Hk. auto 10.
Qed.

(** X11: when [solve] returns true the outputs are those of this call: the
    estimated wrench of every source is the wrench that the new estimate of
    the external wrenches gives the link of its frame, the joint torques are
    those extracted from the new estimate of the dynamic variables at the
    joint positions of the model, and the number of estimated wrenches is
    unchanged. *)
Theorem successful_solve_outputs (st st' : HumanID) :
  solve st = Some (true, st') ->
  exists k ek sv jsv,
    m_kinDyn st = Some k /\
    ext_kinDyn st = Some ek /\
    berdySolver (helper (m_extWrenchesEstimator st')) = Some sv /\
    estimatedDynamicVariables (helper (m_extWrenchesEstimator st')) = getLastEstimate sv /\
    berdySolver (m_jointTorquesHelper st') = Some jsv /\
    estimatedDynamicVariables (m_jointTorquesHelper st') = getLastEstimate jsv /\
    length (getEstimatedExtWrenches st') = length (getEstimatedExtWrenches st) /\
    (forall i src,
       m_wrenchSources st !! i = Some src ->
       exists w,
         LinkWrenches_at (heldLinkWrenches st' ek)
                         (getLinkIndex (getRobotModel ek) (outputFrame src)) = Some w /\
         getEstimatedExtWrenches st' !! i = Some w) /\
    extractJointTorquesFromDynamicVariables
      (berdyHelper (m_jointTorquesHelper st')) (getLastEstimate jsv)
      (getJointPos k) (getJointTorques st) = (true, getJointTorques st').
Proof.
  unfold solve.
  destruct (solve_at st) as [[r st1] |] eqn:Hat; [| discriminate].
  simpl. intros [= Hr <-].
  revert Hat. unfold solve_at.
  destruct (m_kinDyn st) as [k |] eqn:Hk; [| discriminate]. simpl.
  destruct (ext_kinDyn st) as [ek |] eqn:Hek; [| discriminate]. simpl.
  destruct (berdySolver (helper (m_extWrenchesEstimator st))) as [sv |] eqn:Hsv;
    [| discriminate].
  simpl.
  destruct (updateEstimateInformationFloatingBase sv _ _ _ _ _ _) as [sv1 bh1].
  destruct (doEstimate sv1 bh1) as [ok1 sv2].
  destruct ok1; simpl.
  2:{ intros [= <- <-]. discriminate Hr. }
  destruct (extractLinkNetExternalWrenchesFromDynamicVariables bh1 _ _)
    as [okx link] eqn:Hlink.
  destruct (copyLinkWrenches _ link _ _ _) as [est |] eqn:Hcopy; [| discriminate].
  simpl.
  destruct (IDTheory.copyLinkWrenches_spec _ _ _ _ _ _ Hcopy) as (Hlen & _ & Hest).
  destruct (updateKinematicsFromFloatingBase _ _ _ _ _) as [ok2 jh1].
  destruct ok2; simpl.
  2:{ intros [= <- <-]. discriminate Hr. }
  destruct (berdySolver (m_jointTorquesHelper st)) as [jsv |] eqn:Hjsv;
    [| discriminate].
  simpl.
  destruct (updateEstimateInformationFloatingBase jsv _ _ _ _ _ _) as [jsv1 jh2].
  destruct (doEstimate jsv1 jh2) as [ok3 jsv2].
  destruct ok3; simpl.
  2:{ intros [= <- <-]. discriminate Hr. }
  destruct (extractJointTorquesFromDynamicVariables _ _ _ _) as [ok4 torques] eqn:Hx.
  destruct ok4; simpl.
  2:{ intros [= <- <-]. discriminate Hr. }
  intros [= _ <-].
  exists k, ek, sv2, jsv2. simpl.
  repeat (split; [first [reflexivity | exact Hlen] |]).
  split.
  - intros i src Hi. unfold heldLinkWrenches, getEstimatedExtWrenches. simpl.
    rewrite Hlink. simpl.
    destruct (Hest i src Hi) as (w & Hw & Hlook). exists w. auto.
  - exact Hx.
Qed.

(** ** What [updateExtWrenchesMeasurements] changes *)

(** The loop over the sources keeps, whether it runs to its end or not, the
    configured part of every source and the length of the measurement
    vector. *)
Lemma updateWrenchSources_keeps (wrenches : gmap string Wrench)
    (ek : option KinDynComputations) (bh : BerdyHelper)
    (sources : list WrenchSourceData) :
  forall meas ok sources' meas',
    updateWrenchSources wrenches ek bh sources meas = Some (ok, sources', meas') ->
    configured_part <$> sources' = configured_part <$> sources /\
    length meas' = length meas.
Proof.
  induction sources as [| src rest IH]; intros meas ok sources' meas'; simpl.
  - intros [= _ <- <-]. auto.
  - destruct (type src) eqn:Hty.
    + destruct (wrenches !! outputFrame src) as [raw |].
      2:{ intros [= _ <- <-]. auto. }
      destruct ek as [k |]; [| discriminate]. simpl.
      destruct (write_wrench meas _ _) as [meas1 |] eqn:Hw; [| discriminate].
      simpl.
      destruct (updateWrenchSources wrenches (Some k) bh rest meas1)
        as [[[ok1 rest'] meas2] |] eqn:Hrest; [| discriminate].
      simpl. intros [= _ <- <-].
      destruct (IH _ _ _ _ Hrest) as [Hc Hl].
      destruct (IDTheory.write_wrench_spec _ _ _ _ Hw) as (Hl1 & _ & _).
      split; [| congruence].
      rewrite !fmap_cons, Hc. f_equal.
      unfold configured_part. simpl. rewrite Hty. reflexivity.
    + destruct ek as [k |]; [| discriminate]. simpl.
      destruct (updateWrenchSources wrenches (Some k) bh rest meas)
        as [[[ok1 rest'] meas2] |] eqn:Hrest; [| discriminate].
      simpl. intros [= _ <- <-].
      destruct (IH _ _ _ _ Hrest) as [Hc Hl].
      split; [| exact Hl].
      rewrite !fmap_cons, Hc. f_equal.
      unfold configured_part. simpl. rewrite Hty. reflexivity.
Qed.

Lemma synchronizeFullModel_frame (st st1 : HumanID) :
  synchronizeFullModel st = Some st1 ->
  m_estimatedExtWrenches st1 = m_estimatedExtWrenches st /\
  m_jointTorquesHelper st1 = m_jointTorquesHelper st /\
  useFullModel (m_extWrenchesEstimator st1) = useFullModel (m_extWrenchesEstimator st) /\
  (forall ek, kinDyn (m_extWrenchesEstimator st) = Own ek ->
              m_kinDyn st1 = m_kinDyn st /\
              exists ek', kinDyn (m_extWrenchesEstimator st1) = Own ek').
Proof.
  unfold synchronizeFullModel.
  destruct (useFullModel (m_extWrenchesEstimator st)) eqn:Hfull.
  2:{ intros [= <-]. rewrite Hfull. eauto 10. }
  destruct (m_kinDyn st) as [k |] eqn:Hk; [| discriminate]. simpl.
  destruct (ext_kinDyn st) as [ek |] eqn:Hek; [| discriminate]. simpl.
  destruct (copyJointState _ _ _ _ _ _ _) as [[q qd] |]; [| discriminate]. simpl.
  destruct (setRobotState _ _) as [okr ek'].
  intros [= <-]. unfold set_ext_kinDyn. simpl.
  destruct (kinDyn (m_extWrenchesEstimator st)) as [| | own] eqn:Hptr; simpl;
    rewrite ?Hptr; repeat split; try discriminate; eauto.
Qed.

Lemma updateExtWrenchesMeasurements_keeps (world_gravity : Vector3)
    (st : HumanID) (wrenches : gmap string Wrench) (ok : bool) (st' : HumanID) :
  updateExtWrenchesMeasurements fresh_Transform world_gravity st wrenches
    = Some (ok, st') ->
  configured_part <$> m_wrenchSources st' = configured_part <$> m_wrenchSources st /\
  m_humanMass st' = m_humanMass st /\
  m_estimatedExtWrenches st' = m_estimatedExtWrenches st /\
  m_jointTorquesHelper st' = m_jointTorquesHelper st /\
  length (measurement (helper (m_extWrenchesEstimator st'))) =
    length (measurement (helper (m_extWrenchesEstimator st))) /\
  berdySolver (helper (m_extWrenchesEstimator st')) =
    berdySolver (helper (m_extWrenchesEstimator st)) /\
  useFullModel (m_extWrenchesEstimator st') = useFullModel (m_extWrenchesEstimator st) /\
  (forall ek, kinDyn (m_extWrenchesEstimator st) = Own ek ->
              m_kinDyn st' = m_kinDyn st /\
              exists ek', kinDyn (m_extWrenchesEstimator st') = Own ek').
Proof.
  unfold updateExtWrenchesMeasurements.
  destruct (synchronizeFullModel st) as [st1 |] eqn:Hsync; [| discriminate].
  simpl.
  destruct (IDTheory.synchronizeFullModel_keeps _ _ Hsync) as (Hs & Hh & Hm).
  destruct (synchronizeFullModel_frame _ _ Hsync) as (He & Hj & Hf & Hown).
  destruct (updateWrenchSources _ _ _ _ _) as [[[ok1 sources] meas] |] eqn:Hloop;
    [| discriminate].
  simpl.
  destruct (updateWrenchSources_keeps _ _ _ _ _ _ _ _ Hloop) as [Hc Hl].
  unfold VectorDynSize_zero in Hl. rewrite repeat_length in Hl.
  destruct ok1; simpl.
  - destruct (computeRCMInBaseFrame _ _ _) as [rcm |]; [| discriminate]. simpl.
    destruct (write_wrench meas _ rcm) as [meas' |] eqn:Hw; [| discriminate].
    simpl. intros [= _ <-]. simpl.
    destruct (IDTheory.write_wrench_spec _ _ _ _ Hw) as (Hl' & _ & _).
    rewrite Hc, Hs, Hm, He, Hj, Hf, Hh.
    repeat split; try reflexivity; try congruence; apply (Hown _ H).
  - intros [= _ <-]. simpl.
    rewrite Hc, Hs, Hm, He, Hj, Hf, Hh.
    repeat split; try reflexivity; try congruence; apply (Hown _ H).
Qed.

(** ** What every call keeps *)

Lemma call_keeps (st : HumanID) (c : Call) (b : bool) (st' : HumanID) :
  call fresh_Transform st c = Some (b, st') ->
  (configured_part <$> m_wrenchSources st' = configured_part <$> m_wrenchSources st /\
   m_humanMass st' = m_humanMass st /\
   length (measurement (helper (m_extWrenchesEstimator st'))) =
     length (measurement (helper (m_extWrenchesEstimator st)))) /\
  (operational st -> operational st' /\ m_kinDyn st' = m_kinDyn st).
Proof.
  destruct c as [g wrenches |]; simpl.
  - intros Hup.
    destruct (updateExtWrenchesMeasurements_keeps _ _ _ _ _ Hup)
      as (Hc & Hm & He & Hj & Hl & Hsv & Hf & Hown).
    split; [auto |].
    intros (Hk & (ek & Hptr) & Hfull & Hs & Hjs & Hlen).
    destruct (Hown _ Hptr) as [Hk' Hptr'].
    split; [| exact Hk'].
    unfold operational. rewrite Hk', Hf, Hsv, Hj, He.
    repeat (split; [assumption |]).
    rewrite Hlen.
    rewrite <- (length_fmap configured_part (m_wrenchSources st)), <- Hc.
    apply length_fmap.
  - unfold solve.
    destruct (solve_at st) as [[r st1] |] eqn:Hat; [| discriminate].
    simpl. intros [= _ <-].
    destruct (solve_at_keeps _ _ _ Hat)
      as ((Hk & Hp & Hf & _ & _ & Hs & Hm & _ & Hme & _) & Hsv & Hjsv & Hlen).
    split; [rewrite Hs, Hme; auto |].
    intros (Hk0 & Hptr & Hfull & _ & Hjs & Hlen0).
    split; [| exact Hk].
    unfold operational. rewrite Hk, Hp, Hf, Hlen, Hs. auto 10.
Qed.

Lemma calls_keep (cs : list Call) :
  forall st st',
    calls fresh_Transform st cs = Some st' ->
    (configured_part <$> m_wrenchSources st' = configured_part <$> m_wrenchSources st /\
     m_humanMass st' = m_humanMass st /\
     length (measurement (helper (m_extWrenchesEstimator st'))) =
       length (measurement (helper (m_extWrenchesEstimator st)))) /\
    (operational st -> operational st' /\ m_kinDyn st' = m_kinDyn st).
Proof.
  induction cs as [| c cs IH]; intros st st'; simpl.
  - intros [= <-]. auto.
  - destruct (call fresh_Transform st c) as [[b st1] |] eqn:Hc; [| discriminate].
    simpl. intros Hrest.
    destruct (call_keeps _ _ _ _ Hc) as [(Hc1 & Hm1 & Hl1) Hop1].
    destruct (IH _ _ Hrest) as [(Hc2 & Hm2 & Hl2) Hop2].
    split; [repeat split; congruence |].
    intros Hop. destruct (Hop1 Hop) as [Hop' Hk'].
    destruct (Hop2 Hop') as [Hop'' Hk'']. split; [exact Hop'' | congruence].
Qed.

(** X12: on an object that [initialize] has accepted, and after any calls,
    whatever they returned, [getEstimatedExtWrenches] has one wrench for each
    source; the model of the estimator is a model of its own, which the
    object does not share with its caller; the model of the object is still
    the one it was initialized on; and the two solvers exist. *)
Theorem initialized_object_stays_operational (st0 : HumanID)
    (handler : option Handler) (k0 : option KinDynComputations) (st : HumanID)
    (cs : list Call) (st' : HumanID) :
  initialize mapBerdySensorType fresh_double fresh_Transform fresh_Wrench
             st0 handler k0 = Some (true, st) ->
  calls fresh_Transform st cs = Some st' ->
  length (getEstimatedExtWrenches st') = length (m_wrenchSources st') /\
  (exists ek, kinDyn (m_extWrenchesEstimator st') = Own ek) /\
  useFullModel (m_extWrenchesEstimator st') = true /\
  m_kinDyn st' = k0 /\
  is_Some (berdySolver (helper (m_extWrenchesEstimator st'))) /\
  is_Some (berdySolver (m_jointTorquesHelper st')).
Proof.
  intros Hinit Hcalls.
  destruct (initialize_true _ _ _ _ Hinit)
    as (ptr & k & _ & -> & _ & _ & Hop & Hk & _).
  destruct (calls_keep _ _ _ Hcalls) as [_ Hkeep].
  destruct (Hkeep Hop) as [(_ & Hptr & Hfull & Hsv & Hjsv & Hlen) Hk'].
  unfold getEstimatedExtWrenches. rewrite Hk', Hk. auto 10.
Qed.

(** X13: no call changes what the configuration gave the sources: after
    any calls, whatever they returned, the sources are as many, with the same
    frames and types in the same order, every fixed source has its transform
    and every dummy source its wrench and the position of its transform; the
    mass and the length of the measurement vector are unchanged too. *)
Theorem calls_keep_the_configured_sources (st : HumanID) (cs : list Call)
    (st' : HumanID) :
  calls fresh_Transform st cs = Some st' ->
  configured_part <$> m_wrenchSources st' = configured_part <$> m_wrenchSources st /\
  length (m_wrenchSources st') = length (m_wrenchSources st) /\
  m_humanMass st' = m_humanMass st /\
  length (measurement (helper (m_extWrenchesEstimator st'))) =
    length (measurement (helper (m_extWrenchesEstimator st))).
Proof.
  intros Hcalls.
  destruct (calls_keep _ _ _ Hcalls) as [(Hc & Hm & Hl) _].
  split; [exact Hc |]. split; [| auto].
  rewrite <- (length_fmap configured_part (m_wrenchSources st')), Hc.
  apply length_fmap.
Qed.

(** ** When [solve] is defined *)

Lemma copyLinkWrenches_defined (model : Model) (link : list Wrench)
    (sources : list WrenchSourceData) :
  forall (i : nat) (est : list Wrench),
    (i + length sources <= length est)%nat ->
    (forall src, src ∈ sources ->
                 is_Some (LinkWrenches_at link (getLinkIndex model (outputFrame src)))) ->
    is_Some (copyLinkWrenches model link sources i est).
Proof.
  induction sources as [| src rest IH]; intros i est Hlen Hlinks; simpl.
  - eauto.
  - simpl in Hlen.
    destruct (Nat.ltb_spec i (length est)) as [_ | Hge]; [| lia].
    destruct (Hlinks src) as [w Hw]; [apply list_elem_of_here |].
    rewrite Hw. simpl. apply IH.
    + rewrite length_insert. lia.
    + intros src' Hin. apply Hlinks. apply list_elem_of_further. exact Hin.
Qed.

(** X14: on an object that [initialize] has accepted, and after any calls,
    [solve] has a defined result, with no null pointer and no index out of
    range, as soon as the list of link wrenches that the helper extracts has
    an entry at the link index of the frame of every source. *)
Theorem solve_is_defined_on_links (st0 : HumanID) (handler : option Handler)
    (k0 : option KinDynComputations) (st : HumanID) (cs : list Call)
    (st' : HumanID) :
  initialize mapBerdySensorType fresh_double fresh_Transform fresh_Wrench
             st0 handler k0 = Some (true, st) ->
  calls fresh_Transform st cs = Some st' ->
  (forall ek bh v src,
     ext_kinDyn st' = Some ek -> src ∈ m_wrenchSources st' ->
     is_Some (LinkWrenches_at
                (extractLinkNetExternalWrenchesFromDynamicVariables bh v
                   (make_LinkNetExternalWrenches (getRobotModel ek))).2
                (getLinkIndex (getRobotModel ek) (outputFrame src)))) ->
  is_Some (solve st').
Proof.
  intros Hinit Hcalls Hlinks.
  destruct (initialize_true _ _ _ _ Hinit)
    as (ptr & k & _ & _ & _ & _ & Hop & _).
  destruct (calls_keep _ _ _ Hcalls) as [_ Hkeep].
  destruct (Hkeep Hop)
    as [((k' & Hk) & (ek & Hptr) & _ & (sv & Hsv) & (jsv & Hjsv) & Hlen) _].
  assert (ext_kinDyn st' = Some ek) as Hek by (unfold ext_kinDyn; rewrite Hptr; reflexivity).
  unfold solve, solve_at. rewrite Hk. simpl. rewrite Hek. simpl. rewrite Hsv. simpl.
  destruct (updateEstimateInformationFloatingBase sv _ _ _ _ _ _) as [sv1 bh1].
  destruct (doEstimate sv1 bh1) as [ok1 sv2].
  destruct ok1; simpl; [| eauto].
  pose proof (fun src => Hlinks ek bh1 (getLastEstimate sv2) src Hek) as Hl.
  destruct (extractLinkNetExternalWrenchesFromDynamicVariables bh1 _ _)
    as [okx link].
  simpl in Hl.
  destruct (copyLinkWrenches_defined (getRobotModel ek) link (m_wrenchSources st') 0
              (m_estimatedExtWrenches st')) as [est Hest]; [lia | exact Hl |].
  rewrite Hest. simpl.
  destruct (updateKinematicsFromFloatingBase _ _ _ _ _) as [ok2 jh1].
  destruct ok2; simpl; [| eauto].
  rewrite Hjsv. simpl.
  destruct (updateEstimateInformationFloatingBase jsv _ _ _ _ _ _) as [jsv1 jh2].
  destruct (doEstimate jsv1 jh2) as [ok3 jsv2].
  destruct ok3; simpl; [| eauto].
  destruct (extractJointTorquesFromDynamicVariables _ _ _ _) as [ok4 torques].
  destruct ok4; simpl; eauto.
Qed.

(** ** The entries of the measurement vector that a call does not write *)

Lemma lookup_repeat_lt (x : double) (n i : nat) :
  (i < n)%nat -> repeat x n !! i = Some x.
Proof.
  revert i. induction n as [| n IH]; intros i Hi; [lia |].
  destruct i as [| i]; [reflexivity |]. simpl. apply IH. lia.
Qed.

(** X15: a call of [updateExtWrenchesMeasurements] leaves nothing of the
    measurements of the call before: whether it returns true or false, every
    entry of the measurement vector outside the slots of the fixed sources,
    and outside the slots of the consistency measurement when it returns
    true, is zero afterwards. *)
Theorem unwritten_measurements_are_zero (world_gravity : Vector3) (st : HumanID)
    (wrenches : gmap string Wrench) (st1 : HumanID) (k : KinDynComputations)
    (ok : bool) (st' : HumanID) (p : Z) :
  synchronizeFullModel st = Some st1 ->
  ext_kinDyn st1 = Some k ->
  updateExtWrenchesMeasurements fresh_Transform world_gravity st wrenches
    = Some (ok, st') ->
  0 <= p < Z.of_nat (length (measurement (helper (m_extWrenchesEstimator st)))) ->
  (forall src, src ∈ m_wrenchSources st -> type src = Fixed ->
               ~ in_slots (frameOffset st1 k (outputFrame src)) p) ->
  (ok = true -> ~ in_slots (rcmOffset st1) p) ->
  VectorDynSize_get (measurement (helper (m_extWrenchesEstimator st'))) p = Some zero.
Proof.
  intros Hsync Hek Hup Hp Hfixed Hrcm.
  destruct (IDTheory.synchronizeFullModel_keeps _ _ Hsync) as (Hs & Hh & _).
  assert (VectorDynSize_get
            (VectorDynSize_zero (measurement (helper (m_extWrenchesEstimator st1)))) p
          = Some zero) as Hzero.
  { unfold VectorDynSize_get, VectorDynSize_zero. rewrite Hh.
    destruct (Z.leb_spec 0 p) as [_ | Hneg]; [| lia].
    apply lookup_repeat_lt. lia. }
  revert Hup. unfold updateExtWrenchesMeasurements. rewrite Hsync. simpl.
  rewrite Hek.
  destruct (updateWrenchSources _ _ _ _ _) as [[[ok1 sources] meas] |] eqn:Hloop;
    [| discriminate].
  simpl.
  destruct (IDTheory.updateWrenchSources_frame _ _ _ _ _ _ _ _ Hloop) as [_ Hframe].
  assert (VectorDynSize_get meas p = Some zero) as Hmeas.
  { rewrite <- Hzero. apply Hframe. rewrite Hs. exact Hfixed. }
  destruct ok1; simpl.
  - destruct (computeRCMInBaseFrame _ _ _) as [rcm |]; [| discriminate]. simpl.
    destruct (write_wrench meas _ rcm) as [meas' |] eqn:Hw; [| discriminate].
    simpl. intros [= <- <-]. simpl.
    destruct (IDTheory.write_wrench_spec _ _ _ _ Hw) as (_ & Hother & _).
    rewrite <- Hmeas. apply Hother. exact (Hrcm eq_refl).
  - intros [= <- <-]. simpl. exact Hmeas.
Qed.

(** ** The covariance of the measurements *)

Lemma setTriplet_spec (t : Triplet) (ts : list Triplet) :
  (Forall on_diagonal ts -> on_diagonal t -> Forall on_diagonal (setTriplet ts t)) /\
  (forall q, q ∈ position_of <$> setTriplet ts t ->
             q ∈ position_of <$> ts \/ q = position_of t) /\
  (NoDup (position_of <$> ts) -> NoDup (position_of <$> setTriplet ts t)).
Proof.
  induction ts as [| u ts IH]; simpl.
  - repeat split.
    + intros _ Ht. repeat constructor. exact Ht.
    + intros q Hq. apply list_elem_of_singleton in Hq. auto.
    + intros _. apply NoDup_singleton.
  - destruct IH as (IHd & IHe & IHn).
    destruct ((u.1.1 =? t.1.1) && (u.1.2 =? t.1.2)) eqn:Hsame.
    + apply andb_true_iff in Hsame as [H1 H2].
      apply Z.eqb_eq in H1, H2.
      assert (position_of t = position_of u) as Hpos.
      { unfold position_of. destruct u as [[a b] x], t as [[a' b'] x'].
        simpl in *. congruence. }
      repeat split.
      * intros Hall Ht. inversion Hall; subst. constructor; assumption.
      * intros q. simpl. rewrite Hpos. auto.
      * simpl. rewrite Hpos. exact (fun x => x).
    + assert (position_of u <> position_of t) as Hpos.
      { unfold position_of. intros Heq.
        assert (u.1.1 = t.1.1 /\ u.1.2 = t.1.2) as [H1 H2]
          by (rewrite Heq; auto).
        apply Z.eqb_eq in H1, H2. rewrite H1, H2 in Hsame. discriminate. }
      repeat split.
      * intros Hall Ht. inversion Hall; subst. constructor; auto.
      * intros q. simpl. rewrite !elem_of_cons.
        intros [-> | Hq]; [auto |]. destruct (IHe q Hq); auto.
      * simpl. rewrite !NoDup_cons. intros [Hnotin Hnd]. split; [| auto].
        intros Hin. destruct (IHe _ Hin); contradiction.
Qed.

Lemma foldl_setTriplet_spec (l : list Triplet) :
  forall ts,
    (Forall on_diagonal l -> Forall on_diagonal ts ->
     Forall on_diagonal (foldl setTriplet ts l)) /\
    (NoDup (position_of <$> ts) -> NoDup (position_of <$> foldl setTriplet ts l)).
Proof.
  induction l as [| t l IH]; intros ts; simpl.
  - auto.
  - destruct (setTriplet_spec t ts) as (Hd & _ & Hn).
    destruct (IH (setTriplet ts t)) as [IHd IHn].
    split.
    + intros Hall Hts. inversion Hall; subst. auto.
    + auto.
Qed.

Lemma diagonal_triplets_spec (ts : list Triplet) (off : Z) (values : list double) :
  (Forall on_diagonal ts -> Forall on_diagonal (diagonal_triplets ts off values)) /\
  (NoDup (position_of <$> ts) ->
   NoDup (position_of <$> diagonal_triplets ts off values)).
Proof.
  unfold diagonal_triplets.
  destruct (foldl_setTriplet_spec
              (imap (fun i x => (off + Z.of_nat i, off + Z.of_nat i, x)) values) ts)
    as [Hd Hn].
  split; [| exact Hn].
  apply Hd. apply Forall_lookup. intros i t Hi.
  rewrite list_lookup_imap in Hi.
  destruct (values !! i); simpl in Hi; [| discriminate].
  injection Hi as <-. reflexivity.
Qed.

Lemma measurementsCovarianceTriplets_spec (p : MAPEstParams)
    (sensorsOrdering : list BerdySensor) :
  forall ts ts',
    measurementsCovarianceTriplets p sensorsOrdering ts = Some ts' ->
    (Forall on_diagonal ts -> Forall on_diagonal ts') /\
    (NoDup (position_of <$> ts) -> NoDup (position_of <$> ts')).
Proof.
  induction sensorsOrdering as [| sensor rest IH]; intros ts ts'; simpl.
  - intros [= <-]. auto.
  - destruct (sensor_type sensor); try (apply IH).
    + destruct (match specificMeasurementsCovariance p !! sensor_id sensor with
                | Some v => _
                | None => _
                end) as [c |]; simpl; [| discriminate].
      intros Hrest. destruct (IH _ _ Hrest) as [Hd Hn].
      destruct (diagonal_triplets_spec ts (offset (sensor_range sensor)) c). auto.
    + destruct (specificMeasurementsCovariance p !! "RCM_SENSOR") as [v |];
        simpl; [| discriminate].
      destruct (first_six v) as [c |]; simpl; [| discriminate].
      intros Hrest. destruct (IH _ _ Hrest) as [Hd Hn].
      destruct (diagonal_triplets_spec ts (offset (sensor_range sensor)) c). auto.
Qed.

(** X16: the covariance of the measurements that the solver of the
    external wrenches is given is a diagonal matrix, whatever the sensors of
    the helper and the covariances of the configuration: every triplet of the
    list built for it is on the diagonal, and no two triplets have the same
    position. *)
Theorem measurements_covariance_is_diagonal (p : MAPEstParams)
    (sensorsOrdering : list BerdySensor) (ts : list Triplet) :
  measurementsCovarianceTriplets p sensorsOrdering [] = Some ts ->
  Forall on_diagonal ts /\ NoDup (position_of <$> ts).
Proof.
  intros Hts.
  destruct (measurementsCovarianceTriplets_spec _ _ _ _ Hts) as [Hd Hn].
  split; [apply Hd; constructor | apply Hn; constructor].
Qed.

(** ** The joint state of the estimator *)

Lemma matchingJoint_Some (m : Model) (name : string) (n : nat) :
  forall j i,
    matchingJoint m name j n = Some i ->
    (j <= i < j + n)%nat /\ name = getJointName m i /\
    forall i', (j <= i' < i)%nat -> getJointName m i' <> name.
Proof.
  induction n as [| n IH]; intros j i; simpl; [discriminate |].
  destruct (String.eqb name (getJointName m j)) eqn:Heq.
  - intros [= <-]. apply String.eqb_eq in Heq.
    split; [lia |]. split; [exact Heq |]. intros i' Hi'. lia.
  - intros Hrest. destruct (IH _ _ Hrest) as (Hi & Hname & Hfirst).
    split; [lia |]. split; [exact Hname |].
    intros i' Hi'. destruct (decide (i' = j)) as [-> | Hne].
    + apply String.eqb_neq in Heq. congruence.
    + apply Hfirst. lia.
Qed.

Lemma matchingJoint_None (m : Model) (name : string) (n : nat) :
  forall j,
    matchingJoint m name j n = None ->
    forall i', (j <= i' < j + n)%nat -> getJointName m i' <> name.
Proof.
  induction n as [| n IH]; intros j; simpl; [intros _ i' Hi'; lia |].
  destruct (String.eqb name (getJointName m j)) eqn:Heq; [discriminate |].
  intros Hrest i' Hi'. destruct (decide (i' = j)) as [-> | Hne].
  - apply String.eqb_neq in Heq. congruence.
  - apply (IH _ Hrest). lia.
Qed.

Lemma VectorDynSize_get_nat (v : VectorDynSize) (j : nat) :
  VectorDynSize_get v (Z.of_nat j) = v !! j.
Proof.
  unfold VectorDynSize_get.
  destruct (Z.leb_spec 0 (Z.of_nat j)) as [_ | Hneg]; [| lia].
  rewrite Nat2Z.id. reflexivity.
Qed.

Lemma copyJointState_spec (ext main : KinDynComputations) (rs : RobotState)
    (n : nat) :
  forall i q qd q' qd',
    copyJointState ext main rs i n q qd = Some (q', qd') ->
    length q' = length q /\ length qd' = length qd /\
    (forall p, (p < i \/ i + n <= p)%nat ->
               q' !! p = q !! p /\ qd' !! p = qd !! p) /\
    (forall p, (i <= p < i + n)%nat ->
               match matchingJoint (getRobotModel main)
                                   (getJointName (getRobotModel ext) p)
                                   0 (getNrOfDegreesOfFreedom main) with
               | Some j =>
                   is_Some (q' !! p) /\ q' !! p = s rs !! j /\
                   qd' !! p = s_dot rs !! j
               | None => q' !! p = q !! p /\ qd' !! p = qd !! p
               end).
Proof.
  induction n as [| n IH]; intros i q qd q' qd'; simpl.
  - intros [= <- <-]. repeat split; intros; lia.
  - destruct (matchingJoint _ _ _ _) as [j |] eqn:Hj.
    + rewrite !VectorDynSize_get_nat.
      destruct (s rs !! j) as [x |] eqn:Hx; [| discriminate]. simpl.
      destruct (VectorDynSize_set q (Z.of_nat i) x) as [q1 |] eqn:Hq1;
        [| discriminate].
      simpl.
      destruct (s_dot rs !! j) as [xd |] eqn:Hxd; [| discriminate]. simpl.
      destruct (VectorDynSize_set qd (Z.of_nat i) xd) as [qd1 |] eqn:Hqd1;
        [| discriminate].
      simpl. intros Hrest.
      destruct (IDTheory.VectorDynSize_set_inv _ _ _ _ Hq1) as [Hi ->].
      destruct (IDTheory.VectorDynSize_set_inv _ _ _ _ Hqd1) as [Hid ->].
      rewrite Nat2Z.id in Hrest.
      destruct (IH _ _ _ _ _ Hrest) as (Hl & Hld & Hout & Hin).
      rewrite !length_insert in Hl, Hld.
      split; [exact Hl |]. split; [exact Hld |]. split.
      * intros p Hp. destruct (Hout p) as [H1 H2]; [lia |].
        split; [rewrite H1 | rewrite H2]; apply list_lookup_insert_ne; lia.
      * intros p Hp. destruct (decide (p = i)) as [-> | Hne].
        -- rewrite Hj. destruct (Hout i) as [H1 H2]; [lia |].
           rewrite H1, H2, Hx, Hxd.
           rewrite (list_lookup_insert_eq q i x) by lia.
           rewrite (list_lookup_insert_eq qd i xd) by lia. eauto.
        -- specialize (Hin p ltac:(lia)). revert Hin.
           destruct (matchingJoint _ (getJointName (getRobotModel ext) p) _ _)
             as [j' |]; [exact (fun x => x) |].
           intros [H1 H2].
           split; [rewrite H1 | rewrite H2]; apply list_lookup_insert_ne; lia.
    + intros Hrest.
      destruct (IH _ _ _ _ _ Hrest) as (Hl & Hld & Hout & Hin).
      split; [exact Hl |]. split; [exact Hld |]. split.
      * intros p Hp. apply Hout. lia.
      * intros p Hp. destruct (decide (p = i)) as [-> | Hne].
        -- rewrite Hj. apply Hout. lia.
        -- apply Hin. lia.
Qed.

(** X17: the joint state of the model of the object is copied into the
    vectors of the estimator by the names of the joints: the entry of every
    joint of the model of the estimator is the position, and the velocity, of
    the first joint of the model of the object that has its name; the entry
    of a joint whose name the model of the object does not have is left as it
    was, and so are the entries past the joints of the estimator; and the
    lengths of the vectors are unchanged. *)
Theorem joint_state_is_copied_by_name (ext main : KinDynComputations)
    (rs : RobotState) (q qd q' qd' : VectorDynSize) :
  copyJointState ext main rs 0 (getNrOfDegreesOfFreedom ext) q qd = Some (q', qd') ->
  length q' = length q /\ length qd' = length qd /\
  forall p,
    let name := getJointName (getRobotModel ext) p in
    ((p < getNrOfDegreesOfFreedom ext)%nat ->
     (forall j,
        (j < getNrOfDegreesOfFreedom main)%nat ->
        getJointName (getRobotModel main) j = name ->
        (forall j', (j' < j)%nat -> getJointName (getRobotModel main) j' <> name) ->
        is_Some (q' !! p) /\ q' !! p = s rs !! j /\ qd' !! p = s_dot rs !! j) /\
     ((forall j, (j < getNrOfDegreesOfFreedom main)%nat ->
                 getJointName (getRobotModel main) j <> name) ->
      q' !! p = q !! p /\ qd' !! p = qd !! p)) /\
    ((getNrOfDegreesOfFreedom ext <= p)%nat ->
     q' !! p = q !! p /\ qd' !! p = qd !! p).
Proof.
  intros Hcopy.
  destruct (copyJointState_spec _ _ _ _ _ _ _ _ _ Hcopy) as (Hl & Hld & Hout & Hin).
  split; [exact Hl |]. split; [exact Hld |].
  intros p name. split; [| intros Hp; apply Hout; lia].
  intros Hp. specialize (Hin p ltac:(lia)). fold name in Hin.
  destruct (matchingJoint _ name _ _) as [j0 |] eqn:Hj0.
  - destruct (matchingJoint_Some _ _ _ _ _ Hj0) as (Hr & Hname & Hfirst).
    split.
    + intros j Hj Hjname Hjfirst.
      assert (j = j0) as ->; [| exact Hin].
      destruct (Nat.lt_trichotomy j j0) as [Hlt | [Heq | Hgt]]; [| exact Heq |].
      * exfalso. apply (Hfirst j); [lia | exact Hjname].
      * exfalso. apply (Hjfirst j0 Hgt). symmetry. exact Hname.
    + intros Hnone. exfalso. apply (Hnone j0); [lia |]. symmetry. exact Hname.
  - split; [| intros _; exact Hin].
    intros j Hj Hjname _. exfalso.
    apply (matchingJoint_None _ _ _ _ Hj0 j); [lia | exact Hjname].
Qed.

(** ** A call of [updateExtWrenchesMeasurements] that returns false *)

Lemma updateWrenchSources_false (wrenches : gmap string Wrench)
    (k : KinDynComputations) (bh : BerdyHelper) (sources : list WrenchSourceData) :
  forall meas sources' meas',
    updateWrenchSources wrenches (Some k) bh sources meas
      = Some (false, sources', meas') ->
    exists pre src post pre',
      sources = pre ++ src :: post /\
      type src = Fixed /\
      wrenches !! outputFrame src = None /\
      Forall2 (fun s0 s1 => resolved wrenches k s0 = Some s1) pre pre' /\
      sources' = pre' ++ src :: post /\
      forall p,
        (forall s0, s0 ∈ pre -> type s0 = Fixed ->
                    ~ in_slots (sourceOffset bh k s0) p) ->
        VectorDynSize_get meas' p = VectorDynSize_get meas p.
Proof.
  induction sources as [| src rest IH]; intros meas sources' meas'; simpl.
  - discriminate.
  - destruct (type src) eqn:Hty.
    + destruct (wrenches !! outputFrame src) as [raw |] eqn:Hraw.
      * simpl.
        destruct (write_wrench meas _ _) as [meas1 |] eqn:Hw; [| discriminate].
        simpl.
        destruct (updateWrenchSources wrenches (Some k) bh rest meas1)
          as [[[ok1 rest'] meas2] |] eqn:Hrest; [| discriminate].
        simpl. intros [= -> <- <-].
        destruct (IH _ _ _ Hrest)
          as (pre & s & post & pre' & -> & Hs & Hnone & Hall & -> & Hframe).
        destruct (IDTheory.write_wrench_spec _ _ _ _ Hw) as (_ & Hother & _).
        eexists (src :: pre), s, post, (_ :: pre').
        split; [reflexivity |]. split; [exact Hs |]. split; [exact Hnone |].
        split.
        { constructor; [| exact Hall].
          unfold resolved. rewrite Hty, Hraw. reflexivity. }
        split; [reflexivity |].
        intros p Hp. rewrite Hframe.
        -- apply Hother. apply (Hp src); [apply list_elem_of_here | exact Hty].
        -- intros s0 Hin. apply Hp. apply list_elem_of_further. exact Hin.
      * intros [= <- <-].
        exists [], src, rest, []. repeat split; auto.
    + simpl.
      destruct (updateWrenchSources wrenches (Some k) bh rest meas)
        as [[[ok1 rest'] meas2] |] eqn:Hrest; [| discriminate].
      simpl. intros [= -> <- <-].
      destruct (IH _ _ _ Hrest)
        as (pre & s & post & pre' & -> & Hs & Hnone & Hall & -> & Hframe).
      eexists (src :: pre), s, post, (_ :: pre').
      split; [reflexivity |]. split; [exact Hs |]. split; [exact Hnone |].
      split.
      { constructor; [| exact Hall].
        unfold resolved. rewrite Hty. reflexivity. }
      split; [reflexivity |].
      intros p Hp. apply Hframe.
      intros s0 Hin. apply Hp. apply list_elem_of_further. exact Hin.
Qed.

(** X19: a call of [updateExtWrenchesMeasurements] that returns false has
    stopped at the first fixed source whose frame has no measurement, and it
    is not undone: the sources before that one have been updated as in a call
    that succeeds, that source and the sources after it are as they were, and
    the consistency measurement has not been written. *)
Theorem failed_update_stops_at_the_missing_source (world_gravity : Vector3)
    (st : HumanID) (wrenches : gmap string Wrench) (st1 : HumanID)
    (k : KinDynComputations) (st' : HumanID) :
  synchronizeFullModel st = Some st1 ->
  ext_kinDyn st1 = Some k ->
  updateExtWrenchesMeasurements fresh_Transform world_gravity st wrenches
    = Some (false, st') ->
  exists pre src post pre',
    m_wrenchSources st = pre ++ src :: post /\
    type src = Fixed /\
    wrenches !! outputFrame src = None /\
    Forall2 (fun s0 s1 => resolved wrenches k s0 = Some s1) pre pre' /\
    m_wrenchSources st' = pre' ++ src :: post /\
    forall p,
      0 <= p < Z.of_nat (length (measurement (helper (m_extWrenchesEstimator st)))) ->
      (forall s0, s0 ∈ pre -> type s0 = Fixed ->
                  ~ in_slots (frameOffset st1 k (outputFrame s0)) p) ->
      VectorDynSize_get (measurement (helper (m_extWrenchesEstimator st'))) p
        = Some zero.
Proof.
  intros Hsync Hek.
  destruct (IDTheory.synchronizeFullModel_keeps _ _ Hsync) as (Hs & Hh & _).
  unfold updateExtWrenchesMeasurements. rewrite Hsync. simpl. rewrite Hek.
  destruct (updateWrenchSources _ _ _ _ _) as [[[ok1 sources] meas] |] eqn:Hloop;
    [| discriminate].
  simpl. destruct ok1; simpl.
  { destruct (computeRCMInBaseFrame _ _ _) as [rcm |]; [| discriminate]. simpl.
    destruct (write_wrench meas _ rcm) as [meas' |]; discriminate. }
  intros [= <-]. simpl.
  destruct (updateWrenchSources_false _ _ _ _ _ _ _ Hloop)
    as (pre & src & post & pre' & Hsrc & Hty & Hnone & Hall & -> & Hframe).
  exists pre, src, post, pre'. rewrite <- Hs.
  repeat (split; [assumption || reflexivity |]).
  intros p Hp Hout. rewrite (Hframe p Hout).
  unfold VectorDynSize_get, VectorDynSize_zero. rewrite Hh.
  destruct (Z.leb_spec 0 p) as [_ | Hneg]; [| lia].
  apply lookup_repeat_lt. lia.
Qed.

End Properties.

End IDBehaviour.

(** ** On the stand-ins *)

Module IDBehaviourExamples.

Import ID MockID IDBehaviour.

(** The configuration of the stand-in is accepted, and it has what a
    successful [initialize] needs. *)
Lemma initialize_configured_witness :
  exists ptr k,
    Some configuration = Some ptr /\ Some model = Some k /\ isValid k = true /\
    configured ptr /\
    m_kinDyn started = Some k /\
    Some (m_humanMass started) = getParameter_double ptr "humanMass".
Proof.
  apply (initialize_succeeds_only_when_configured sensorTypeNames zero identity
           Wrench_zero fresh (Some configuration) (Some model) started).
  vm_compute. reflexivity.
Defined.

(** The object that holds the two sources of the configuration is
    initialized again: it then holds four sources and four estimated
    wrenches. *)
Lemma initialize_appends_witness :
  let again :=
    default fresh
      (snd <$> ID.initialize sensorTypeNames zero identity Wrench_zero started
                             (Some configuration) (Some model)) in
  exists g names new,
    getGroup configuration "EXTERNAL_WRENCHES" = Some g /\
    getParameter_vector_string g "wrenchSources" = Some names /\
    m_wrenchSources again = m_wrenchSources started ++ new /\
    Forall2 (fun name src =>
               readWrenchSource identity Wrench_zero g name = Some (Some src))
            names new /\
    length (getEstimatedExtWrenches again) =
      (length (m_wrenchSources started) + length names)%nat.
Proof.
  apply (initialize_appends_the_sources sensorTypeNames zero identity Wrench_zero
           started configuration (Some model)).
  vm_compute. reflexivity.
Defined.

(** The [solve] that follows the measurement of the foot returns true. *)
Lemma solve_keeps_witness :
  measurement (helper (m_extWrenchesEstimator solved)) =
    measurement (helper (m_extWrenchesEstimator measured)) /\
  measurement (m_jointTorquesHelper solved) = measurement (m_jointTorquesHelper measured) /\
  m_wrenchSources solved = m_wrenchSources measured /\
  m_kinDyn solved = m_kinDyn measured /\
  ext_kinDyn solved = ext_kinDyn measured /\
  jointPositions (m_extWrenchesEstimator solved) =
    jointPositions (m_extWrenchesEstimator measured) /\
  jointVelocities (m_extWrenchesEstimator solved) =
    jointVelocities (m_extWrenchesEstimator measured) /\
  m_humanMass solved = m_humanMass measured /\
  m_mapEstParams solved = m_mapEstParams measured.
Proof.
  apply (solve_keeps_the_measurements measured true solved).
  vm_compute. reflexivity.
Defined.

Lemma successful_solve_witness :
  exists k ek sv jsv,
    m_kinDyn measured = Some k /\
    ext_kinDyn measured = Some ek /\
    berdySolver (helper (m_extWrenchesEstimator solved)) = Some sv /\
    estimatedDynamicVariables (helper (m_extWrenchesEstimator solved)) = getLastEstimate sv /\
    berdySolver (m_jointTorquesHelper solved) = Some jsv /\
    estimatedDynamicVariables (m_jointTorquesHelper solved) = getLastEstimate jsv /\
    length (getEstimatedExtWrenches solved) = length (getEstimatedExtWrenches measured) /\
    (forall i src,
       m_wrenchSources measured !! i = Some src ->
       exists w,
         LinkWrenches_at (heldLinkWrenches solved ek)
                         (getLinkIndex (getRobotModel ek) (outputFrame src)) = Some w /\
         getEstimatedExtWrenches solved !! i = Some w) /\
    extractJointTorquesFromDynamicVariables
      (berdyHelper (m_jointTorquesHelper solved)) (getLastEstimate jsv)
      (getJointPos k) (getJointTorques measured) = (true, getJointTorques solved).
Proof.
  apply (successful_solve_outputs measured solved).
  vm_compute. reflexivity.
Defined.

(** After a measurement and a [solve]. *)
Lemma operational_witness :
  let cs := [CallUpdateExtWrenchesMeasurements Mock.zero3 observations; CallSolve] in
  let st' := default fresh (calls identity started cs) in
  length (getEstimatedExtWrenches st') = length (m_wrenchSources st') /\
  (exists ek, kinDyn (m_extWrenchesEstimator st') = Own ek) /\
  useFullModel (m_extWrenchesEstimator st') = true /\
  m_kinDyn st' = Some model /\
  is_Some (berdySolver (helper (m_extWrenchesEstimator st'))) /\
  is_Some (berdySolver (m_jointTorquesHelper st')).
Proof.
  apply (initialized_object_stays_operational sensorTypeNames zero identity
           Wrench_zero fresh (Some configuration) (Some model) started
           [CallUpdateExtWrenchesMeasurements Mock.zero3 observations; CallSolve]).
  - vm_compute. reflexivity.
  - vm_compute. reflexivity.
Defined.

(** A measurement in which the foot is missing, which returns false, a
    measurement of the foot and a [solve]. *)
Lemma configured_sources_witness :
  let cs := [CallUpdateExtWrenchesMeasurements Mock.zero3 ∅;
             CallUpdateExtWrenchesMeasurements Mock.zero3 observations;
             CallSolve] in
  let st' := default fresh (calls identity started cs) in
  configured_part <$> m_wrenchSources st' = configured_part <$> m_wrenchSources started /\
  length (m_wrenchSources st') = length (m_wrenchSources started) /\
  m_humanMass st' = m_humanMass started /\
  length (measurement (helper (m_extWrenchesEstimator st'))) =
    length (measurement (helper (m_extWrenchesEstimator started))).
Proof.
  apply (calls_keep_the_configured_sources identity started
           [CallUpdateExtWrenchesMeasurements Mock.zero3 ∅;
            CallUpdateExtWrenchesMeasurements Mock.zero3 observations;
            CallSolve]).
  vm_compute. reflexivity.
Defined.

(** The frames of the two sources, the left foot and the right hand, are
    links of the model of the estimator. *)
Lemma solve_defined_witness :
  let cs := [CallUpdateExtWrenchesMeasurements Mock.zero3 observations] in
  let st' := default fresh (calls identity started cs) in
  is_Some (solve st').
Proof.
  apply (solve_is_defined_on_links sensorTypeNames zero identity Wrench_zero
           fresh (Some configuration) (Some model) started
           [CallUpdateExtWrenchesMeasurements Mock.zero3 observations]).
  - vm_compute. reflexivity.
  - vm_compute. reflexivity.
  - intros ek bh v src Hek Hin.
    vm_compute in Hek. injection Hek as <-.
    vm_compute in Hin.
    apply elem_of_cons in Hin as [-> | Hin];
      [| apply elem_of_cons in Hin as [-> | Hin]; [| inversion Hin]];
      vm_compute; eexists; reflexivity.
Defined.

(** Entry 13 of the measurement vector is a slot of the right hand, whose
    source is a dummy source: the measurement of the foot leaves it zero. *)
Lemma unwritten_measurements_witness :
  VectorDynSize_get (measurement (helper (m_extWrenchesEstimator measured))) 13
    = Some zero.
Proof.
  apply (unwritten_measurements_are_zero identity Mock.zero3 started observations
           started estimator_model true measured 13).
  - vm_compute. reflexivity.
  - vm_compute. reflexivity.
  - vm_compute. reflexivity.
  - vm_compute. split; [discriminate | reflexivity].
  - intros src Hin Hty. vm_compute in Hin.
    apply elem_of_cons in Hin as [-> | Hin];
      [| apply elem_of_cons in Hin as [-> | Hin]; [discriminate Hty | inversion Hin]].
    vm_compute. intros [_ H]. discriminate H.
  - intros _. vm_compute. intros [H _]. apply H. reflexivity.
Defined.

(** The covariance that the estimator of the stand-in is given. *)
Lemma measurements_covariance_witness :
  let p := m_mapEstParams started in
  let sensorsOrdering :=
    getSensorsOrdering (berdyHelper (helper (m_extWrenchesEstimator started))) in
  let ts := default [] (measurementsCovarianceTriplets p sensorsOrdering []) in
  length ts = 24%nat /\ Forall on_diagonal ts /\ NoDup (position_of <$> ts).
Proof.
  split; [vm_compute; reflexivity |].
  apply (measurements_covariance_is_diagonal (m_mapEstParams started)
           (getSensorsOrdering (berdyHelper (helper (m_extWrenchesEstimator started))))).
  vm_compute. reflexivity.
Defined.

(** A model of the caller whose joints are in another order, with a joint
    that the model of the estimator does not have. *)
Lemma joint_state_witness :
  let estimator_model : @KinDynComputations idyntreeTypes := estimator_model in
  let main : @KinDynComputations idyntreeTypes :=
    mkKin (mkSkeleton ["jRightWrist"; "jNeck"; "jLeftAnkle"]
                      ["Pelvis"; "LeftFoot"; "RightHand"])
          "Pelvis" (rest 3) in
  let rs := mkRobotState identity [d 1; d 2; d 3] (mkTwist Mock.zero3 Mock.zero3)
                         [d 4; d 5; d 6] (zero, zero, opp (of_Z 10)) in
  let q := [zero; zero] in
  let q' := [d 3; d 1] in
  let qd' := [d 6; d 4] in
  length q' = length q /\ length qd' = length q /\
  forall p,
    let name := getJointName (getRobotModel estimator_model) p in
    ((p < getNrOfDegreesOfFreedom estimator_model)%nat ->
     (forall j,
        (j < getNrOfDegreesOfFreedom main)%nat ->
        getJointName (getRobotModel main) j = name ->
        (forall j', (j' < j)%nat -> getJointName (getRobotModel main) j' <> name) ->
        is_Some (q' !! p) /\ q' !! p = s rs !! j /\ qd' !! p = s_dot rs !! j) /\
     ((forall j, (j < getNrOfDegreesOfFreedom main)%nat ->
                 getJointName (getRobotModel main) j <> name) ->
      q' !! p = q !! p /\ qd' !! p = q !! p)) /\
    ((getNrOfDegreesOfFreedom estimator_model <= p)%nat ->
     q' !! p = q !! p /\ qd' !! p = q !! p).
Proof.
  apply (joint_state_is_copied_by_name
           (estimator_model : @KinDynComputations idyntreeTypes)
           (mkKin (mkSkeleton ["jRightWrist"; "jNeck"; "jLeftAnkle"]
                              ["Pelvis"; "LeftFoot"; "RightHand"])
                  "Pelvis" (rest 3) : @KinDynComputations idyntreeTypes)
           (mkRobotState identity [d 1; d 2; d 3] (mkTwist Mock.zero3 Mock.zero3)
                         [d 4; d 5; d 6] (zero, zero, opp (of_Z 10)))
           [zero; zero] [zero; zero] [d 3; d 1] [d 6; d 4]).
  vm_compute. reflexivity.
Defined.

(** No measurement at all: the call stops at the first source, the fixed
    source of the left foot. *)
Lemma failed_update_witness :
  let wrenches : gmap string Wrench := ∅ in
  let st' := default fresh (snd <$> updateExtWrenchesMeasurements Mock.zero3 started wrenches) in
  exists pre src post pre',
    m_wrenchSources started = pre ++ src :: post /\
    type src = Fixed /\
    wrenches !! outputFrame src = None /\
    Forall2 (fun s0 s1 => resolved wrenches estimator_model s0 = Some s1) pre pre' /\
    m_wrenchSources st' = pre' ++ src :: post /\
    forall p,
      0 <= p < Z.of_nat (length (measurement (helper (m_extWrenchesEstimator started)))) ->
      (forall s0, s0 ∈ pre -> type s0 = Fixed ->
                  ~ in_slots (frameOffset started estimator_model (outputFrame s0)) p) ->
      VectorDynSize_get (measurement (helper (m_extWrenchesEstimator st'))) p
        = Some zero.
Proof.
  apply (failed_update_stops_at_the_missing_source identity Mock.zero3 started ∅
           started estimator_model).
  - vm_compute. reflexivity.
  - vm_compute. reflexivity.
  - vm_compute. reflexivity.
Defined.

End IDBehaviourExamples.
